(** * EOB extraction pipeline: the orchestrator and the record merger

    A shallow embedding of [process_pdf] (src/processor.py) and of
    [all_helpers.combine_records] (src/helper.py), with the properties the
    specification states about them.

    Python values are modelled as they reach the code: strings are lists of
    Unicode code points, the objects produced by [json.loads] are a tree of
    [value]s whose dictionaries keep insertion order, and a call that may
    raise returns a [result].  The exceptions modelled are the instances of
    [Exception], the ones an [except Exception] clause catches.  Calls to
    [logger] and [print] only write to the console and are left out.

    The helper methods that only wrap a service (the S3 client, the OCR
    client, the tokenizer, the chat model) are variables of the development:
    [process_pdf] is stated for every behaviour they may have.  Each of them
    runs in a world that it may change, so that two calls with the same
    arguments need not agree. *)

From Stdlib Require Import List ZArith NArith String Ascii Bool Lia.
From Stdlib Require Import DecimalString SpecFloat DecimalPos Sorted.
Import ListNotations.

(** ** Strings *)

(** A Python [str]: its code points. *)
Definition pystr := list N.

(** An ASCII literal as a [pystr]. *)
Definition lit (s : string) : pystr :=
  map N_of_ascii (list_ascii_of_string s).

Fixpoint str_eqb (a b : pystr) : bool :=
  match a, b with
  | [], [] => true
  | x :: a', y :: b' => N.eqb x y && str_eqb a' b'
  | _, _ => false
  end.

Definition is_empty (s : pystr) : bool :=
  match s with [] => true | _ :: _ => false end.

(** [str.isspace] on one code point, as CPython decides it. *)
Definition isspace (c : N) : bool :=
  ((9 <=? c) && (c <=? 13) || (28 <=? c) && (c <=? 32)
   || (c =? 133) || (c =? 160) || (c =? 5760)
   || (8192 <=? c) && (c <=? 8202)
   || (c =? 8232) || (c =? 8233) || (c =? 8239) || (c =? 8287)
   || (c =? 12288))%N.

Fixpoint lstrip (s : pystr) : pystr :=
  match s with
  | c :: s' => if isspace c then lstrip s' else s
  | [] => []
  end.

Definition rstrip (s : pystr) : pystr := rev (lstrip (rev s)).

(** [s.strip()] *)
Definition strip (s : pystr) : pystr := rstrip (lstrip s).

(** [str(n)] for a page number. *)
Definition str_of_nat (n : nat) : pystr :=
  lit (NilEmpty.string_of_uint (Nat.to_uint n)).

(** ** Exceptions and results *)

Inductive exn_class :=
| JSONDecodeError | AttributeError | TypeError | ValueError | KeyError
| RecursionError | RuntimeError | OtherException.

(** An exception: its class and [str(e)]. *)
Record exn := Exn { exn_class_of : exn_class; exn_str : pystr }.

Inductive result (A : Type) :=
| Ok (a : A)
| Raise (e : exn).
Arguments Ok {A} a.
Arguments Raise {A} e.

Definition bind {A B} (r : result A) (k : A -> result B) : result B :=
  match r with
  | Ok a => k a
  | Raise e => Raise e
  end.

Notation "x <- c ;; k" := (bind c (fun x => k))
  (at level 61, c at next level, right associativity).

(** ** Values *)

(** What [json.loads] builds. A dictionary is the list of its items in
    insertion order. *)
#[local] Unset Elimination Schemes.
Inductive value :=
| VNone
| VBool (b : bool)
| VInt (z : Z)
| VFloat (f : spec_float)
| VStr (s : pystr)
| VList (l : list value)
| VDict (d : list (pystr * value)).
#[local] Set Elimination Schemes.

Definition dict := list (pystr * value).

Fixpoint dict_lookup (key : pystr) (d : dict) : option value :=
  match d with
  | [] => None
  | (k, v) :: d' => if str_eqb key k then Some v else dict_lookup key d'
  end.

(** [d[key] = v]: an existing key keeps its place, a new one goes last. *)
Fixpoint dict_set (key : pystr) (v : value) (d : dict) : dict :=
  match d with
  | [] => [(key, v)]
  | (k, x) :: d' =>
      if str_eqb key k then (k, v) :: d' else (k, x) :: dict_set key v d'
  end.

Definition dict_keys (d : dict) : list pystr := map fst d.
Definition dict_values (d : dict) : list value := map snd d.

(** Truth value of an object. *)
Definition truthy (v : value) : bool :=
  match v with
  | VNone => false
  | VBool b => b
  | VInt z => negb (z =? 0)%Z
  | VFloat (S754_zero _) => false
  | VFloat _ => true
  | VStr s => negb (is_empty s)
  | VList [] => false
  | VList _ => true
  | VDict [] => false
  | VDict _ => true
  end.

(** [a or b] *)
Definition py_or (a b : value) : value := if truthy a then a else b.

Definition type_name (v : value) : string :=
  match v with
  | VNone => "NoneType"
  | VBool _ => "bool"
  | VInt _ => "int"
  | VFloat _ => "float"
  | VStr _ => "str"
  | VList _ => "list"
  | VDict _ => "dict"
  end.

Definition no_attribute (v : value) (attr : string) : exn :=
  Exn AttributeError
      (lit ("'" ++ type_name v ++ "' object has no attribute '" ++ attr ++ "'")).

Definition not_iterable (v : value) : exn :=
  Exn TypeError (lit ("'" ++ type_name v ++ "' object is not iterable")).

(** [v.get(key, default)] *)
Definition py_get (v : value) (key : pystr) (default : value) : result value :=
  match v with
  | VDict d =>
      Ok (match dict_lookup key d with Some x => x | None => default end)
  | _ => Raise (no_attribute v "get")
  end.

(** [v.strip()] *)
Definition py_strip (v : value) : result pystr :=
  match v with
  | VStr s => Ok (strip s)
  | _ => Raise (no_attribute v "strip")
  end.

(** The items a [for] loop over [v] visits. *)
Definition py_iter (v : value) : result (list value) :=
  match v with
  | VList l => Ok l
  | VDict d => Ok (map VStr (dict_keys d))
  | VStr s => Ok (map (fun c => VStr [c]) s)
  | _ => Raise (not_iterable v)
  end.

(** [target.extend(source)], giving the list [target] has become. *)
Definition py_extend (target source : value) : result value :=
  match target with
  | VList l => items <- py_iter source ;; Ok (VList (l ++ items))
  | _ => Raise (no_attribute target "extend")
  end.

(** [target[key] = v], giving the object [target] has become. *)
Definition py_setitem (target : value) (key : pystr) (v : value)
  : result value :=
  match target with
  | VDict d => Ok (VDict (dict_set key v d))
  | VList _ =>
      Raise (Exn TypeError (lit "list indices must be integers or slices, not str"))
  | _ =>
      Raise (Exn TypeError
               (lit ("'" ++ type_name target
                         ++ "' object does not support item assignment")))
  end.

(** ** More of Python's strings and containers *)

Definition newline : N := 10.

Fixpoint lstrip_if (p : N -> bool) (s : pystr) : pystr :=
  match s with
  | c :: s' => if p c then lstrip_if p s' else s
  | [] => []
  end.

(** [s.strip(chars)] for a one-character [chars]. *)
Definition strip_char (c : N) (s : pystr) : pystr :=
  rev (lstrip_if (N.eqb c) (rev (lstrip_if (N.eqb c) s))).

(** [s.replace(old, new)] for one-character [old] and [new]. *)
Definition replace_char (old new : N) (s : pystr) : pystr :=
  map (fun c => if N.eqb c old then new else c) s.

(** [sep.join(parts)] *)
Fixpoint join (sep : pystr) (parts : list pystr) : pystr :=
  match parts with
  | [] => []
  | [p] => p
  | p :: rest => p ++ sep ++ join sep rest
  end.

(** [str(z)] for an integer. *)
Definition str_of_Z (z : Z) : pystr :=
  lit (NilEmpty.string_of_int (Z.to_int z)).

(** [range(n)] *)
Definition range (n : Z) : list Z := map Z.of_nat (seq 0 (Z.to_nat n)).

Fixpoint take_while (p : N -> bool) (s : pystr) : pystr :=
  match s with
  | c :: s' => if p c then c :: take_while p s' else []
  | [] => []
  end.

Fixpoint drop_while (p : N -> bool) (s : pystr) : pystr :=
  match s with
  | c :: s' => if p c then drop_while p s' else s
  | [] => []
  end.

(** A dictionary over any keys, as the list of its items in insertion
    order. *)
Fixpoint assoc_get {K A} (eqb : K -> K -> bool) (key : K) (d : list (K * A))
  : option A :=
  match d with
  | [] => None
  | (k, v) :: d' => if eqb key k then Some v else assoc_get eqb key d'
  end.

Fixpoint assoc_set {K A} (eqb : K -> K -> bool) (key : K) (v : A)
    (d : list (K * A)) : list (K * A) :=
  match d with
  | [] => [(key, v)]
  | (k, x) :: d' =>
      if eqb key k then (k, v) :: d' else (k, x) :: assoc_set eqb key v d'
  end.

(** [sorted(set(keys))] for integers. *)
Fixpoint insert_sorted (x : Z) (l : list Z) : list Z :=
  match l with
  | [] => [x]
  | y :: l' =>
      if (x <? y)%Z then x :: l
      else if (x =? y)%Z then l
      else y :: insert_sorted x l'
  end.

Definition sorted_set (keys : list Z) : list Z :=
  fold_right insert_sorted [] keys.

(** A page number, or any key of a dictionary of pages: an integer or
    [None]. *)
Definition key_eqb (a b : option Z) : bool :=
  match a, b with
  | Some x, Some y => (x =? y)%Z
  | None, None => true
  | _, _ => false
  end.

(** [str(key)] *)
Definition str_of_key (key : option Z) : pystr :=
  match key with
  | Some n => str_of_Z n
  | None => lit "None"
  end.

Definition ints_of (keys : list (option Z)) : list Z :=
  flat_map (fun key => match key with Some n => [n] | None => [] end) keys.

Definition has_None (keys : list (option Z)) : bool :=
  existsb (fun key => match key with None => true | Some _ => false end) keys.

(** The [TypeError] of the first comparison of [None] with an integer that
    the sort makes; its text names the operands from left to right. *)
Definition unorderable (none_on_the_left : bool) : exn :=
  Exn TypeError
      (if none_on_the_left
       then lit "'<' not supported between instances of 'NoneType' and 'int'"
       else lit "'<' not supported between instances of 'int' and 'NoneType'").

(** [sorted(set(keys))]: a set of one member is sorted without a
    comparison, and [None] cannot be compared with an integer. *)
Definition sorted_keys (none_on_the_left : bool) (keys : list (option Z))
  : result (list (option Z)) :=
  let numbers := sorted_set (ints_of keys) in
  if has_None keys then
    match numbers with
    | [] => Ok [None]
    | _ :: _ => Raise (unorderable none_on_the_left)
    end
  else Ok (map Some numbers).

(** A value that is not [None]. *)
Definition not_None {A} (r : result A) : result (option A) :=
  match r with
  | Ok a => Ok (Some a)
  | Raise e => Raise e
  end.

(** ** Paths (for src/app.py) *)

(** The groups of [re.match(r"s3://([^/]+)/(.+)", path)]: after the scheme,
    the bucket is the longest run of characters other than [/], which must
    not be empty and must be followed by [/]; the key is the longest run of
    characters other than a line feed after that, which must not be empty.
    The match need not reach the end of [path]. *)
Definition parse_s3_path (path : pystr) : option (pystr * pystr) :=
  match path with
  | 115%N :: 51%N :: 58%N :: 47%N :: 47%N :: rest =>
      let bucket := take_while (fun c => negb (c =? 47)%N) rest in
      match drop_while (fun c => negb (c =? 47)%N) rest with
      | _ :: after =>
          let key := take_while (fun c => negb (c =? newline)%N) after in
          if is_empty bucket || is_empty key then None
          else Some (bucket, key)
      | [] => None
      end
  | _ => None
  end.

(** [os.path.basename(p)]: what follows the last [/]. *)
Definition basename (p : pystr) : pystr :=
  rev (take_while (fun c => negb (c =? 47)%N) (rev p)).

(** [os.path.join(a, b)] *)
Definition path_join (a b : pystr) : pystr :=
  match b with
  | 47%N :: _ => b
  | _ =>
      match rev a with
      | [] => b
      | 47%N :: _ => a ++ b
      | _ => a ++ lit "/" ++ b
      end
  end.

(** ** The service wrappers of [all_helpers] (src/helper.py)

    The objects of the OCR and chat SDKs are records; an attribute that the
    code reads with [getattr] and a default and then tests for truth is an
    option, [None] standing for an attribute that is missing or null. A page
    number is an integer or [None]; for the number of a page, which
    [getattr] replaces only when the attribute is missing, the two cases are
    kept apart. *)

Module helper.

Record DocumentWord := { word_content : option pystr }.

(** [page_number] is [None] for a page without the attribute, [Some None]
    for a page whose number is [None]. *)
Record DocumentPage := {
  page_words : option (list DocumentWord);
  page_number : option (option Z)
}.

Record BoundingRegion := { region_page_number : option Z }.

Record DocumentTableCell := {
  row_index : Z;
  column_index : Z;
  cell_content : option pystr
}.

Record DocumentTable := {
  bounding_regions : option (list BoundingRegion);
  cells : list DocumentTableCell;
  row_count : Z;
  column_count : Z
}.

Record AnalyzeResult := {
  pages : option (list DocumentPage);
  tables : option (list DocumentTable)
}.

Record ToolCall := { function_arguments : pystr }.

Record ChatChoice := {
  message_tool_calls : option (list ToolCall);
  message_content : option pystr
}.

Record ChatCompletion := { choices : list ChatChoice }.

Definition or_empty {A} (l : option (list A)) : list A :=
  match l with Some l => l | None => [] end.

Definition pair_eqb (a b : Z * Z) : bool :=
  (fst a =? fst b)%Z && (snd a =? snd b)%Z.

(** The text [_format_table] keeps of a cell. *)
Definition cell_text (cell : DocumentTableCell) : pystr :=
  strip (replace_char newline 32
           (match cell_content cell with Some s => s | None => [] end)).

(** The dictionary comprehension over [table.cells]: a later cell with the
    same indices replaces an earlier one. *)
Definition cell_map (cells : list DocumentTableCell)
  : list ((Z * Z) * pystr) :=
  fold_left (fun m cell =>
               assoc_set pair_eqb (row_index cell, column_index cell)
                         (cell_text cell) m)
            cells [].

Definition table_row (m : list ((Z * Z) * pystr)) (columns row_idx : Z)
  : pystr :=
  strip_char 124
    (join (lit "|")
          (map (fun col_idx =>
                  match assoc_get pair_eqb (row_idx, col_idx) m with
                  | Some s => s
                  | None => []
                  end) (range columns))).

Definition table_header (table : DocumentTable) (index : nat) : pystr :=
  lit "Table " ++ str_of_nat index ++ lit " (rows="
      ++ str_of_Z (row_count table) ++ lit ", cols="
      ++ str_of_Z (column_count table) ++ lit ")".

(** [all_helpers._format_table(table, index)] *)
Definition _format_table (table : DocumentTable) (index : nat) : pystr :=
  let m := cell_map (cells table) in
  let rows := map (table_row m (column_count table))
                  (range (row_count table)) in
  strip (join [newline] (table_header table index :: rows)).

(** The text of a page: its words that have content, separated by spaces. *)
Definition words_text (page : DocumentPage) : pystr :=
  strip (join (lit " ")
              (flat_map (fun word =>
                           match word_content word with
                           | Some c => if is_empty c then [] else [c]
                           | None => []
                           end)
                        (or_empty (page_words page)))).

(** [getattr(page, "page_number", fallback_idx)] *)
Definition page_number_or (page : DocumentPage) (fallback_idx : nat)
  : option Z :=
  match page_number page with
  | Some number => number
  | None => Some (Z.of_nat fallback_idx)
  end.

(** The loop over [enumerate(pages, start=fallback_idx)]. *)
Fixpoint read_pages (pages : list DocumentPage) (fallback_idx : nat)
    (page_text : list (option Z * pystr)) : list (option Z * pystr) :=
  match pages with
  | [] => page_text
  | page :: rest =>
      let number := page_number_or page fallback_idx in
      read_pages rest (S fallback_idx)
                 (assoc_set key_eqb number (words_text page) page_text)
  end.

(** The page a table is filed under. *)
Definition table_page (table : DocumentTable) : option Z :=
  match bounding_regions table with
  | Some (region :: _) => region_page_number region
  | _ => Some 1%Z
  end.

(** The loop over [enumerate(tables, start=idx)]. *)
Fixpoint read_tables (tables : list DocumentTable) (idx : nat)
    (tables_by_page : list (option Z * list (nat * pystr)))
  : list (option Z * list (nat * pystr)) :=
  match tables with
  | [] => tables_by_page
  | table :: rest =>
      let number := table_page table in
      let entries := or_empty (assoc_get key_eqb number tables_by_page) in
      read_tables rest (S idx)
                  (assoc_set key_eqb number
                             (entries ++ [(idx, _format_table table idx)])
                             tables_by_page)
  end.

(** The payload of one page. *)
Definition page_payload (page_text : list (option Z * pystr))
    (tables_by_page : list (option Z * list (nat * pystr)))
    (number : option Z) : pystr :=
  let segments := [lit "PAGE_NUMBER: " ++ str_of_key number] in
  let text_block :=
    strip (match assoc_get key_eqb number page_text with
           | Some t => t
           | None => []
           end) in
  let segments :=
    if is_empty text_block then segments
    else segments ++ [lit "TEXT:" ++ [newline] ++ text_block] in
  let table_entries := or_empty (assoc_get key_eqb number tables_by_page) in
  let segments :=
    match table_entries with
    | [] => segments
    | _ :: _ =>
        segments ++ [lit "TABLES:" ++ [newline]
                         ++ join [newline; newline] (map snd table_entries)]
    end in
  strip (join [newline; newline] segments).

(** The keys of the two dictionaries, in insertion order. *)
Definition keys_of (page_text : list (option Z * pystr))
    (tables_by_page : list (option Z * list (nat * pystr)))
  : list (option Z) :=
  map fst page_text ++ map fst tables_by_page.

(** The page numbers the payloads are built for:
    [sorted(set(page_text.keys()) | set(tables_by_page.keys())) or [1]]. *)
Definition page_numbers_of (none_on_the_left : bool)
    (page_text : list (option Z * pystr))
    (tables_by_page : list (option Z * list (nat * pystr)))
  : result (list (option Z)) :=
  numbers <- sorted_keys none_on_the_left (keys_of page_text tables_by_page) ;;
  match numbers with
  | [] => Ok [Some 1%Z]
  | _ :: _ => Ok numbers
  end.

(** The loop over [page_numbers]. *)
Definition build_payloads (page_text : list (option Z * pystr))
    (tables_by_page : list (option Z * list (nat * pystr)))
    (page_numbers : list (option Z)) : list pystr :=
  filter (fun payload => negb (is_empty payload))
         (map (page_payload page_text tables_by_page) page_numbers).

Section Services.

Variable World : Type.

(** [document_analysis_client.begin_analyze_document_from_url(model, url)]
    and the [result()] of the poller it gives. *)
Variable begin_analyze_document_from_url :
  pystr -> pystr -> World -> result (option AnalyzeResult) * World.

(** [all_helpers.ocr_processing(url)] *)
Definition ocr_processing (url : pystr) (w : World)
  : result (option AnalyzeResult) * World :=
  begin_analyze_document_from_url (lit "prebuilt-receipt") url w.

(** The order in which Python walks a set is decided by the hashes of its
    members, and with it the comparisons the sort makes: whether [None] is
    the left operand of the first one that compares it with an integer,
    for the set of these keys. *)
Variable None_on_the_left : list (option Z) -> bool.

(** The second pass, made for the tables when the first result has none; a
    fault of this pass is printed and the first result kept. *)
Definition table_pass (file_url : pystr) (result : AnalyzeResult)
    (w1 : World) : option AnalyzeResult * World :=
  match or_empty (tables result) with
  | [] =>
      match begin_analyze_document_from_url
              (lit "prebuilt-layout") file_url w1 with
      | (Ok layout, w2) => (layout, w2)
      | (Raise _, w2) => (Some result, w2)
      end
  | _ :: _ => (Some result, w1)
  end.

(** [getattr(table_result, "tables", []) or []] *)
Definition tables_of (table_result : option AnalyzeResult)
  : list DocumentTable :=
  match table_result with
  | Some r => or_empty (tables r)
  | None => []
  end.

(** [all_helpers.get_text_and_tables_from_url(file_url)] *)
Definition get_text_and_tables_from_url (file_url : pystr) (w : World)
  : result (list pystr) * World :=
  match ocr_processing file_url w with
  | (Raise e, w1) => (Raise e, w1)
  | (Ok None, w1) => (Ok [], w1)
  | (Ok (Some result), w1) =>
      let page_text := read_pages (or_empty (pages result)) 1 [] in
      let '(table_result, w2) := table_pass file_url result w1 in
      let tables_by_page := read_tables (tables_of table_result) 1 [] in
      match page_numbers_of (None_on_the_left (keys_of page_text tables_by_page))
                            page_text tables_by_page with
      | Raise e => (Raise e, w2)
      | Ok page_numbers =>
          (Ok (build_payloads page_text tables_by_page page_numbers), w2)
      end
  end.

(** The tokenizer library. *)
Variable Encoding : Type.
Variable encoding_for_model : pystr -> World -> result Encoding * World.
Variable get_encoding : pystr -> World -> result Encoding * World.
Variable encode : Encoding -> pystr -> World -> result (list Z) * World.

Definition default_model : pystr := lit "gpt-4o-mini".

(** [all_helpers.count_tokens(text, model)] *)
Definition count_tokens (text model : pystr) (w : World)
  : result Z * World :=
  let '(found, w1) :=
    match encoding_for_model model w with
    | (Raise e, w1) =>
        match exn_class_of e with
        | KeyError => get_encoding (lit "cl100k_base") w1
        | _ => (Raise e, w1)
        end
    | (Ok encoding, w1) => (Ok encoding, w1)
    end in
  match found with
  | Raise e => (Raise e, w1)
  | Ok encoding =>
      match encode encoding text w1 with
      | (Raise e, w2) => (Raise e, w2)
      | (Ok tokens, w2) => (Ok (Z.of_nat (List.length tokens)), w2)
      end
  end.

(** The chat model, called with the two messages of the prompt, and the
    JSON library. *)
Variable system_prompt : pystr.
Variable chat_completions_create :
  list (pystr * pystr) -> World -> result ChatCompletion * World.
Variable json_loads : pystr -> result value.
Variable json_dumps : value -> result pystr.

Definition user_prompt (json_output current_page_text : pystr) : pystr :=
  lit "The json for reference is: " ++ [newline] ++ json_output
      ++ [newline; newline]
      ++ lit " The text and tables for current page is: " ++ [newline]
      ++ current_page_text.

(** The [IndexError] of [choices[0]] on an empty list; no handler of the
    program singles this class out. *)
Definition index_error : exn :=
  Exn OtherException (lit "list index out of range").

(** [all_helpers.llm_processing(json_output, current_page_text)] *)
Definition llm_processing (json_output current_page_text : pystr) (w : World)
  : result (option pystr) * World :=
  let message :=
    [(lit "system", system_prompt);
     (lit "user", user_prompt json_output current_page_text)] in
  match chat_completions_create message w with
  | (Raise e, w1) => (Raise e, w1)
  | (Ok response, w1) =>
      match choices response with
      | [] => (Raise index_error, w1)
      | choice :: _ =>
          match message_tool_calls choice with
          | Some (tool_call :: _) =>
              (args <- json_loads (function_arguments tool_call) ;;
               output <- json_dumps args ;;
               Ok (Some output), w1)
          | _ => (Ok (message_content choice), w1)
          end
      end
  end.

End Services.

End helper.

(** ** The record merger: [all_helpers.combine_records] *)

Section Pipeline.

#[local] Set Default Proof Using "Type".

(** [json.loads] on a string: the object built, [JSONDecodeError] on text
    that is not JSON, or another fault of the parser. *)
Variable json_loads : pystr -> result value.

(** The claim identifier the merger reads from a record: the stripped
    [value] of the [ClaimNum] of its [Claim], each level replaced by an empty
    object when it is missing or falsy. *)
Definition claim_id_of (record : value) : result pystr :=
  claim <- py_get record (lit "Claim") VNone ;;
  claim_num <- py_get (py_or claim (VDict [])) (lit "ClaimNum") VNone ;;
  let claim_meta := py_or claim_num (VDict []) in
  v <- py_get claim_meta (lit "value") VNone ;;
  py_strip (py_or v (VStr [])).

(** The body of the loop over the records of one payload. [combined] maps a
    claim identifier to the record kept for it, in insertion order. *)
Definition merge_record (combined : dict) (record : value) : result dict :=
  claim_id <- claim_id_of record ;;
  if is_empty claim_id then Ok combined
  else
    match dict_lookup claim_id combined with
    | None => Ok (combined ++ [(claim_id, record)])
    | Some existing =>
        ep <- py_get existing (lit "Procs") VNone ;;
        let existing_procs := py_or ep (VList []) in
        np <- py_get record (lit "Procs") VNone ;;
        let new_procs := py_or np (VList []) in
        extended <- py_extend existing_procs new_procs ;;
        existing' <- py_setitem existing (lit "Procs") extended ;;
        Ok (dict_set claim_id existing' combined)
    end.

Fixpoint merge_records (combined : dict) (records : list value)
  : result dict :=
  match records with
  | [] => Ok combined
  | record :: rest =>
      combined' <- merge_record combined record ;;
      merge_records combined' rest
  end.

(** The body of the loop over the fragments. *)
Definition merge_blob (combined : dict) (blob : pystr) : result dict :=
  if is_empty blob then Ok combined
  else
    match json_loads blob with
    | Raise e =>
        match exn_class_of e with
        | JSONDecodeError => Ok combined
        | _ => Raise e
        end
    | Ok payload =>
        records <- py_get payload (lit "Records") (VList []) ;;
        items <- py_iter records ;;
        merge_records combined items
    end.

Fixpoint merge_blobs (combined : dict) (json_strings : list pystr)
  : result dict :=
  match json_strings with
  | [] => Ok combined
  | blob :: rest =>
      combined' <- merge_blob combined blob ;;
      merge_blobs combined' rest
  end.

Definition combine_records (json_strings : list pystr) : result value :=
  combined <- merge_blobs [] json_strings ;;
  Ok (VDict [(lit "Records", VList (dict_values combined))]).

(** ** The orchestrator: [process_pdf] *)

(** The services behind the helper object. Each call may change the world
    it runs in (the network, the model) and may raise. *)
Variable World : Type.

(** [helper.presign_s3url(pdf_key)] *)
Variable presign_s3url : pystr -> World -> result pystr * World.

(** [helper.get_text_and_tables_from_url(presigned_url)]: the payloads of the
    pages. The type leaves room for the [None] that [process_pdf] tests for;
    the method in helper.py returns a list on every path, the empty one when
    the OCR gives no result. *)
Variable get_text_and_tables_from_url :
  pystr -> World -> result (option (list pystr)) * World.

(** [helper.count_tokens(text)] *)
Variable count_tokens : pystr -> World -> result Z * World.

(** [helper.llm_processing(context_json, text)]: a string, or [None] when
    the model answers without content. *)
Variable llm_processing :
  pystr -> pystr -> World -> result (option pystr) * World.

(** The dictionary [records] that [process_pdf] returns. *)
Record PipelineResult := {
  Records : value;
  TotalTokens : Z;
  WarningCodes : list pystr;
  Error : pystr
}.

Definition set_Error (records : PipelineResult) (msg : pystr)
  : PipelineResult :=
  {| Records := Records records;
     TotalTokens := TotalTokens records;
     WarningCodes := WarningCodes records;
     Error := msg |}.

(** The local variables of the page loop. *)
Record loop_state := {
  token_count : Z;
  jsons : list pystr;
  context_json : pystr
}.

(** One call of [llm_processing], as the loop made it: the page, the tokens
    counted for it, the context passed and what the call gave. *)
Record page_event := {
  ev_page_number : nat;
  ev_text : pystr;
  ev_tokens : Z;
  ev_context : pystr;
  ev_output : result (option pystr)
}.

(** How the page loop ends: all pages done, [records] returned with an error
    message, or an exception that leaves [process_pdf]. *)
Inductive loop_exit :=
| Finished (st : loop_state)
| Failed (error : pystr)
| Propagated (e : exn).

Definition llm_failure (page_number : nat) (e : exn) : pystr :=
  lit "Failed to process page via llm_processing for page: "
    ++ str_of_nat page_number ++ lit ": " ++ exn_str e.

(** The loop over [enumerate(payloads, start=page_number)], with the calls
    of [llm_processing] it makes, in order. *)
Fixpoint page_loop (payloads : list pystr) (page_number : nat)
    (st : loop_state) (w : World)
  : loop_exit * World * list page_event :=
  match payloads with
  | [] => (Finished st, w, [])
  | text :: rest =>
      match count_tokens text w with
      | (Raise e, w1) => (Propagated e, w1, [])
      | (Ok n, w1) =>
          let token_count' := (token_count st + n)%Z in
          match llm_processing (context_json st) text w1 with
          | (Raise e, w2) =>
              (Failed (llm_failure page_number e), w2,
               [{| ev_page_number := page_number; ev_text := text;
                   ev_tokens := n; ev_context := context_json st;
                   ev_output := Raise e |}])
          | (Ok output, w2) =>
              let st' :=
                match output with
                | None =>
                    {| token_count := token_count'; jsons := jsons st;
                       context_json := context_json st |}
                | Some out =>
                    {| token_count := token_count';
                       jsons := jsons st ++ [out];
                       context_json := out |}
                end in
              let '(exit, w3, calls) :=
                page_loop rest (S page_number) st' w2 in
              (exit, w3,
               {| ev_page_number := page_number; ev_text := text;
                  ev_tokens := n; ev_context := context_json st;
                  ev_output := Ok output |} :: calls)
          end
      end
  end.

Definition initial_records : PipelineResult :=
  {| Records := VList []; TotalTokens := 0; WarningCodes := []; Error := [] |}.

Definition initial_state : loop_state :=
  {| token_count := 0; jsons := []; context_json := [] |}.

(** [process_pdf(pdf_key, filename)]: what it returns or lets escape, the
    world it leaves, and the calls of [llm_processing] it made. *)
Definition process_pdf (pdf_key filename : pystr) (w : World)
  : result PipelineResult * World * list page_event :=
  let records := initial_records in
  match presign_s3url pdf_key w with
  | (Raise e, w1) =>
      (Ok (set_Error records (lit "Failed to presign S3 URL: " ++ exn_str e)),
       w1, [])
  | (Ok presigned_url, w1) =>
      match get_text_and_tables_from_url presigned_url w1 with
      | (Raise e, w2) =>
          (Ok (set_Error records
                 (lit "Failed to get text and tables from URL: " ++ exn_str e)),
           w2, [])
      | (Ok None, w2) =>
          (Ok (set_Error records
                 (lit "Generated payload out of get_text_and_tables_from_url is None")),
           w2, [])
      | (Ok (Some payloads), w2) =>
          match page_loop payloads 1 initial_state w2 with
          | (Propagated e, w3, calls) => (Raise e, w3, calls)
          | (Failed msg, w3, calls) => (Ok (set_Error records msg), w3, calls)
          | (Finished st, w3, calls) =>
              match combine_records (jsons st) with
              | Raise e =>
                  (Ok (set_Error records
                         (lit "Failed to combine records: " ++ exn_str e)),
                   w3, calls)
              | Ok combined_json =>
                  match py_get combined_json (lit "Records") (VList []) with
                  | Raise e => (Raise e, w3, calls)
                  | Ok merged =>
                      (Ok {| Records := merged;
                             TotalTokens := token_count st + 4000;
                             WarningCodes := WarningCodes records;
                             Error := Error records |},
                       w3, calls)
                  end
              end
          end
      end
  end.

(** ** The S3 entry points (src/app.py) *)

(** The bucket named by the environment, the S3 client, the temporary
    directory of the [with] statement, and [json.dump] into a file opened
    for writing. *)
Variable S3_BUCKET : pystr.
Variable s3_download_file :
  pystr -> pystr -> pystr -> World -> result unit * World.
Variable s3_upload_file :
  pystr -> pystr -> pystr -> World -> result unit * World.
Variable TemporaryDirectory : World -> result pystr * World.
Variable TemporaryDirectory_cleanup : pystr -> World -> result unit * World.
Variable json_dump : PipelineResult -> pystr -> World -> result unit * World.

(** Leaving the [with] block: the directory is removed on every way out,
    and a fault of the removal is the one that is raised. *)
Definition leave_with {A} (tmp_dir : pystr) (body : result A * World)
  : result A * World :=
  let '(r, w) := body in
  match TemporaryDirectory_cleanup tmp_dir w with
  | (Raise e, w') => (Raise e, w')
  | (Ok _, w') => (r, w')
  end.

(** The handler of [process_pdf_from_s3]: every exception becomes a
    [RuntimeError]. *)
Definition pipeline_error (e : exn) : exn :=
  Exn RuntimeError (lit "Error processing PDF from S3: " ++ exn_str e).

(** [process_pdf_from_s3(input_s3_path, output_s3_path)] *)
Definition process_pdf_from_s3 (input_s3_path output_s3_path : pystr)
    (w : World) : result PipelineResult * World :=
  let in_match := parse_s3_path input_s3_path in
  let out_match := parse_s3_path output_s3_path in
  let '(r, w') :=
    match in_match, out_match with
    | None, _ =>
        (Raise (Exn ValueError
                  (lit "Invalid S3 input path: " ++ input_s3_path)), w)
    | Some _, None =>
        (Raise (Exn ValueError
                  (lit "Invalid S3 output path: " ++ output_s3_path)), w)
    | Some (in_bucket, in_key), Some (out_bucket, out_key) =>
        match TemporaryDirectory w with
        | (Raise e, w1) => (Raise e, w1)
        | (Ok tmp_dir, w1) =>
            leave_with tmp_dir
              (let local_pdf := path_join tmp_dir (lit "input.pdf") in
               match s3_download_file in_bucket in_key local_pdf w1 with
               | (Raise e, w2) => (Raise e, w2)
               | (Ok _, w2) =>
                   match process_pdf in_key (basename in_key) w2 with
                   | (Raise e, w3, _) => (Raise e, w3)
                   | (Ok final_payload, w3, _) =>
                       let local_json :=
                         path_join tmp_dir (lit "output.json") in
                       match json_dump final_payload local_json w3 with
                       | (Raise e, w4) => (Raise e, w4)
                       | (Ok _, w4) =>
                           match s3_upload_file local_json out_bucket
                                                out_key w4 with
                           | (Raise e, w5) => (Raise e, w5)
                           | (Ok _, w5) => (Ok final_payload, w5)
                           end
                       end
                   end
               end)
        end
    end in
  match r with
  | Ok final_payload => (Ok final_payload, w')
  | Raise e => (Raise (pipeline_error e), w')
  end.

(** The [eventPayload] of a response; [warningCodes] is a key the function
    adds only once the pipeline has returned. *)
Record EventPayload := {
  eobId : pystr;
  processedDataPath : pystr;
  processingStatus : pystr;
  message : pystr;
  warningCodes : option (list pystr)
}.

(** The response; [eobParsed] is [None] while it is the empty object. *)
Record PipelineResponse := {
  eventPayload : EventPayload;
  eobParsed : option PipelineResult
}.

(** [run_pipeline_from_s3_and_return_result(eob_id, uploaded_path,
    processed_path)]. Everything the function does after building the
    response runs under [except Exception], and the handler only fills the
    response in. *)
Definition run_pipeline_from_s3_and_return_result
    (eob_id uploaded_path processed_path : pystr) (w : World)
  : PipelineResponse * World :=
  let uploaded_path_full :=
    lit "s3://" ++ S3_BUCKET ++ lit "/" ++ uploaded_path in
  let processed_path_full :=
    lit "s3://" ++ S3_BUCKET ++ lit "/" ++ processed_path
        ++ lit "/eob-parsed.json" in
  match process_pdf_from_s3 uploaded_path_full processed_path_full w with
  | (Ok payload, w') =>
      let failed :=
        negb (truthy (Records payload)) || negb (is_empty (Error payload)) in
      ({| eventPayload :=
            {| eobId := eob_id;
               processedDataPath := processed_path;
               processingStatus :=
                 if failed then lit "FAILED" else lit "SUCCESS";
               message := if failed then Error payload else [];
               warningCodes := Some (WarningCodes payload) |};
          eobParsed := Some payload |}, w')
  | (Raise e, w') =>
      ({| eventPayload :=
            {| eobId := eob_id;
               processedDataPath := processed_path;
               processingStatus := lit "FAILED";
               message := exn_str e;
               warningCodes := None |};
          eobParsed := None |}, w')
  end.

(** *** What the merger reads in its input *)

(** The records the merger visits in one fragment: none when the fragment is
    empty, is not JSON, or cannot be walked. *)
Definition blob_records (blob : pystr) : list value :=
  if is_empty blob then []
  else
    match json_loads blob with
    | Ok payload =>
        match (records <- py_get payload (lit "Records") (VList []) ;;
               py_iter records) with
        | Ok items => items
        | Raise _ => []
        end
    | Raise _ => []
    end.

(** The identifier a record is filed under, when it has one. *)
Definition record_claim_ids (record : value) : list pystr :=
  match claim_id_of record with
  | Ok claim_id => if is_empty claim_id then [] else [claim_id]
  | Raise _ => []
  end.

(** The claim identifiers of the input, in order of appearance. *)
Definition input_claim_ids (json_strings : list pystr) : list pystr :=
  flat_map record_claim_ids (flat_map blob_records json_strings).

(** The distinct elements of a list, each at the place of its first
    occurrence. *)
Fixpoint first_seen (ids : list pystr) : list pystr :=
  match ids with
  | [] => []
  | x :: rest => x :: filter (fun y => negb (str_eqb y x)) (first_seen rest)
  end.

(** [unseen keys y]: [y] is not among [keys]. *)
Definition unseen (keys : list pystr) (y : pystr) : bool :=
  negb (existsb (str_eqb y) keys).

(** The [Procs] of a record when the field is a list; a record without the
    field, or with a null one, has no procedure lines. *)
Definition procs_of (record : dict) : option (list value) :=
  match dict_lookup (lit "Procs") record with
  | None => Some []
  | Some VNone => Some []
  | Some (VList l) => Some l
  | Some _ => None
  end.

(** A record the merger can read: an object whose claim identifier can be
    read and whose [Procs], if it has one, is a list. *)
Definition readable_record (record : value) : Prop :=
  exists d claim_id ps,
    record = VDict d /\ claim_id_of record = Ok claim_id /\
    procs_of d = Some ps.

(** A fragment the merger gets through: empty, not JSON, or an object whose
    [Records] is a list of readable records. *)
Definition readable_fragment (blob : pystr) : Prop :=
  blob = [] \/
  (exists e, json_loads blob = Raise e /\ exn_class_of e = JSONDecodeError) \/
  (exists payload records,
      json_loads blob = Ok payload /\
      py_get payload (lit "Records") (VList []) = Ok (VList records) /\
      Forall readable_record records).

(** Every record kept in the mapping is an object with a list of [Procs]. *)
Definition kept_readable (combined : dict) : Prop :=
  Forall (fun entry => exists d ps,
              snd entry = VDict d /\ procs_of d = Some ps) combined.

(** A field that is missing or holds a falsy object ([None], an empty
    string, an empty container, zero): [or] puts its right operand in its
    place. *)
Definition missing (field : option value) : Prop :=
  match field with
  | None => True
  | Some v => truthy v = false
  end.

(** A record the merger cannot file: an object whose claim number is
    missing at some level, or is a string of white space only. *)
Inductive unidentifiable : value -> Prop :=
| no_claim d :
    missing (dict_lookup (lit "Claim") d) ->
    unidentifiable (VDict d)
| no_claim_num d c :
    dict_lookup (lit "Claim") d = Some (VDict c) ->
    missing (dict_lookup (lit "ClaimNum") c) ->
    unidentifiable (VDict d)
| no_claim_value d c m :
    dict_lookup (lit "Claim") d = Some (VDict c) ->
    dict_lookup (lit "ClaimNum") c = Some (VDict m) ->
    missing (dict_lookup (lit "value") m) ->
    unidentifiable (VDict d)
| blank_claim_value d c m s :
    dict_lookup (lit "Claim") d = Some (VDict c) ->
    dict_lookup (lit "ClaimNum") c = Some (VDict m) ->
    dict_lookup (lit "value") m = Some (VStr s) ->
    forallb isspace s = true ->
    unidentifiable (VDict d).

(** The context each call of [llm_processing] receives, given the one the
    loop starts from: a call that gives a string hands it to the next call,
    any other call leaves the context as it was. *)
Fixpoint chained (context : pystr) (calls : list page_event) : Prop :=
  match calls with
  | [] => True
  | ev :: rest =>
      ev_context ev = context /\
      chained (match ev_output ev with
               | Ok (Some out) => out
               | _ => context
               end) rest
  end.

(** The tokens counted for the pages the model was called on. *)
Definition tokens_counted (calls : list page_event) : Z :=
  fold_right Z.add 0%Z (map ev_tokens calls).

(** The outputs the loop keeps as fragments: those that are not [None]. *)
Definition fragments_of (calls : list page_event) : list pystr :=
  flat_map (fun ev => match ev_output ev with
                      | Ok (Some out) => [out]
                      | _ => []
                      end) calls.

(** The call returned. *)
Definition answered (ev : page_event) : Prop :=
  exists output, ev_output ev = Ok output.

(** *** What the extractor reads in an OCR result *)

(** The numbers of the pages, the position of a page standing in for the
    number it does not have. *)
Fixpoint page_numbers_read (pages : list helper.DocumentPage)
    (fallback_idx : nat) : list (option Z) :=
  match pages with
  | [] => []
  | page :: rest =>
      helper.page_number_or page fallback_idx
        :: page_numbers_read rest (S fallback_idx)
  end.

(** The page numbers read from the pages and the tables. *)
Definition numbers_read (pages : list helper.DocumentPage)
    (tables : list helper.DocumentTable) : list (option Z) :=
  page_numbers_read pages 1 ++ map helper.table_page tables.

(** Page numbers in the order of the sort: [None] alone, or integers in
    strictly ascending order. *)
Definition in_page_order (numbers : list (option Z)) : Prop :=
  numbers = [None] \/
  exists ints, numbers = map Some ints /\ Sorted Z.lt ints.

(** ** Test doubles *)

(** JSON text, written with ['] where the text has a double quote. *)
Definition jlit (s : string) : pystr :=
  map (fun c => if (c =? 39)%N then 34%N else c) (lit s).

(** A parser that knows the texts of a table and rejects every other one. *)
Definition table_loads (table : list (pystr * value)) (blob : pystr)
  : result value :=
  match find (fun entry => str_eqb blob (fst entry)) table with
  | Some entry => Ok (snd entry)
  | None =>
      Raise (Exn JSONDecodeError
               (lit "Expecting value: line 1 column 1 (char 0)"))
  end.

Definition claim_record (claim_num : pystr) (procs : list value) : value :=
  VDict [(lit "Claim",
          VDict [(lit "ClaimNum", VDict [(lit "value", VStr claim_num)])]);
         (lit "Procs", VList procs)].

Definition payload_of (records : list value) : value :=
  VDict [(lit "Records", VList records)].

Definition page1_json : pystr :=
  jlit "{'Records':[{'Claim':{'ClaimNum':{'value':'C1'}},'Procs':['p1']}]}".
Definition page2_json : pystr :=
  jlit "{'Records':[{'Claim':{'ClaimNum':{'value':'C1'}},'Procs':['p2']}]}".
Definition page3_json : pystr :=
  jlit "{'Records':[{'Claim':{'ClaimNum':{'value':' '}},'Procs':['p3']},{'Claim':{'ClaimNum':{'value':'C2'}},'Procs':[]}]}".
Definition page3_clean_json : pystr :=
  jlit "{'Records':[{'Claim':{'ClaimNum':{'value':'C2'}},'Procs':[]}]}".

Definition fragment_123_a : pystr :=
  jlit "{'Records':[{'Claim':{'ClaimNum':{'value':'123'}},'Procs':['A']}]}".
Definition fragment_123_b : pystr :=
  jlit "{'Records':[{'Claim':{'ClaimNum':{'value':'123'}},'Procs':['B']}]}".

Definition sample_table : list (pystr * value) :=
  [(fragment_123_a, payload_of [claim_record (lit "123") [VStr (lit "A")]]);
   (fragment_123_b, payload_of [claim_record (lit "123") [VStr (lit "B")]]);
   (page1_json, payload_of [claim_record (lit "C1") [VStr (lit "p1")]]);
   (page2_json, payload_of [claim_record (lit "C1") [VStr (lit "p2")]]);
   (page3_json, payload_of [claim_record (lit " ") [VStr (lit "p3")];
                            claim_record (lit "C2") []]);
   (page3_clean_json, payload_of [claim_record (lit "C2") []])].

Definition sample_loads : pystr -> result value := table_loads sample_table.

(** Services over a world that counts the calls of the model. *)
Definition fixed_presign (key : pystr) (w : nat) : result pystr * nat :=
  (Ok (lit "https://bucket.s3.amazonaws.com/" ++ key), w).

Definition fixed_pages (pages : option (list pystr)) (url : pystr) (w : nat)
  : result (option (list pystr)) * nat :=
  (Ok pages, w).

Fixpoint starts_with (prefix s : pystr) : bool :=
  match prefix, s with
  | [], _ => true
  | p :: prefix', c :: s' => N.eqb p c && starts_with prefix' s'
  | _ :: _, [] => false
  end.

Fixpoint contains (needle s : pystr) : bool :=
  starts_with needle s ||
  match s with
  | [] => false
  | _ :: s' => contains needle s'
  end.

(** A tokenizer that gives one token per code point and, like the real one,
    refuses text that spells a special token. *)
Definition strict_tokens (text : pystr) (w : nat) : result Z * nat :=
  if contains (lit "<|endoftext|>") text then
    (Raise (Exn ValueError
              (lit "Encountered text corresponding to disallowed special token '<|endoftext|>'.")),
     w)
  else (Ok (Z.of_nat (List.length text)), w).

(** A model that answers its calls from a script, in order. *)
Definition scripted_llm (script : list (result (option pystr)))
    (context text : pystr) (w : nat) : result (option pystr) * nat :=
  (nth w script (Ok None), S w).

(** Three page texts of 10, 20 and 15 code points, and one that spells a
    special token. *)
Definition page_a : pystr := lit "CLAIM C1 A".
Definition page_b : pystr := lit "CLAIM C1 B continued".
Definition page_c : pystr := lit "CLAIM C2 extra.".
Definition page_special : pystr := lit "TEXT: <|endoftext|>".

Definition sample_key : pystr := lit "eobs/sample.pdf".
Definition sample_name : pystr := lit "sample.pdf".

Definition service_down : exn :=
  Exn RuntimeError (lit "Error code: 503 - service unavailable").

(** Fragments that are JSON but not what the merger expects: a list, and a
    record whose claim number is a number. *)
Definition list_json : pystr := jlit "[1]".
Definition numeric_claim_json : pystr :=
  jlit "{'Records':[{'Claim':{'ClaimNum':{'value':123}},'Procs':['p9']}]}".

Definition numeric_claim_record : dict :=
  [(lit "Claim",
    VDict [(lit "ClaimNum", VDict [(lit "value", VInt 123)])]);
   (lit "Procs", VList [VStr (lit "p9")])].

Definition odd_table : list (pystr * value) :=
  [(page1_json, payload_of [claim_record (lit "C1") [VStr (lit "p1")]]);
   (list_json, VList [VInt 1]);
   (numeric_claim_json, payload_of [VDict numeric_claim_record])].

Definition odd_loads : pystr -> result value := table_loads odd_table.

(** Fragments whose record has no claim identifier to read: a claim that
    is a string, and a record that is null. *)
Definition stray_claim_json : pystr :=
  jlit "{'Records':[{'Claim':'see page 2','Procs':['p9']}]}".
Definition null_record_json : pystr := jlit "{'Records':[null]}".

Definition stray_claim_record : value :=
  VDict [(lit "Claim", VStr (lit "see page 2"));
         (lit "Procs", VList [VStr (lit "p9")])].

(** A fragment that is not JSON and is nested too deeply for the parser:
    3000 opening brackets. *)
Definition deep_fragment : pystr := repeat 91%N 3000.

(** A parser that knows the texts of a table, gives up on the deep fragment
    with the [RecursionError] of the real one, and rejects every other
    text. *)
Definition deep_loads (table : list (pystr * value)) (blob : pystr)
  : result value :=
  if str_eqb blob deep_fragment then
    Raise (Exn RecursionError
             (lit "maximum recursion depth exceeded while decoding a JSON array from a unicode string"))
  else table_loads table blob.

Definition shape_table : list (pystr * value) :=
  [(page1_json, payload_of [claim_record (lit "C1") [VStr (lit "p1")]]);
   (page2_json, payload_of [claim_record (lit "C1") [VStr (lit "p2")]]);
   (stray_claim_json, payload_of [stray_claim_record]);
   (null_record_json, payload_of [VNone])].

Definition shape_loads : pystr -> result value := deep_loads shape_table.

(** An S3 client, a temporary directory and a file system that always
    succeed, over the same world. *)
Definition sample_bucket : pystr := lit "eob-bucket".
Definition sample_tmp_dir : pystr := lit "/tmp/eob_proc_k3x".

Definition ok_transfer (a b c : pystr) (w : nat) : result unit * nat :=
  (Ok tt, w).
Definition ok_tmp (w : nat) : result pystr * nat := (Ok sample_tmp_dir, w).
Definition ok_cleanup (tmp_dir : pystr) (w : nat) : result unit * nat :=
  (Ok tt, w).
Definition ok_dump (payload : PipelineResult) (path : pystr) (w : nat)
  : result unit * nat :=
  (Ok tt, w).

(** An OCR that answers the receipt model with a given result and fails on
    the layout model. *)
Definition receipt_only (receipt : option helper.AnalyzeResult)
    (model url : pystr) (w : nat)
  : result (option helper.AnalyzeResult) * nat :=
  if str_eqb model (lit "prebuilt-receipt") then (Ok receipt, S w)
  else (Raise service_down, S w).

Definition word (s : string) : helper.DocumentWord :=
  {| helper.word_content := Some (lit s) |}.

(** Two pages, the second given before the first, and a table of two rows
    and two columns on page 2 with a cell outside its grid. *)
Definition sample_cells : list helper.DocumentTableCell :=
  [{| helper.row_index := 0; helper.column_index := 0;
      helper.cell_content := Some (lit "Code") |};
   {| helper.row_index := 0; helper.column_index := 1;
      helper.cell_content := Some (lit "Paid") |};
   {| helper.row_index := 1; helper.column_index := 0;
      helper.cell_content := Some (lit "D0120") |};
   {| helper.row_index := 1; helper.column_index := 1;
      helper.cell_content := Some (lit "41.00") |}].

Definition stray_cell : helper.DocumentTableCell :=
  {| helper.row_index := 2; helper.column_index := 0;
     helper.cell_content := Some (lit "stray") |}.

Definition sample_ocr_table : helper.DocumentTable :=
  {| helper.bounding_regions :=
       Some [{| helper.region_page_number := Some 2%Z |}];
     helper.cells := sample_cells ++ [stray_cell];
     helper.row_count := 2;
     helper.column_count := 2 |}.

Definition sample_result : helper.AnalyzeResult :=
  {| helper.pages :=
       Some [{| helper.page_words := Some [word "Claim"; word "C1"];
                helper.page_number := Some (Some 2%Z) |};
             {| helper.page_words := None;
                helper.page_number := Some (Some 1%Z) |}];
     helper.tables := Some [sample_ocr_table] |}.

Definition blank_result : helper.AnalyzeResult :=
  {| helper.pages := None; helper.tables := None |}.

(** A result whose first page has the number [None] and whose second page
    is page 2. *)
Definition mixed_result : helper.AnalyzeResult :=
  {| helper.pages :=
       Some [{| helper.page_words := Some [word "Claim"];
                helper.page_number := Some None |};
             {| helper.page_words := Some [word "C1"];
                helper.page_number := Some (Some 2%Z) |}];
     helper.tables := None |}.

(** A sort that always meets [None] as the left operand. *)
Definition None_is_left (keys : list (option Z)) : bool := true.

(** A tokenizer library that does not know the model and counts one token
    per code point with the fallback encoding. *)
Definition unknown_model (model : pystr) (w : nat) : result unit * nat :=
  (Raise (Exn KeyError (lit "Could not automatically map gpt-4o-mini to a tokeniser.")), w).
Definition any_encoding (name : pystr) (w : nat) : result unit * nat :=
  (Ok tt, w).
Definition code_points (encoding : unit) (text : pystr) (w : nat)
  : result (list Z) * nat :=
  (Ok (map Z.of_N text), w).

(** A chat model with a fixed reply. *)
Definition fixed_reply (reply : helper.ChatCompletion)
    (messages : list (pystr * pystr)) (w : nat)
  : result helper.ChatCompletion * nat :=
  (Ok reply, S w).

Definition silent_reply : helper.ChatCompletion :=
  {| helper.choices :=
       [{| helper.message_tool_calls := None;
           helper.message_content := None |}] |}.

Definition broken_reply : helper.ChatCompletion :=
  {| helper.choices :=
       [{| helper.message_tool_calls :=
             Some [{| helper.function_arguments := lit "{'Records': [" |}];
           helper.message_content := None |}] |}.

Definition no_dumps (v : value) : result pystr :=
  Raise (Exn TypeError (lit "not serializable")).

(** An OCR service that is down. *)
Definition failing_ocr (model url : pystr) (w : nat)
  : result (option helper.AnalyzeResult) * nat :=
  (Raise service_down, S w).

(** ** Properties *)

(** *** Strings, results and dictionaries *)

Lemma str_eqb_refl (a : pystr) : str_eqb a a = true.
Proof.
  induction a as [|x a IH]; simpl; [reflexivity|].
  now rewrite N.eqb_refl.
Qed.

Lemma str_eqb_eq (a b : pystr) : str_eqb a b = true <-> a = b.
Proof.
  split; [|intros ->; apply str_eqb_refl].
  revert b; induction a as [|x a IH]; intros [|y b]; simpl;
    try discriminate; [reflexivity|].
  intros H. apply andb_true_iff in H as [Hx Hab].
  apply N.eqb_eq in Hx. now rewrite Hx, (IH _ Hab).
Qed.

Lemma str_eqb_neq (a b : pystr) : str_eqb a b = false <-> a <> b.
Proof.
  rewrite <- str_eqb_eq. destruct (str_eqb a b); split;
    congruence || discriminate.
Qed.

Lemma is_empty_true (s : pystr) : is_empty s = true <-> s = [].
Proof. destruct s; simpl; split; congruence. Qed.

Lemma is_empty_false (s : pystr) : is_empty s = false <-> s <> [].
Proof. destruct s; simpl; split; congruence. Qed.

Lemma bind_Ok_inv {A B} (r : result A) (k : A -> result B) (b : B) :
  bind r k = Ok b -> exists a, r = Ok a /\ k a = Ok b.
Proof. destruct r as [a|e]; simpl; [eauto | discriminate]. Qed.

Lemma dict_lookup_set_same (key : pystr) (v : value) (d : dict) :
  dict_lookup key (dict_set key v d) = Some v.
Proof.
  induction d as [|[k x] d IH]; simpl.
  - now rewrite str_eqb_refl.
  - destruct (str_eqb key k) eqn:E; simpl; now rewrite E.
Qed.

Lemma dict_lookup_set_other (k key : pystr) (v : value) (d : dict) :
  k <> key -> dict_lookup k (dict_set key v d) = dict_lookup k d.
Proof.
  intros Hk. apply str_eqb_neq in Hk.
  induction d as [|[k' x] d IH]; simpl.
  - now rewrite Hk.
  - destruct (str_eqb key k') eqn:E; simpl.
    + apply str_eqb_eq in E; subst k'. now rewrite Hk.
    + now rewrite IH.
Qed.

Lemma dict_keys_set_present (key : pystr) (v x : value) (d : dict) :
  dict_lookup key d = Some x -> dict_keys (dict_set key v d) = dict_keys d.
Proof.
  induction d as [|[k' y] d IH]; simpl; [discriminate|].
  destruct (str_eqb key k') eqn:E; simpl; [reflexivity|].
  intros H. f_equal. now apply IH.
Qed.

(** *** The merger: loops and identifiers *)

Lemma merge_records_app (combined : dict) (rs1 rs2 : list value) :
  merge_records combined (rs1 ++ rs2) =
  (c <- merge_records combined rs1 ;; merge_records c rs2).
Proof.
  revert combined; induction rs1 as [|r rs1 IH]; intros combined; simpl;
    [reflexivity|].
  destruct (merge_record combined r); simpl; [apply IH | reflexivity].
Qed.

Lemma merge_blobs_app (combined : dict) (js1 js2 : list pystr) :
  merge_blobs combined (js1 ++ js2) =
  (c <- merge_blobs combined js1 ;; merge_blobs c js2).
Proof.
  revert combined; induction js1 as [|b js1 IH]; intros combined; simpl;
    [reflexivity|].
  destruct (merge_blob combined b); simpl; [apply IH | reflexivity].
Qed.

(** A fragment the merger gets through is merged record by record. *)
Lemma merge_blob_records (combined combined' : dict) (blob : pystr) :
  merge_blob combined blob = Ok combined' ->
  merge_records combined (blob_records blob) = Ok combined'.
Proof.
  unfold merge_blob, blob_records.
  destruct (is_empty blob); [trivial|].
  destruct (json_loads blob) as [payload|e].
  - destruct (records <- py_get payload (lit "Records") (VList []) ;;
              py_iter records) as [items|e'] eqn:E.
    + apply bind_Ok_inv in E as (recs & Hget & Hiter).
      rewrite Hget; simpl. rewrite Hiter; simpl. trivial.
    + intros H. apply bind_Ok_inv in H as (recs & Hget & H).
      apply bind_Ok_inv in H as (items & Hiter & _).
      rewrite Hget in E; simpl in E. congruence.
  - destruct (exn_class_of e); simpl; congruence.
Qed.

Lemma merge_blobs_records (json_strings : list pystr) :
  forall combined combined',
    merge_blobs combined json_strings = Ok combined' ->
    merge_records combined (flat_map blob_records json_strings) = Ok combined'.
Proof.
  induction json_strings as [|blob rest IH]; intros combined combined' H;
    simpl in *; [exact H|].
  apply bind_Ok_inv in H as (c1 & Hblob & Hrest).
  rewrite merge_records_app, (merge_blob_records _ _ _ Hblob). simpl.
  now apply IH.
Qed.

Lemma claim_id_of_dict (record : value) (claim_id : pystr) :
  claim_id_of record = Ok claim_id -> exists d, record = VDict d.
Proof. destruct record; try discriminate; eauto. Qed.

Lemma lit_Claim_not_Procs : lit "Claim" <> lit "Procs".
Proof. vm_compute; discriminate. Qed.

(** The claim identifier does not depend on [Procs]. *)
Lemma claim_id_of_set_procs (d : dict) (v : value) :
  claim_id_of (VDict (dict_set (lit "Procs") v d)) = claim_id_of (VDict d).
Proof.
  unfold claim_id_of, py_get.
  now rewrite (dict_lookup_set_other _ _ v d lit_Claim_not_Procs).
Qed.

Lemma py_or_dict (d : dict) : py_or (VDict d) (VDict []) = VDict d.
Proof. now destruct d. Qed.

Lemma py_or_str (s : pystr) : py_or (VStr s) (VStr []) = VStr s.
Proof. now destruct s. Qed.

Lemma lstrip_blank (s : pystr) : forallb isspace s = true -> lstrip s = [].
Proof.
  induction s as [|c s IH]; simpl; [reflexivity|].
  intros H. apply andb_true_iff in H as [Hc Hs]. now rewrite Hc, IH.
Qed.

Lemma strip_blank (s : pystr) : forallb isspace s = true -> strip s = [].
Proof. intros H. unfold strip. now rewrite (lstrip_blank _ H). Qed.

Lemma missing_or (field : option value) (other : value) :
  missing field ->
  py_or (match field with Some x => x | None => VNone end) other = other.
Proof.
  destruct field as [v|]; simpl; [|reflexivity].
  intros H. unfold py_or. now rewrite H.
Qed.

Lemma unidentifiable_claim_id (record : value) :
  unidentifiable record -> claim_id_of record = Ok [].
Proof.
  intros H; destruct H as [d H | d c Hc H | d c m Hc Hm H | d c m s Hc Hm Hv Hs];
    unfold claim_id_of; simpl py_get; cbn [bind].
  - now rewrite (missing_or _ _ H).
  - rewrite Hc, py_or_dict; simpl py_get; cbn [bind].
    now rewrite (missing_or _ _ H).
  - rewrite Hc, py_or_dict; simpl py_get; cbn [bind].
    rewrite Hm, py_or_dict; simpl py_get; cbn [bind].
    now rewrite (missing_or _ _ H).
  - rewrite Hc, py_or_dict; simpl py_get; cbn [bind].
    rewrite Hm, py_or_dict; simpl py_get; cbn [bind].
    rewrite Hv, py_or_str; simpl.
    now rewrite (strip_blank _ Hs).
Qed.

Lemma merge_record_unidentifiable (combined : dict) (record : value) :
  unidentifiable record -> merge_record combined record = Ok combined.
Proof.
  intros H. unfold merge_record.
  now rewrite (unidentifiable_claim_id _ H).
Qed.

(** *** First occurrences *)

Lemma unseen_nil (y : pystr) : unseen [] y = true.
Proof. reflexivity. Qed.

Lemma unseen_app (keys : list pystr) (x y : pystr) :
  unseen (keys ++ [x]) y = unseen keys y && negb (str_eqb y x).
Proof.
  unfold unseen. rewrite existsb_app; simpl.
  rewrite orb_false_r. apply negb_orb.
Qed.

Lemma unseen_lookup (d : dict) (k : pystr) :
  unseen (dict_keys d) k =
  match dict_lookup k d with None => true | Some _ => false end.
Proof.
  unfold unseen. induction d as [|[k' x] d IH]; simpl; [reflexivity|].
  destruct (str_eqb k k'); simpl; [reflexivity | exact IH].
Qed.

Lemma filter_filter {A} (f g : A -> bool) (l : list A) :
  filter f (filter g l) = filter (fun x => g x && f x) l.
Proof.
  induction l as [|x l IH]; simpl; [reflexivity|].
  destruct (g x); simpl; [destruct (f x)|]; now rewrite IH.
Qed.

Lemma filter_all {A} (f : A -> bool) (l : list A) :
  (forall x, f x = true) -> filter f l = l.
Proof.
  intros H. induction l as [|x l IH]; simpl; [reflexivity|].
  now rewrite H, IH.
Qed.

Lemma first_seen_In (ids : list pystr) (x : pystr) :
  In x (first_seen ids) <-> In x ids.
Proof.
  induction ids as [|y ids IH]; simpl; [reflexivity|].
  rewrite filter_In, IH. split.
  - intros [H | [H _]]; auto.
  - intros [H | H]; [auto|].
    destruct (str_eqb x y) eqn:E.
    + apply str_eqb_eq in E. auto.
    + right. split; [exact H | reflexivity].
Qed.

Lemma first_seen_NoDup (ids : list pystr) : NoDup (first_seen ids).
Proof.
  induction ids as [|y ids IH]; simpl; constructor.
  - rewrite filter_In. intros [_ H]. cbv beta in H.
    now rewrite str_eqb_refl in H.
  - now apply NoDup_filter.
Qed.

(** The keys of the mapping after a run of the inner loop: the old keys,
    then the new identifiers at their first occurrence. *)
Lemma merge_record_keys (combined combined' : dict) (record : value) :
  merge_record combined record = Ok combined' ->
  dict_keys combined' =
  dict_keys combined ++
  filter (unseen (dict_keys combined)) (record_claim_ids record).
Proof.
  unfold merge_record, record_claim_ids.
  destruct (claim_id_of record) as [claim_id|e]; simpl; [|discriminate].
  destruct (is_empty claim_id); simpl.
  - intros [= <-]. now rewrite app_nil_r.
  - rewrite unseen_lookup.
    destruct (dict_lookup claim_id combined) as [existing|] eqn:L.
    + intros H. rewrite app_nil_r.
      apply bind_Ok_inv in H as (ep & _ & H).
      apply bind_Ok_inv in H as (np & _ & H).
      apply bind_Ok_inv in H as (ext & _ & H).
      apply bind_Ok_inv in H as (existing' & _ & H).
      injection H as <-. eapply dict_keys_set_present; eauto.
    + intros [= <-]. unfold dict_keys. now rewrite map_app.
Qed.

Lemma merge_records_keys (records : list value) :
  forall combined combined',
    merge_records combined records = Ok combined' ->
    dict_keys combined' =
    dict_keys combined ++
    filter (unseen (dict_keys combined))
           (first_seen (flat_map record_claim_ids records)).
Proof.
  induction records as [|r rest IH]; intros combined combined' H; simpl in *.
  - injection H as <-. now rewrite app_nil_r.
  - apply bind_Ok_inv in H as (c1 & Hr & Hrest).
    rewrite (IH _ _ Hrest), (merge_record_keys _ _ _ Hr).
    clear IH Hrest. revert Hr. unfold merge_record, record_claim_ids.
    destruct (claim_id_of r) as [claim_id|e]; simpl; [|discriminate].
    destruct (is_empty claim_id); simpl; intros Hr.
    + now rewrite app_nil_r.
    + rewrite unseen_lookup.
      destruct (dict_lookup claim_id combined) as [existing|] eqn:L; simpl.
      * rewrite app_nil_r, filter_filter. f_equal.
        apply filter_ext. intros y.
        destruct (str_eqb y claim_id) eqn:E; simpl; [|reflexivity].
        apply str_eqb_eq in E; subst y. now rewrite unseen_lookup, L.
      * rewrite <- app_assoc; simpl. do 2 f_equal.
        rewrite filter_filter. apply filter_ext. intros y.
        rewrite unseen_app. apply andb_comm.
Qed.

(** *** The records kept are filed under their own identifier *)

Lemma filed_lookup (combined : dict) (claim_id : pystr) (record : value) :
  map claim_id_of (dict_values combined) = map Ok (dict_keys combined) ->
  dict_lookup claim_id combined = Some record ->
  claim_id_of record = Ok claim_id.
Proof.
  induction combined as [|[k x] d IH]; simpl; [discriminate|].
  intros [= Hx Hd]. destruct (str_eqb claim_id k) eqn:E.
  - apply str_eqb_eq in E. intros [= <-]. now subst.
  - now apply IH.
Qed.

Lemma filed_set (combined : dict) (claim_id : pystr) (record : value) :
  map claim_id_of (dict_values combined) = map Ok (dict_keys combined) ->
  claim_id_of record = Ok claim_id ->
  map claim_id_of (dict_values (dict_set claim_id record combined)) =
  map Ok (dict_keys (dict_set claim_id record combined)).
Proof.
  intros H Hr. induction combined as [|[k x] d IH]; simpl in *.
  - now rewrite Hr.
  - injection H as Hx Hd. destruct (str_eqb claim_id k) eqn:E; simpl.
    + apply str_eqb_eq in E; subst k. now rewrite Hr, Hd.
    + now rewrite Hx, IH.
Qed.

Lemma merge_record_filed (combined combined' : dict) (record : value) :
  map claim_id_of (dict_values combined) = map Ok (dict_keys combined) ->
  merge_record combined record = Ok combined' ->
  map claim_id_of (dict_values combined') = map Ok (dict_keys combined').
Proof.
  intros Inv. unfold merge_record.
  destruct (claim_id_of record) as [claim_id|e] eqn:Hid; simpl; [|discriminate].
  destruct (is_empty claim_id); [now intros [= <-]|].
  destruct (dict_lookup claim_id combined) as [existing|] eqn:L.
  - intros H.
    apply bind_Ok_inv in H as (ep & _ & H).
    apply bind_Ok_inv in H as (np & _ & H).
    apply bind_Ok_inv in H as (ext & _ & H).
    apply bind_Ok_inv in H as (existing' & Hset & H).
    injection H as <-. apply filed_set; [exact Inv|].
    pose proof (filed_lookup _ _ _ Inv L) as He.
    destruct (claim_id_of_dict _ _ He) as (d & ->).
    simpl in Hset. injection Hset as <-.
    now rewrite claim_id_of_set_procs.
  - intros [= <-]. unfold dict_values, dict_keys.
    rewrite !map_app; simpl. rewrite Hid. f_equal. exact Inv.
Qed.

Lemma merge_records_filed (records : list value) :
  forall combined combined',
    map claim_id_of (dict_values combined) = map Ok (dict_keys combined) ->
    merge_records combined records = Ok combined' ->
    map claim_id_of (dict_values combined') = map Ok (dict_keys combined').
Proof.
  induction records as [|r rest IH]; intros combined combined' Inv H;
    simpl in *.
  - now injection H as <-.
  - apply bind_Ok_inv in H as (c1 & Hr & Hrest).
    eapply IH; [|exact Hrest]. eapply merge_record_filed; eauto.
Qed.

Lemma record_claim_ids_nonempty (records : list value) :
  ~ In [] (flat_map record_claim_ids records).
Proof.
  rewrite in_flat_map. intros (r & _ & H). unfold record_claim_ids in H.
  destruct (claim_id_of r) as [claim_id|e]; [|exact H].
  destruct claim_id; simpl in H; [exact H|].
  destruct H as [H | H]; [discriminate | exact H].
Qed.

(** What [combine_records] returns, read off the flattened input. *)
Lemma combine_records_Ok (json_strings : list pystr) (out : value) :
  combine_records json_strings = Ok out ->
  exists combined,
    out = VDict [(lit "Records", VList (dict_values combined))] /\
    dict_keys combined = first_seen (input_claim_ids json_strings) /\
    map claim_id_of (dict_values combined) = map Ok (dict_keys combined).
Proof.
  unfold combine_records. intros H.
  apply bind_Ok_inv in H as (combined & Hm & H). injection H as <-.
  apply merge_blobs_records in Hm.
  exists combined. split; [reflexivity|]. split.
  - rewrite (merge_records_keys _ _ _ Hm); simpl.
    apply filter_all, unseen_nil.
  - now apply (merge_records_filed _ [] _ eq_refl Hm).
Qed.

(** *** The merger: the claims *)

Lemma procs_of_or (record : dict) (ps : list value) :
  procs_of record = Some ps ->
  py_or (match dict_lookup (lit "Procs") record with
         | Some x => x
         | None => VNone
         end) (VList []) = VList ps.
Proof.
  unfold procs_of.
  destruct (dict_lookup (lit "Procs") record) as [[| | | | |l|]|];
    try discriminate; intros [= <-]; try reflexivity.
  now destruct l.
Qed.

Lemma merge_blob_parsed (combined : dict) (blob : pystr)
    (payload : value) (records : list value) :
  blob <> [] ->
  json_loads blob = Ok payload ->
  py_get payload (lit "Records") (VList []) = Ok (VList records) ->
  merge_blob combined blob = merge_records combined records.
Proof.
  intros Hb Hl Hg. unfold merge_blob.
  apply is_empty_false in Hb. now rewrite Hb, Hl, Hg.
Qed.

Lemma merge_record_existing (combined : dict) (claim_id : pystr)
    (existing new_record : dict) (ps qs : list value) :
  claim_id_of (VDict new_record) = Ok claim_id ->
  claim_id <> [] ->
  dict_lookup claim_id combined = Some (VDict existing) ->
  procs_of existing = Some ps ->
  procs_of new_record = Some qs ->
  merge_record combined (VDict new_record) =
  Ok (dict_set claim_id
               (VDict (dict_set (lit "Procs") (VList (ps ++ qs)) existing))
               combined).
Proof.
  intros Hid Hne L Hps Hqs.
  unfold merge_record. rewrite Hid; simpl bind.
  apply is_empty_false in Hne. rewrite Hne, L.
  unfold py_get; simpl bind.
  now rewrite (procs_of_or _ _ Hps), (procs_of_or _ _ Hqs).
Qed.

(** *** The merger returns on readable input *)

Lemma dict_lookup_In (key : pystr) (d : dict) (v : value) :
  dict_lookup key d = Some v -> exists k, In (k, v) d.
Proof.
  induction d as [|[k x] d IH]; simpl; [discriminate|].
  destruct (str_eqb key k).
  - intros [= ->]. exists k. now left.
  - intros H. destruct (IH H) as (k' & Hin). exists k'. now right.
Qed.

Lemma kept_readable_set (combined : dict) (claim_id : pystr)
    (d : dict) (ps : list value) :
  kept_readable combined ->
  procs_of d = Some ps ->
  kept_readable (dict_set claim_id (VDict d) combined).
Proof.
  intros Hk Hd. induction combined as [|[k x] c IH]; simpl.
  - constructor; [now exists d, ps | constructor].
  - inversion Hk as [|? ? Hx Hc]; subst.
    destruct (str_eqb claim_id k); constructor;
      [now exists d, ps | exact Hc | exact Hx | now apply IH].
Qed.

Lemma procs_of_set (d : dict) (l : list value) :
  procs_of (dict_set (lit "Procs") (VList l) d) = Some l.
Proof. unfold procs_of. now rewrite dict_lookup_set_same. Qed.

Lemma merge_record_returns (combined : dict) (record : value) :
  kept_readable combined ->
  readable_record record ->
  exists combined',
    merge_record combined record = Ok combined' /\ kept_readable combined'.
Proof.
  intros Hk (d & claim_id & qs & -> & Hid & Hqs).
  destruct (is_empty claim_id) eqn:He.
  - exists combined. unfold merge_record. now rewrite Hid; simpl; rewrite He.
  - destruct (dict_lookup claim_id combined) as [existing|] eqn:L.
    + destruct (dict_lookup_In _ _ _ L) as (k & Hin).
      unfold kept_readable in Hk. rewrite Forall_forall in Hk.
      destruct (Hk _ Hin) as (ed & ps & E & Hps). simpl in E. subst existing.
      apply is_empty_false in He.
      eexists. split; [now apply (merge_record_existing combined claim_id ed d ps qs)|].
      apply (kept_readable_set _ _ _ (ps ++ qs)).
      * now apply Forall_forall.
      * apply procs_of_set.
    + exists (combined ++ [(claim_id, VDict d)]).
      unfold merge_record. rewrite Hid; simpl. rewrite He, L.
      split; [reflexivity|]. apply Forall_app. split; [exact Hk|].
      constructor; [now exists d, qs | constructor].
Qed.

Lemma merge_records_returns (records : list value) :
  forall combined,
    kept_readable combined ->
    Forall readable_record records ->
    exists combined',
      merge_records combined records = Ok combined' /\
      kept_readable combined'.
Proof.
  induction records as [|r rest IH]; intros combined Hk Hr; simpl.
  - now exists combined.
  - inversion Hr as [|? ? Hr0 Hrest]; subst.
    destruct (merge_record_returns _ _ Hk Hr0) as (c1 & -> & Hk1). simpl.
    now apply IH.
Qed.

(** On readable fragments [combine_records] returns. *)
Lemma combine_records_returns (json_strings : list pystr) :
  Forall readable_fragment json_strings ->
  exists out, combine_records json_strings = Ok out.
Proof.
  intros H. unfold combine_records.
  assert (forall combined, kept_readable combined ->
            exists combined', merge_blobs combined json_strings = Ok combined' /\
                              kept_readable combined') as Hm.
  { induction H as [|blob rest Hb _ IH]; intros combined Hk; simpl.
    - now exists combined.
    - assert (exists c1, merge_blob combined blob = Ok c1 /\ kept_readable c1)
        as (c1 & -> & Hk1).
      { destruct Hb as [-> | [(e & Hl & He) | (payload & rs & Hl & Hg & Hrs)]].
        - now exists combined.
        - exists combined. unfold merge_blob. rewrite Hl, He.
          now destruct (is_empty blob).
        - destruct blob as [|c blob]; [now exists combined|].
          assert (Hne : c :: blob <> []) by discriminate.
          rewrite (merge_blob_parsed combined _ _ _ Hne Hl Hg).
          now apply merge_records_returns. }
      simpl. now apply IH. }
  destruct (Hm [] (Forall_nil _)) as (combined & -> & _). simpl. eauto.
Qed.

(** C4. A record whose claim identifier is already in the mapping has its
    [Procs] list appended to the [Procs] list of the record kept, in order of
    appearance, and nothing else of the record kept changes, nor does any
    other entry of the mapping.  In particular two fragments that both carry
    the identifier 123, with [Procs] lists [A] and [B], merge into one record
    whose [Procs] is [A; B]. *)
Theorem combine_records_appends_procs :
  (forall (combined : dict) (claim_id : pystr)
          (existing new_record : dict) (ps qs : list value),
      claim_id_of (VDict new_record) = Ok claim_id ->
      claim_id <> [] ->
      dict_lookup claim_id combined = Some (VDict existing) ->
      procs_of existing = Some ps ->
      procs_of new_record = Some qs ->
      let existing' := dict_set (lit "Procs") (VList (ps ++ qs)) existing in
      let combined' := dict_set claim_id (VDict existing') combined in
      merge_record combined (VDict new_record) = Ok combined' /\
      dict_lookup claim_id combined' = Some (VDict existing') /\
      dict_lookup (lit "Procs") existing' = Some (VList (ps ++ qs)) /\
      (forall k, k <> lit "Procs" ->
                 dict_lookup k existing' = dict_lookup k existing) /\
      dict_keys combined' = dict_keys combined /\
      (forall k, k <> claim_id ->
                 dict_lookup k combined' = dict_lookup k combined))
  /\
  (forall (fragment1 fragment2 : pystr) (A B : value),
      fragment1 <> [] -> fragment2 <> [] ->
      json_loads fragment1 = Ok (payload_of [claim_record (lit "123") [A]]) ->
      json_loads fragment2 = Ok (payload_of [claim_record (lit "123") [B]]) ->
      combine_records [fragment1; fragment2] =
      Ok (payload_of [claim_record (lit "123") [A; B]])).
Proof.
  split.
  - intros combined claim_id existing new_record ps qs Hid Hne L Hps Hqs
           existing' combined'.
    split; [|split; [|split; [|split; [|split]]]].
    + now apply merge_record_existing.
    + apply dict_lookup_set_same.
    + apply dict_lookup_set_same.
    + intros k Hk. now apply dict_lookup_set_other.
    + eapply dict_keys_set_present; eauto.
    + intros k Hk. now apply dict_lookup_set_other.
  - intros f1 f2 A B H1 H2 L1 L2. unfold combine_records, merge_blobs.
    set (c1 := [(lit "123", claim_record (lit "123") [A])]).
    assert (E1 : merge_records [] [claim_record (lit "123") [A]] = Ok c1)
      by (vm_compute; reflexivity).
    assert (E2 : merge_records c1 [claim_record (lit "123") [B]] =
                 Ok [(lit "123", claim_record (lit "123") [A; B])])
      by (vm_compute; reflexivity).
    rewrite (merge_blob_parsed [] f1 _ _ H1 L1 eq_refl), E1. cbn [bind].
    rewrite (merge_blob_parsed c1 f2 _ _ H2 L2 eq_refl), E2.
    reflexivity.
Qed.

(** C5. The records [combine_records] returns carry pairwise distinct claim
    identifiers, in the order in which each identifier first occurs in the
    input, so that an input with N distinct identifiers gives N records. *)
Theorem combine_records_distinct_in_first_seen_order :
  forall (json_strings : list pystr) (out : value),
    combine_records json_strings = Ok out ->
    exists records : list value,
      out = VDict [(lit "Records", VList records)] /\
      map claim_id_of records =
      map Ok (first_seen (input_claim_ids json_strings)) /\
      NoDup (first_seen (input_claim_ids json_strings)) /\
      (forall claim_id,
          In claim_id (first_seen (input_claim_ids json_strings)) <->
          In claim_id (input_claim_ids json_strings)) /\
      List.length records =
      List.length (first_seen (input_claim_ids json_strings)).
Proof.
  intros json_strings out H.
  destruct (combine_records_Ok _ _ H) as (combined & -> & Hk & Hf).
  exists (dict_values combined). rewrite Hk in Hf.
  split; [reflexivity|]. split; [exact Hf|].
  split; [apply first_seen_NoDup|]. split; [apply first_seen_In|].
  rewrite <- Hk. unfold dict_values, dict_keys. now rewrite !length_map.
Qed.

(** C6, amended. A record that is an object whose claim identifier is empty
    or white space only, or is absent because [Claim], [ClaimNum] or [value]
    is missing, null or empty, is dropped: the loop leaves the mapping as it
    was, the merge of a fragment list is the merge of the list without that
    record, and the record is not among the records returned. *)
Theorem combine_records_drops_unidentifiable :
  forall record : value,
    unidentifiable record ->
    (forall combined, merge_record combined record = Ok combined) /\
    (forall (before after : list pystr) (blob blob' : pystr)
            (payload payload' : value) (first_records last_records : list value),
        blob <> [] -> blob' <> [] ->
        json_loads blob = Ok payload ->
        py_get payload (lit "Records") (VList []) =
        Ok (VList (first_records ++ record :: last_records)) ->
        json_loads blob' = Ok payload' ->
        py_get payload' (lit "Records") (VList []) =
        Ok (VList (first_records ++ last_records)) ->
        combine_records (before ++ blob :: after) =
        combine_records (before ++ blob' :: after)) /\
    (forall (json_strings : list pystr) (records : list value),
        combine_records json_strings =
        Ok (VDict [(lit "Records", VList records)]) ->
        ~ In record records).
Proof.
  intros record Hu.
  split; [intros; now apply merge_record_unidentifiable|]. split.
  - intros before after blob blob' payload payload' rs1 rs2
           Hb Hb' Hl Hg Hl' Hg'.
    unfold combine_records. rewrite !merge_blobs_app. f_equal.
    destruct (merge_blobs [] before) as [c|e]; simpl; [|reflexivity].
    rewrite (merge_blob_parsed c _ _ _ Hb Hl Hg).
    rewrite (merge_blob_parsed c _ _ _ Hb' Hl' Hg').
    rewrite !merge_records_app. simpl.
    destruct (merge_records c rs1) as [c1|e]; simpl; [|reflexivity].
    now rewrite (merge_record_unidentifiable c1 _ Hu).
  - intros json_strings records H Hin.
    destruct (combine_records_Ok _ _ H) as (combined & E & Hk & Hf).
    injection E as ->. rewrite Hk in Hf.
    apply (in_map claim_id_of) in Hin.
    rewrite (unidentifiable_claim_id _ Hu), Hf in Hin.
    apply in_map_iff in Hin as (k & Hk0 & Hin). injection Hk0 as ->.
    apply (proj1 (first_seen_In _ _)) in Hin.
    exact (record_claim_ids_nonempty _ Hin).
Qed.

(** C7, amended. A fragment on which [json.loads] raises [JSONDecodeError]
    is skipped wherever it stands: the merge of the whole sequence is the
    merge of the sequence without it. *)
Theorem combine_records_skips_malformed :
  forall (before after : list pystr) (blob : pystr) (e : exn),
    json_loads blob = Raise e ->
    exn_class_of e = JSONDecodeError ->
    combine_records (before ++ blob :: after) =
    combine_records (before ++ after).
Proof.
  intros before after blob e Hl He.
  unfold combine_records. rewrite !merge_blobs_app. f_equal.
  destruct (merge_blobs [] before) as [c|e']; simpl; [|reflexivity].
  unfold merge_blob. rewrite Hl, He.
  now destruct (is_empty blob).
Qed.

(** *** The page loop *)

Lemma page_loop_chained (payloads : list pystr) :
  forall page_number st w exit w' calls,
    page_loop payloads page_number st w = (exit, w', calls) ->
    chained (context_json st) calls.
Proof.
  induction payloads as [|text rest IH]; intros k st w exit w' calls H;
    simpl in H.
  - injection H as <- <- <-. exact I.
  - destruct (count_tokens text w) as [[n|e] w1]; [|now injection H as <- <- <-].
    destruct (llm_processing (context_json st) text w1) as [[output|e] w2].
    + destruct (page_loop rest (S k) _ w2) as [[exit0 w3] calls0] eqn:E.
      injection H as <- <- <-. simpl. split; [reflexivity|].
      apply IH in E. now destruct output.
    + injection H as <- <- <-. simpl. auto.
Qed.

Lemma chained_adjacent (calls : list page_event) :
  forall context earlier ev ev' later,
    chained context calls ->
    calls = earlier ++ ev :: ev' :: later ->
    ev_context ev' = match ev_output ev with
                     | Ok (Some out) => out
                     | _ => ev_context ev
                     end.
Proof.
  induction calls as [|c calls IH]; intros context earlier ev ev' later Hc E.
  - now destruct earlier.
  - destruct Hc as [Hctx Hc]. destruct earlier as [|c0 earlier]; simpl in E.
    + injection E as -> ->. destruct Hc as [Hc _]. now rewrite Hc, Hctx.
    + injection E as -> E. eapply IH; eauto.
Qed.

Lemma page_loop_numbers (payloads : list pystr) :
  forall page_number st w exit w' calls,
    page_loop payloads page_number st w = (exit, w', calls) ->
    map ev_page_number calls = seq page_number (List.length calls).
Proof.
  induction payloads as [|text rest IH]; intros k st w exit w' calls H;
    simpl in H.
  - now injection H as <- <- <-.
  - destruct (count_tokens text w) as [[n|e] w1]; [|now injection H as <- <- <-].
    destruct (llm_processing (context_json st) text w1) as [[output|e] w2].
    + destruct (page_loop rest (S k) _ w2) as [[exit0 w3] calls0] eqn:E.
      injection H as <- <- <-. simpl. f_equal. now apply IH in E.
    + now injection H as <- <- <-.
Qed.

Lemma page_loop_texts (payloads : list pystr) :
  forall page_number st w exit w' calls,
    page_loop payloads page_number st w = (exit, w', calls) ->
    exists later, payloads = map ev_text calls ++ later.
Proof.
  induction payloads as [|text rest IH]; intros k st w exit w' calls H;
    simpl in H.
  - injection H as <- <- <-. now exists [].
  - destruct (count_tokens text w) as [[n|e] w1];
      [|injection H as <- <- <-; now exists (text :: rest)].
    destruct (llm_processing (context_json st) text w1) as [[output|e] w2].
    + destruct (page_loop rest (S k) _ w2) as [[exit0 w3] calls0] eqn:E.
      injection H as <- <- <-. apply IH in E as (later & ->).
      now exists later.
    + injection H as <- <- <-. now exists rest.
Qed.

(** A call that raises ends the loop: it is the last call, and the loop
    gives the error message of that page. *)
Lemma page_loop_raise (payloads : list pystr) :
  forall page_number st w exit w' calls ev e,
    page_loop payloads page_number st w = (exit, w', calls) ->
    In ev calls -> ev_output ev = Raise e ->
    exit = Failed (llm_failure (ev_page_number ev) e) /\
    exists earlier, calls = earlier ++ [ev] /\ Forall answered earlier.
Proof.
  induction payloads as [|text rest IH]; intros k st w exit w' calls ev e H Hin He;
    simpl in H.
  - injection H as <- <- <-. destruct Hin.
  - destruct (count_tokens text w) as [[n|e0] w1];
      [|injection H as <- <- <-; destruct Hin].
    destruct (llm_processing (context_json st) text w1) as [[output|e0] w2].
    + destruct (page_loop rest (S k) _ w2) as [[exit0 w3] calls0] eqn:E.
      injection H as <- <- <-. destruct Hin as [<- | Hin]; [discriminate|].
      destruct (IH _ _ _ _ _ _ _ _ E Hin He) as (-> & earlier & -> & Hf).
      split; [reflexivity|].
      eexists (_ :: earlier). split; [reflexivity|].
      constructor; [now exists output | exact Hf].
    + injection H as <- <- <-. destruct Hin as [<- | []].
      simpl in He. injection He as ->. split; [reflexivity|].
      now exists [].
Qed.

(** The loop up to a call that raises: the pages before it were run to
    their end, the tokens of the page were counted, the call was made with
    the context reached, and the world the loop leaves is the one the call
    left. *)
Lemma page_loop_stops_at_fault (payloads : list pystr) :
  forall page_number st w exit w' calls earlier ev e,
    page_loop payloads page_number st w = (exit, w', calls) ->
    calls = earlier ++ [ev] -> ev_output ev = Raise e ->
    exists st' wa wb,
      page_loop (map ev_text earlier) page_number st w =
      (Finished st', wa, earlier) /\
      count_tokens (ev_text ev) wa = (Ok (ev_tokens ev), wb) /\
      llm_processing (context_json st') (ev_text ev) wb = (Raise e, w').
Proof.
  induction payloads as [|text rest IH];
    intros k st w exit w' calls earlier ev e H E He; simpl in H.
  - injection H as <- <- <-. now destruct earlier.
  - destruct (count_tokens text w) as [[n|e0] w1] eqn:C;
      [|injection H as <- <- <-; now destruct earlier].
    destruct (llm_processing (context_json st) text w1) as [[output|e0] w2]
      eqn:L.
    + destruct (page_loop rest (S k) _ w2) as [[exit0 w3] calls0] eqn:R.
      injection H as <- <- <-.
      destruct earlier as [|ev0 earlier]; simpl in E.
      * injection E as <- _. discriminate.
      * injection E as <- E.
        destruct (IH _ _ _ _ _ _ _ _ _ R E He) as (st' & wa & wb & Hl & Hc & Hf).
        exists st', wa, wb. split; [|split; assumption].
        simpl. now rewrite C, L, Hl.
    + injection H as <- <- <-.
      destruct earlier as [|ev0 [|ev1 earlier]]; simpl in E;
        [|discriminate|discriminate].
      injection E as <-. simpl in He. injection He as <-.
      exists st, w, w1. simpl. now split.
Qed.

Lemma last_nonempty {A} (x : A) (l : list A) (d d' : A) :
  last (x :: l) d = last (x :: l) d'.
Proof.
  revert x; induction l as [|y l IH]; intros x; [reflexivity|].
  change (last (y :: l) d = last (y :: l) d'). apply IH.
Qed.

(** A loop in which every page got an answer runs to its end, with the
    tokens of all pages counted and the answers that are not [None] kept. *)
Lemma page_loop_answered (payloads : list pystr) :
  forall page_number st w exit w' calls,
    page_loop payloads page_number st w = (exit, w', calls) ->
    map ev_text calls = payloads ->
    Forall answered calls ->
    exit = Finished {| token_count := token_count st + tokens_counted calls;
                       jsons := jsons st ++ fragments_of calls;
                       context_json :=
                         last (fragments_of calls) (context_json st) |}.
Proof.
  induction payloads as [|text rest IH]; intros k st w exit w' calls H Ht Ha;
    simpl in H.
  - injection H as <- <- <-. destruct st; simpl.
    now rewrite Z.add_0_r, app_nil_r.
  - destruct (count_tokens text w) as [[n|e] w1];
      [|injection H as <- <- <-; discriminate].
    destruct (llm_processing (context_json st) text w1) as [[output|e] w2].
    + destruct (page_loop rest (S k) _ w2) as [[exit0 w3] calls0] eqn:E.
      injection H as <- <- <-. simpl in Ht. injection Ht as Ht.
      inversion Ha as [|? ? _ Ha0]; subst.
      rewrite (IH _ _ _ _ _ _ E eq_refl Ha0). unfold tokens_counted.
      destruct output as [out|]; simpl; f_equal; f_equal;
        try (rewrite <- app_assoc; reflexivity); try lia.
      destruct (fragments_of calls0); [reflexivity | apply last_nonempty].
    + injection H as <- <- <-. inversion Ha as [|? ? [o Ho] _]; subst.
      discriminate.
Qed.

Lemma page_loop_counts (payloads : list pystr) :
  forall page_number st w exit w' calls,
    page_loop payloads page_number st w = (exit, w', calls) ->
    Forall (fun ev => exists wa wb,
                count_tokens (ev_text ev) wa = (Ok (ev_tokens ev), wb)) calls.
Proof.
  induction payloads as [|text rest IH]; intros k st w exit w' calls H;
    simpl in H.
  - injection H as <- <- <-. constructor.
  - destruct (count_tokens text w) as [[n|e] w1] eqn:C;
      [|injection H as <- <- <-; constructor].
    destruct (llm_processing (context_json st) text w1) as [[output|e] w2].
    + destruct (page_loop rest (S k) _ w2) as [[exit0 w3] calls0] eqn:E.
      injection H as <- <- <-. constructor; [now exists w, w1|].
      now apply IH in E.
    + injection H as <- <- <-. constructor; [now exists w, w1 | constructor].
Qed.

Lemma llm_failure_not_empty (page_number : nat) (e : exn) :
  llm_failure page_number e <> [].
Proof. unfold llm_failure, lit. simpl. discriminate. Qed.

(** *** The orchestrator: the claims *)

(** A run that called the model went through the page loop. *)
Lemma process_pdf_loop (pdf_key filename : pystr) (w : World)
    (out : result PipelineResult) (w' : World) (calls : list page_event) :
  process_pdf pdf_key filename w = (out, w', calls) ->
  calls <> [] ->
  exists url w1 payloads w2 exit,
    presign_s3url pdf_key w = (Ok url, w1) /\
    get_text_and_tables_from_url url w1 = (Ok (Some payloads), w2) /\
    page_loop payloads 1 initial_state w2 = (exit, w', calls) /\
    forall msg, exit = Failed msg -> out = Ok (set_Error initial_records msg).
Proof.
  intros H Hne. unfold process_pdf in H.
  destruct (presign_s3url pdf_key w) as [[url|e] w1] eqn:Hp;
    [|injection H as <- <- <-; contradiction].
  destruct (get_text_and_tables_from_url url w1) as [[[payloads|]|e] w2] eqn:Hx;
    try (injection H as <- <- <-; contradiction).
  destruct (page_loop payloads 1 initial_state w2) as [[exit w3] calls0] eqn:E.
  exists url, w1, payloads, w2, exit.
  split; [reflexivity|]. split; [exact Hx|].
  destruct exit as [st|msg|e].
  - destruct (combine_records (jsons st)) as [combined_json|e];
      [destruct (py_get combined_json (lit "Records") (VList []))|];
      injection H as <- <- <-; (split; [exact E | discriminate]).
  - injection H as <- <- <-. split; [exact E|]. now intros msg0 [= <-].
  - injection H as <- <- <-. split; [exact E | discriminate].
Qed.

Lemma process_pdf_chained (pdf_key filename : pystr) (w : World)
    (out : result PipelineResult) (w' : World) (calls : list page_event) :
  process_pdf pdf_key filename w = (out, w', calls) -> chained [] calls.
Proof.
  intros H. destruct calls as [|ev calls]; [exact I|].
  destruct (process_pdf_loop _ _ _ _ _ _ H) as
    (url & w1 & payloads & w2 & exit & _ & _ & Hloop & _); [discriminate|].
  exact (page_loop_chained _ _ _ _ _ _ _ Hloop).
Qed.

(** C1, as the code has it. When the extractor gives an empty list of pages
    (which is not [None]), [process_pdf] does not fail: it calls no model,
    merges nothing and returns no records, 4000 tokens and an empty
    [Error]. *)
Theorem empty_document_reported_as_success :
  forall (pdf_key filename url : pystr) (w w1 w2 : World),
    presign_s3url pdf_key w = (Ok url, w1) ->
    get_text_and_tables_from_url url w1 = (Ok (Some []), w2) ->
    process_pdf pdf_key filename w =
    (Ok {| Records := VList []; TotalTokens := 4000;
           WarningCodes := []; Error := [] |}, w2, []).
Proof.
  intros pdf_key filename url w w1 w2 Hp Hx.
  unfold process_pdf. now rewrite Hp, Hx.
Qed.

(** C2, amended. A page for which [llm_processing] returns [None] adds no
    fragment and leaves the context as it was; only its tokens are counted.
    Hence in every run a call that follows one that returned [None] gets the
    same context as that one, and in a run of three calls where the first
    returns a string and the second [None], the third gets that string as
    its context. *)
Theorem none_output_keeps_context :
  (forall (text : pystr) (rest : list pystr) (page_number : nat)
          (st : loop_state) (w w1 w2 : World) (n : Z),
      count_tokens text w = (Ok n, w1) ->
      llm_processing (context_json st) text w1 = (Ok None, w2) ->
      page_loop (text :: rest) page_number st w =
      let '(exit, w3, calls) :=
        page_loop rest (S page_number)
                  {| token_count := token_count st + n;
                     jsons := jsons st;
                     context_json := context_json st |} w2 in
      (exit, w3,
       {| ev_page_number := page_number; ev_text := text; ev_tokens := n;
          ev_context := context_json st; ev_output := Ok None |} :: calls))
  /\
  (forall (pdf_key filename : pystr) (w w' : World)
          (out : result PipelineResult)
          (earlier later : list page_event) (ev ev' : page_event),
      process_pdf pdf_key filename w =
      (out, w', earlier ++ ev :: ev' :: later) ->
      ev_output ev = Ok None ->
      ev_context ev' = ev_context ev)
  /\
  (forall (pdf_key filename : pystr) (w w' : World)
          (out : result PipelineResult) (ev1 ev2 ev3 : page_event)
          (out1 : pystr),
      process_pdf pdf_key filename w = (out, w', [ev1; ev2; ev3]) ->
      ev_output ev1 = Ok (Some out1) ->
      ev_output ev2 = Ok None ->
      ev_context ev1 = [] /\ ev_context ev2 = out1 /\ ev_context ev3 = out1).
Proof.
  split; [|split].
  - intros text rest k st w w1 w2 n Hc Hl. simpl. now rewrite Hc, Hl.
  - intros pdf_key filename w w' out earlier later ev ev' H Ho.
    apply process_pdf_chained in H.
    rewrite (chained_adjacent _ _ _ _ _ _ H eq_refl). now rewrite Ho.
  - intros pdf_key filename w w' out ev1 ev2 ev3 out1 H H1 H2.
    apply process_pdf_chained in H. simpl in H.
    rewrite H1, H2 in H. destruct H as (E1 & E2 & E3 & _). auto.
Qed.

(** C3. When a call of [llm_processing] raises, [process_pdf] returns at
    once: the result carries the error message of that page, which is not
    empty, no records and a token total of 0, whatever was counted; the call
    that raised is the last one made, its page number is the number of calls
    made, and the pages after it are never passed to the model: the pages
    before it were run to their end, the page was counted and passed to the
    model, and the world [process_pdf] leaves is the one that call left, so
    nothing was called after it. *)
Theorem llm_fault_fails_fast :
  forall (pdf_key filename : pystr) (w w' : World)
         (out : result PipelineResult) (calls : list page_event)
         (ev : page_event) (e : exn),
    process_pdf pdf_key filename w = (out, w', calls) ->
    In ev calls ->
    ev_output ev = Raise e ->
    (exists records,
        out = Ok records /\
        Error records = llm_failure (ev_page_number ev) e /\
        Error records <> [] /\
        Records records = VList [] /\
        TotalTokens records = 0%Z) /\
    (exists earlier,
        calls = earlier ++ [ev] /\ Forall answered earlier) /\
    ev_page_number ev = List.length calls /\
    (exists url w1 w2 payloads later earlier st wa wb,
        presign_s3url pdf_key w = (Ok url, w1) /\
        get_text_and_tables_from_url url w1 = (Ok (Some payloads), w2) /\
        payloads = map ev_text calls ++ later /\
        calls = earlier ++ [ev] /\
        page_loop (map ev_text earlier) 1 initial_state w2 =
        (Finished st, wa, earlier) /\
        count_tokens (ev_text ev) wa = (Ok (ev_tokens ev), wb) /\
        llm_processing (context_json st) (ev_text ev) wb = (Raise e, w')).
Proof.
  intros pdf_key filename w w' out calls ev e H Hin He.
  destruct (process_pdf_loop _ _ _ _ _ _ H) as
    (url & w1 & payloads & w2 & exit & Hp & Hx & Hloop & Hout).
  { intros ->. destruct Hin. }
  destruct (page_loop_raise _ _ _ _ _ _ _ _ _ Hloop Hin He)
    as (-> & earlier & -> & Ha).
  split; [|split; [|split]].
  - eexists. split; [now apply Hout|]. simpl.
    repeat split. apply llm_failure_not_empty.
  - now exists earlier.
  - pose proof (page_loop_numbers _ _ _ _ _ _ _ Hloop) as Hn.
    rewrite map_app, length_app in Hn. simpl in Hn.
    rewrite Nat.add_1_r, seq_S in Hn.
    apply app_inj_tail in Hn as [_ ->].
    rewrite length_app. simpl. lia.
  - destruct (page_loop_texts _ _ _ _ _ _ _ Hloop) as (later & ->).
    destruct (page_loop_stops_at_fault _ _ _ _ _ _ _ _ _ _ Hloop eq_refl He)
      as (st & wa & wb & Hl & Hc & Hf).
    exists url, w1, w2, (map ev_text (earlier ++ [ev]) ++ later), later,
           earlier, st, wa, wb.
    repeat split; assumption.
Qed.

(** C8. On a run without a collaborator fault (the URL is signed, the pages
    are extracted, every page has its tokens counted and gets an answer from
    the model, and the merge returns), [TotalTokens] is the sum of the token
    counts of all pages plus 4000 and [Error] is empty; each count summed is
    one [count_tokens] gave for the text of that page. *)
Theorem total_tokens_on_success :
  forall (pdf_key filename url : pystr) (w w1 w2 w' : World)
         (payloads : list pystr) (out : result PipelineResult)
         (calls : list page_event) (merged : value),
    presign_s3url pdf_key w = (Ok url, w1) ->
    get_text_and_tables_from_url url w1 = (Ok (Some payloads), w2) ->
    process_pdf pdf_key filename w = (out, w', calls) ->
    map ev_text calls = payloads ->
    Forall answered calls ->
    combine_records (fragments_of calls) = Ok merged ->
    (exists records,
        out = Ok records /\
        TotalTokens records = (tokens_counted calls + 4000)%Z /\
        Error records = [] /\
        py_get merged (lit "Records") (VList []) = Ok (Records records)) /\
    Forall (fun ev => exists wa wb,
                count_tokens (ev_text ev) wa = (Ok (ev_tokens ev), wb)) calls.
Proof.
  intros pdf_key filename url w w1 w2 w' payloads out calls merged
         Hp Hx H Ht Ha Hm.
  unfold process_pdf in H. rewrite Hp, Hx in H.
  destruct (page_loop payloads 1 initial_state w2) as [[exit w3] calls0] eqn:E.
  assert (calls0 = calls) as ->
    by (destruct exit as [st|msg|e];
        [destruct (combine_records (jsons st)) as [c|e];
         [destruct (py_get c (lit "Records") (VList []))|]| |];
        now injection H).
  split; [|exact (page_loop_counts _ _ _ _ _ _ _ E)].
  rewrite (page_loop_answered _ _ _ _ _ _ _ E Ht Ha) in H. simpl in H.
  rewrite Hm in H.
  pose proof (combine_records_Ok _ _ Hm) as (combined & -> & _).
  simpl in H. injection H as <- _.
  eexists. split; [reflexivity|]. simpl. auto.
Qed.

(** C9, as the code has it. The exception of a [count_tokens] call is not
    caught: when the tokens of the first page cannot be counted,
    [process_pdf] returns nothing and the exception reaches the caller. *)
Theorem count_tokens_fault_escapes :
  forall (pdf_key filename url text : pystr) (rest : list pystr)
         (w w1 w2 w3 : World) (e : exn),
    presign_s3url pdf_key w = (Ok url, w1) ->
    get_text_and_tables_from_url url w1 = (Ok (Some (text :: rest)), w2) ->
    count_tokens text w2 = (Raise e, w3) ->
    process_pdf pdf_key filename w = (Raise e, w3, []).
Proof.
  intros pdf_key filename url text rest w w1 w2 w3 e Hp Hx Hc.
  unfold process_pdf. rewrite Hp, Hx. simpl. now rewrite Hc.
Qed.

(** C10. Whatever [process_pdf] returns, on success and on failure alike,
    its [WarningCodes] is the empty list: nothing the merger skips is
    recorded there. *)
Theorem warning_codes_always_empty :
  forall (pdf_key filename : pystr) (w w' : World)
         (records : PipelineResult) (calls : list page_event),
    process_pdf pdf_key filename w = (Ok records, w', calls) ->
    WarningCodes records = [].
Proof.
  intros pdf_key filename w w' records calls. unfold process_pdf.
  destruct (presign_s3url pdf_key w) as [[url|e] w1];
    [|now intros [= <- _ _]].
  destruct (get_text_and_tables_from_url url w1) as [[[payloads|]|e] w2];
    try now intros [= <- _ _].
  destruct (page_loop payloads 1 initial_state w2) as [[[st|msg|e] w3] calls0];
    try now intros [= <- _ _].
  destruct (combine_records (jsons st)) as [combined_json|e];
    [|now intros [= <- _ _]].
  destruct (py_get combined_json (lit "Records") (VList []));
    now intros [= <- _ _].
Qed.

(** *** More on the merger *)

(** An empty fragment is skipped like a malformed one: wherever it stands,
    the merge is the merge of the sequence without it. *)
Theorem combine_records_skips_empty :
  forall before after : list pystr,
    combine_records (before ++ [] :: after) = combine_records (before ++ after).
Proof.
  intros before after. unfold combine_records.
  rewrite !merge_blobs_app. reflexivity.
Qed.

(** A fragment that is JSON but not an object is not skipped: it stops the
    merge with the [AttributeError] of the missing [get], whatever the
    fragments before it gave and whatever follows. *)
Theorem combine_records_rejects_non_object :
  forall (before after : list pystr) (blob : pystr) (payload : value)
         (combined : dict),
    merge_blobs [] before = Ok combined ->
    blob <> [] ->
    json_loads blob = Ok payload ->
    (forall d, payload <> VDict d) ->
    combine_records (before ++ blob :: after) =
    Raise (no_attribute payload "get").
Proof.
  intros before after blob payload combined Hb Hne Hl Hp.
  unfold combine_records. rewrite merge_blobs_app, Hb. simpl.
  unfold merge_blob. apply is_empty_false in Hne. rewrite Hne, Hl.
  destruct payload; try reflexivity. now destruct (Hp d).
Qed.

(** A record whose claim number is a truthy value other than a string (a
    number, a list) cannot be stripped: reading its identifier raises, and
    so does the merge of any fragment list in which the merger reaches it. *)
Theorem combine_records_rejects_non_string_claim_number :
  forall (d c m : dict) (v : value),
    dict_lookup (lit "Claim") d = Some (VDict c) ->
    dict_lookup (lit "ClaimNum") c = Some (VDict m) ->
    dict_lookup (lit "value") m = Some v ->
    truthy v = true ->
    (forall s, v <> VStr s) ->
    claim_id_of (VDict d) = Raise (no_attribute v "strip") /\
    (forall (before after : list pystr) (blob : pystr) (payload : value)
            (first_records last_records : list value)
            (combined combined1 : dict),
        merge_blobs [] before = Ok combined ->
        blob <> [] ->
        json_loads blob = Ok payload ->
        py_get payload (lit "Records") (VList []) =
        Ok (VList (first_records ++ VDict d :: last_records)) ->
        merge_records combined first_records = Ok combined1 ->
        combine_records (before ++ blob :: after) =
        Raise (no_attribute v "strip")).
Proof.
  intros d c m v Hc Hm Hv Ht Hs.
  assert (claim_id_of (VDict d) = Raise (no_attribute v "strip")) as Hid.
  { unfold claim_id_of; simpl py_get; cbn [bind].
    rewrite Hc, py_or_dict; simpl py_get; cbn [bind].
    rewrite Hm, py_or_dict; simpl py_get; cbn [bind].
    rewrite Hv. unfold py_or. rewrite Ht.
    destruct v; try reflexivity. now destruct (Hs s). }
  split; [exact Hid|].
  intros before after blob payload rs1 rs2 combined combined1
         Hb Hne Hl Hg H1.
  unfold combine_records. rewrite merge_blobs_app, Hb. simpl.
  rewrite (merge_blob_parsed combined _ _ _ Hne Hl Hg).
  rewrite merge_records_app, H1. simpl.
  unfold merge_record. now rewrite Hid.
Qed.

(** *** More on the orchestrator *)

Lemma page_loop_finished (payloads : list pystr) :
  forall page_number st w st' w' calls,
    page_loop payloads page_number st w = (Finished st', w', calls) ->
    map ev_text calls = payloads /\ Forall answered calls.
Proof.
  induction payloads as [|text rest IH]; intros k st w st' w' calls H;
    simpl in H.
  - injection H as <- <- <-. split; constructor.
  - destruct (count_tokens text w) as [[n|e] w1]; [|discriminate].
    destruct (llm_processing (context_json st) text w1) as [[output|e] w2];
      [|discriminate].
    destruct (page_loop rest (S k) _ w2) as [[exit0 w3] calls0] eqn:E.
    injection H as -> <- <-. destruct (IH _ _ _ _ _ _ E) as (Ht & Ha).
    split; [simpl; now rewrite Ht|].
    constructor; [now exists output | exact Ha].
Qed.

Lemma page_loop_context (payloads : list pystr) :
  forall page_number st w exit w' calls earlier ev later,
    page_loop payloads page_number st w = (exit, w', calls) ->
    calls = earlier ++ ev :: later ->
    ev_context ev = last (fragments_of earlier) (context_json st).
Proof.
  induction payloads as [|text rest IH];
    intros k st w exit w' calls earlier ev later H E; simpl in H.
  - injection H as <- <- <-. now destruct earlier.
  - destruct (count_tokens text w) as [[n|e] w1];
      [|injection H as <- <- <-; now destruct earlier].
    destruct (llm_processing (context_json st) text w1) as [[output|e] w2].
    + destruct (page_loop rest (S k) _ w2) as [[exit0 w3] calls0] eqn:L.
      injection H as <- <- <-.
      destruct earlier as [|ev0 earlier]; simpl in E.
      * now injection E as <- _.
      * injection E as <- E.
        rewrite (IH _ _ _ _ _ _ _ _ _ L E).
        destruct output as [out|]; simpl; [|reflexivity].
        destruct (fragments_of earlier); [reflexivity | apply last_nonempty].
    + injection H as <- <- <-.
      destruct earlier as [|ev0 [|ev1 earlier]]; simpl in E;
        [now injection E as <- _ | discriminate | discriminate].
Qed.

Lemma page_loop_failed (payloads : list pystr) :
  forall page_number st w msg w' calls,
    page_loop payloads page_number st w = (Failed msg, w', calls) ->
    exists k e, msg = llm_failure k e.
Proof.
  induction payloads as [|text rest IH]; intros k st w msg w' calls H;
    simpl in H; [discriminate|].
  destruct (count_tokens text w) as [[n|e] w1]; [|discriminate].
  destruct (llm_processing (context_json st) text w1) as [[output|e] w2].
  - destruct (page_loop rest (S k) _ w2) as [[exit0 w3] calls0] eqn:E.
    injection H as -> _ _. exact (IH _ _ _ _ _ _ E).
  - injection H as <- _ _. now exists k, e.
Qed.

(** Every call of the model gets as context the latest answer before it
    that was not [None], and the empty string when there is none. *)
Theorem process_pdf_context_is_last_fragment :
  forall (pdf_key filename : pystr) (w w' : World)
         (out : result PipelineResult)
         (earlier later : list page_event) (ev : page_event),
    process_pdf pdf_key filename w = (out, w', earlier ++ ev :: later) ->
    ev_context ev = last (fragments_of earlier) [].
Proof.
  intros pdf_key filename w w' out earlier later ev H.
  destruct (process_pdf_loop _ _ _ _ _ _ H) as
    (url & w1 & payloads & w2 & exit & _ & _ & Hloop & _).
  { now destruct earlier. }
  exact (page_loop_context _ _ _ _ _ _ _ _ _ _ Hloop eq_refl).
Qed.

(** The model is called on the pages in document order, once each and
    numbered from 1: the texts passed are an initial segment of the pages the
    extractor gave. *)
Theorem process_pdf_calls_follow_pages :
  forall (pdf_key filename url : pystr) (w w1 w2 w' : World)
         (payloads : list pystr) (out : result PipelineResult)
         (calls : list page_event),
    presign_s3url pdf_key w = (Ok url, w1) ->
    get_text_and_tables_from_url url w1 = (Ok (Some payloads), w2) ->
    process_pdf pdf_key filename w = (out, w', calls) ->
    (exists later, payloads = map ev_text calls ++ later) /\
    map ev_page_number calls = seq 1 (List.length calls) /\
    List.length calls <= List.length payloads.
Proof.
  intros pdf_key filename url w w1 w2 w' payloads out calls Hp Hx H.
  unfold process_pdf in H. rewrite Hp, Hx in H.
  destruct (page_loop payloads 1 initial_state w2) as [[exit w3] calls0] eqn:E.
  assert (calls0 = calls) as ->
    by (destruct exit as [st|msg|e];
        [destruct (combine_records (jsons st)) as [c|e];
         [destruct (py_get c (lit "Records") (VList []))|]| |];
        now injection H).
  destruct (page_loop_texts _ _ _ _ _ _ _ E) as (later & Hl).
  split; [now exists later|]. split; [exact (page_loop_numbers _ _ _ _ _ _ _ E)|].
  rewrite Hl, length_app, length_map. apply Nat.le_add_r.
Qed.

Lemma process_pdf_kinds :
  forall (pdf_key filename : pystr) (w w' : World)
         (records : PipelineResult) (calls : list page_event),
    process_pdf pdf_key filename w = (Ok records, w', calls) ->
    (Error records = [] /\
     TotalTokens records = (tokens_counted calls + 4000)%Z /\
     Forall answered calls /\
     exists merged,
       combine_records (fragments_of calls) = Ok merged /\
       py_get merged (lit "Records") (VList []) = Ok (Records records)) \/
    (Error records <> [] /\
     Records records = VList [] /\
     TotalTokens records = 0%Z).
Proof.
  intros pdf_key filename w w' records calls H. unfold process_pdf in H.
  destruct (presign_s3url pdf_key w) as [[url|e] w1];
    [|injection H as <- _ _; right; repeat split; discriminate].
  destruct (get_text_and_tables_from_url url w1) as [[[payloads|]|e] w2];
    try (injection H as <- _ _; right; repeat split; discriminate).
  destruct (page_loop payloads 1 initial_state w2) as [[exit w3] calls0] eqn:E.
  destruct exit as [st|msg|e]; [| |discriminate].
  - destruct (page_loop_finished _ _ _ _ _ _ _ E) as (Ht & Ha).
    pose proof (page_loop_answered _ _ _ _ _ _ _ E Ht Ha) as Hst.
    injection Hst as ->. simpl in H.
    destruct (combine_records (fragments_of calls0)) as [merged|e] eqn:Hm.
    + destruct (py_get merged (lit "Records") (VList [])) as [recs|e] eqn:Hg;
        [|discriminate].
      injection H as <- _ <-. left. simpl. repeat split; [exact Ha|].
      now exists merged.
    + injection H as <- _ _. right. repeat split. discriminate.
  - injection H as <- _ <-. right.
    destruct (page_loop_failed _ _ _ _ _ _ _ E) as (k & e & ->).
    repeat split. apply llm_failure_not_empty.
Qed.

(** What [process_pdf] returns is of one of two kinds: a success, with an
    empty [Error], the merge of the answers kept and the tokens of all pages
    plus 4000; or a failure, with an [Error] that is not empty, no records
    and no tokens. *)
Theorem process_pdf_result_kinds :
  forall (pdf_key filename : pystr) (w w' : World)
         (records : PipelineResult) (calls : list page_event),
    process_pdf pdf_key filename w = (Ok records, w', calls) ->
    (Error records = [] /\
     TotalTokens records = (tokens_counted calls + 4000)%Z /\
     Forall answered calls /\
     exists merged,
       combine_records (fragments_of calls) = Ok merged /\
       py_get merged (lit "Records") (VList []) = Ok (Records records)) \/
    (Error records <> [] /\
     Records records = VList [] /\
     TotalTokens records = 0%Z).
Proof. exact process_pdf_kinds. Qed.

(** A fault of the merge, after every page was processed, discards the
    token count with everything else: the result is the blank one with the
    message of the merge. *)
Theorem process_pdf_merge_fault_discards_tokens :
  forall (pdf_key filename url : pystr) (w w1 w2 w' : World)
         (payloads : list pystr) (out : result PipelineResult)
         (calls : list page_event) (e : exn),
    presign_s3url pdf_key w = (Ok url, w1) ->
    get_text_and_tables_from_url url w1 = (Ok (Some payloads), w2) ->
    process_pdf pdf_key filename w = (out, w', calls) ->
    map ev_text calls = payloads ->
    Forall answered calls ->
    combine_records (fragments_of calls) = Raise e ->
    out = Ok {| Records := VList []; TotalTokens := 0; WarningCodes := [];
                Error := lit "Failed to combine records: " ++ exn_str e |}.
Proof.
  intros pdf_key filename url w w1 w2 w' payloads out calls e
         Hp Hx H Ht Ha Hm.
  unfold process_pdf in H. rewrite Hp, Hx in H.
  destruct (page_loop payloads 1 initial_state w2) as [[exit w3] calls0] eqn:E.
  assert (calls0 = calls) as ->
    by (destruct exit as [st|msg|e0];
        [destruct (combine_records (jsons st)) as [c|e0];
         [destruct (py_get c (lit "Records") (VList []))|]| |];
        now injection H).
  rewrite (page_loop_answered _ _ _ _ _ _ _ E Ht Ha) in H. simpl in H.
  rewrite Hm in H. now injection H as <- _.
Qed.

(** *** S3 paths *)

Lemma take_while_all (p : N -> bool) (s : pystr) :
  forallb p s = true -> take_while p s = s /\ drop_while p s = [].
Proof.
  induction s as [|c s IH]; simpl; [auto|].
  intros H. apply andb_true_iff in H as [Hc Hs]. rewrite Hc.
  destruct (IH Hs) as [-> ->]. auto.
Qed.

Lemma take_while_stop (p : N -> bool) (a b : pystr) (c : N) :
  forallb p a = true -> p c = false ->
  take_while p (a ++ c :: b) = a /\ drop_while p (a ++ c :: b) = c :: b.
Proof.
  intros Ha Hc. induction a as [|x a IH]; simpl in *.
  - now rewrite Hc.
  - apply andb_true_iff in Ha as [Hx Ha]. rewrite Hx.
    destruct (IH Ha) as [-> ->]. auto.
Qed.

Lemma take_drop_while (p : N -> bool) (s : pystr) :
  s = take_while p s ++ drop_while p s /\
  forallb p (take_while p s) = true /\
  (drop_while p s = [] \/
   exists c rest, drop_while p s = c :: rest /\ p c = false).
Proof.
  induction s as [|c s IH]; simpl; [auto|].
  destruct (p c) eqn:Hc; simpl.
  - destruct IH as (E & Hf & Hd). rewrite Hc, Hf, <- E. auto.
  - split; [reflexivity|]. split; [reflexivity|]. right. now exists c, s.
Qed.

Lemma parse_s3_path_built (bucket key : pystr) :
  bucket <> [] ->
  forallb (fun c => negb (c =? 47)%N) bucket = true ->
  key <> [] ->
  forallb (fun c => negb (c =? newline)%N) key = true ->
  parse_s3_path (lit "s3://" ++ bucket ++ lit "/" ++ key) =
  Some (bucket, key).
Proof.
  intros Hb Hbs Hk Hks.
  change (lit "s3://" ++ bucket ++ lit "/" ++ key)
    with (115 :: 51 :: 58 :: 47 :: 47 :: bucket ++ 47 :: key)%N.
  unfold parse_s3_path.
  destruct (take_while_stop (fun c => negb (c =? 47)%N) bucket key 47 Hbs eq_refl)
    as [-> ->].
  destruct (take_while_all _ _ Hks) as [-> _].
  destruct bucket; [contradiction|]. destruct key; [contradiction|].
  reflexivity.
Qed.

(** The pattern of [process_pdf_from_s3] reads back what was written: a
    path made of a bucket without [/] and a key without line feed, both not
    empty, parses to that bucket and that key. *)
Theorem parse_s3_path_of_bucket_and_key :
  forall bucket key : pystr,
    bucket <> [] ->
    forallb (fun c => negb (c =? 47)%N) bucket = true ->
    key <> [] ->
    forallb (fun c => negb (c =? newline)%N) key = true ->
    parse_s3_path (lit "s3://" ++ bucket ++ lit "/" ++ key) =
    Some (bucket, key).
Proof. exact parse_s3_path_built. Qed.

(** What the pattern accepts: the path starts with the scheme, the bucket
    and the key are not empty, the bucket has no [/], the key has no line
    feed; the key ends where the path ends or at its first line feed, and
    what follows a line feed is dropped. *)
Theorem parse_s3_path_accepts :
  forall path bucket key : pystr,
    parse_s3_path path = Some (bucket, key) ->
    bucket <> [] /\ key <> [] /\
    forallb (fun c => negb (c =? 47)%N) bucket = true /\
    forallb (fun c => negb (c =? newline)%N) key = true /\
    exists dropped,
      path = lit "s3://" ++ bucket ++ lit "/" ++ key ++ dropped /\
      (dropped = [] \/ exists rest, dropped = newline :: rest).
Proof.
  intros path bucket key H. unfold parse_s3_path in H.
  destruct path as [|c1 [|c2 [|c3 [|c4 [|c5 rest]]]]];
    try (repeat match type of H with
                | match ?c with _ => _ end = _ => destruct c
                end; discriminate).
  repeat match type of H with
         | match ?c with 0%N => _ | N.pos _ => _ end = _ =>
             destruct c; try discriminate
         | match ?c with xH => _ | xO _ => _ | xI _ => _ end = _ =>
             destruct c; try discriminate
         end.
  destruct (take_drop_while (fun c => negb (c =? 47)%N) rest)
    as (Er & Hfb & Hd).
  destruct (drop_while (fun c => negb (c =? 47)%N) rest) as [|s after] eqn:D;
    [discriminate|].
  destruct Hd as [Hd | (c & r & Hd & Hc)]; [discriminate|].
  injection Hd as <- <-.
  apply negb_false_iff, N.eqb_eq in Hc. subst s.
  destruct (take_drop_while (fun c => negb (c =? newline)%N) after)
    as (Ea & Hfk & Hk).
  destruct (is_empty (take_while (fun c => negb (c =? 47)%N) rest)) eqn:B;
    [discriminate|].
  destruct (is_empty (take_while (fun c => negb (c =? newline)%N) after)) eqn:K;
    [discriminate|].
  simpl in H. injection H as <- <-.
  apply is_empty_false in B, K.
  repeat split; try assumption.
  exists (drop_while (fun c => negb (c =? newline)%N) after). split.
  - change (lit "s3://" ++ ?x) with (115 :: 51 :: 58 :: 47 :: 47 :: x)%N.
    change (lit "/" ++ ?x) with (47 :: x)%N.
    rewrite <- Ea. now rewrite Er at 1.
  - destruct Hk as [-> | (c & r & -> & Hc)]; [now left|].
    apply negb_false_iff, N.eqb_eq in Hc. subst c. right. now exists r.
Qed.

(** *** The S3 entry points *)


(** Leaving the [with] block on a fault: the fault is the one raised,
    unless removing the directory raises another. *)
Lemma cleanup_after_fault (tmp_dir : pystr) (inner e : exn) (w2 w' : World) :
  (let '(r, w3) := leave_with tmp_dir (@Raise PipelineResult inner, w2) in
   match r with
   | Ok final_payload => (Ok final_payload, w3)
   | Raise e1 => (Raise (pipeline_error e1), w3)
   end) = (Raise e, w') ->
  (e = pipeline_error inner /\
   TemporaryDirectory_cleanup tmp_dir w2 = (Ok tt, w')) \/
  (exists e1, e = pipeline_error e1 /\
              TemporaryDirectory_cleanup tmp_dir w2 = (Raise e1, w')).
Proof.
  unfold leave_with.
  destruct (TemporaryDirectory_cleanup tmp_dir w2) as [[[]|e1] w4];
    intros [= <- <-]; [left | right]; eauto.
Qed.

(** Whatever goes wrong in [process_pdf_from_s3], the caller sees a
    [RuntimeError] whose text is the fixed prefix followed by the text of
    the fault that stopped the function; no [ValueError] leaves it. That
    fault is the [ValueError] of a path the pattern rejects, raised before
    any service is touched; or what creating or removing the temporary
    directory raised; or what the download, [process_pdf], the dump or the
    upload raised, the directory then being removed before the function is
    left. *)
Theorem process_pdf_from_s3_raises_runtime_error :
  forall (input_s3_path output_s3_path : pystr) (w w' : World) (e : exn),
    process_pdf_from_s3 input_s3_path output_s3_path w = (Raise e, w') ->
    exists inner,
      e = Exn RuntimeError
              (lit "Error processing PDF from S3: " ++ exn_str inner) /\
      ((inner = Exn ValueError
                    (lit "Invalid S3 input path: " ++ input_s3_path) /\
        parse_s3_path input_s3_path = None /\ w' = w) \/
       (inner = Exn ValueError
                    (lit "Invalid S3 output path: " ++ output_s3_path) /\
        parse_s3_path output_s3_path = None /\ w' = w) \/
       TemporaryDirectory w = (Raise inner, w') \/
       (exists tmp_dir w0,
           TemporaryDirectory_cleanup tmp_dir w0 = (Raise inner, w')) \/
       (exists tmp_dir w0 w1,
           ((exists bucket key path,
                s3_download_file bucket key path w0 = (Raise inner, w1)) \/
            (exists pdf_key filename calls,
                process_pdf pdf_key filename w0 = (Raise inner, w1, calls)) \/
            (exists payload path,
                json_dump payload path w0 = (Raise inner, w1)) \/
            (exists path bucket key,
                s3_upload_file path bucket key w0 = (Raise inner, w1))) /\
           TemporaryDirectory_cleanup tmp_dir w1 = (Ok tt, w'))).
Proof.
  intros input output w w' e H. unfold process_pdf_from_s3 in H.
  destruct (parse_s3_path input) as [[in_bucket in_key]|];
    [|injection H as <- <-; eexists; split; [reflexivity|]; left; auto].
  destruct (parse_s3_path output) as [[out_bucket out_key]|];
    [|injection H as <- <-; eexists; split; [reflexivity|];
      right; left; auto].
  destruct (TemporaryDirectory w) as [[tmp_dir|e0] w1];
    [|injection H as <- <-; eexists; split; [reflexivity|];
      right; right; left; reflexivity].
  destruct (s3_download_file in_bucket in_key _ w1) as [[u|e0] w2] eqn:D.
  2:{ apply cleanup_after_fault in H as [[-> C] | (e1 & -> & C)];
      eexists; (split; [reflexivity|]); right; right; right;
      [right; exists tmp_dir, w1, w2; split; [left; eauto | exact C]
      |left; eauto]. }
  destruct (process_pdf in_key (basename in_key) w2)
    as [[[final_payload|e0] w3] calls] eqn:P.
  2:{ apply cleanup_after_fault in H as [[-> C] | (e1 & -> & C)];
      eexists; (split; [reflexivity|]); right; right; right;
      [right; exists tmp_dir, w2, w3; split; [right; left; eauto | exact C]
      |left; eauto]. }
  destruct (json_dump final_payload _ w3) as [[u0|e0] w4] eqn:J.
  2:{ apply cleanup_after_fault in H as [[-> C] | (e1 & -> & C)];
      eexists; (split; [reflexivity|]); right; right; right;
      [right; exists tmp_dir, w3, w4;
       split; [right; right; left; eauto | exact C]
      |left; eauto]. }
  destruct (s3_upload_file _ out_bucket out_key w4) as [[u1|e0] w5] eqn:U.
  2:{ apply cleanup_after_fault in H as [[-> C] | (e1 & -> & C)];
      eexists; (split; [reflexivity|]); right; right; right;
      [right; exists tmp_dir, w4, w5;
       split; [right; right; right; eauto | exact C]
      |left; eauto]. }
  unfold leave_with in H.
  destruct (TemporaryDirectory_cleanup tmp_dir w5) as [[[]|e1] w6] eqn:C;
    [discriminate|].
  injection H as <- <-. eexists. split; [reflexivity|].
  right; right; right; left. eauto.
Qed.

(** A path the pattern rejects stops [process_pdf_from_s3] before any
    service is touched: the world is unchanged and the error names the
    path, the input path first. *)
Lemma process_pdf_from_s3_rejects_invalid_paths :
  forall (input_s3_path output_s3_path : pystr) (w : World),
    (parse_s3_path input_s3_path = None ->
     process_pdf_from_s3 input_s3_path output_s3_path w =
     (Raise (pipeline_error
               (Exn ValueError
                    (lit "Invalid S3 input path: " ++ input_s3_path))), w)) /\
    (parse_s3_path input_s3_path <> None ->
     parse_s3_path output_s3_path = None ->
     process_pdf_from_s3 input_s3_path output_s3_path w =
     (Raise (pipeline_error
               (Exn ValueError
                    (lit "Invalid S3 output path: " ++ output_s3_path))), w)).
Proof.
  intros input output w. unfold process_pdf_from_s3. split.
  - now intros ->.
  - intros Hi ->. destruct (parse_s3_path input) as [[b k]|];
      [reflexivity | contradiction].
Qed.


Lemma output_key_parses (bucket processed_path : pystr) :
  bucket <> [] ->
  forallb (fun c => negb (c =? 47)%N) bucket = true ->
  forallb (fun c => negb (c =? newline)%N) processed_path = true ->
  parse_s3_path (lit "s3://" ++ bucket ++ lit "/" ++ processed_path
                     ++ lit "/eob-parsed.json") =
  Some (bucket, processed_path ++ lit "/eob-parsed.json").
Proof.
  intros Hb Hbs Hp. apply parse_s3_path_built; auto.
  - destruct processed_path; discriminate.
  - rewrite forallb_app, Hp. reflexivity.
Qed.

(** An empty document, end to end. When the extractor gives no page and
    every other service answers, the response is FAILED with an empty
    message, and it carries (and the bucket receives) a result that reports
    no error: no records, 4000 tokens. *)
Theorem run_pipeline_empty_document :
  forall (eob_id uploaded_path processed_path tmp_dir url : pystr)
         (w w1 w2 w3 w4 w5 w6 w7 : World) (u1 u2 u3 u4 : unit),
    S3_BUCKET <> [] ->
    forallb (fun c => negb (c =? 47)%N) S3_BUCKET = true ->
    uploaded_path <> [] ->
    forallb (fun c => negb (c =? newline)%N) uploaded_path = true ->
    forallb (fun c => negb (c =? newline)%N) processed_path = true ->
    TemporaryDirectory w = (Ok tmp_dir, w1) ->
    s3_download_file S3_BUCKET uploaded_path
                     (path_join tmp_dir (lit "input.pdf")) w1 = (Ok u1, w2) ->
    presign_s3url uploaded_path w2 = (Ok url, w3) ->
    get_text_and_tables_from_url url w3 = (Ok (Some []), w4) ->
    json_dump {| Records := VList []; TotalTokens := 4000;
                 WarningCodes := []; Error := [] |}
              (path_join tmp_dir (lit "output.json")) w4 = (Ok u2, w5) ->
    s3_upload_file (path_join tmp_dir (lit "output.json")) S3_BUCKET
                   (processed_path ++ lit "/eob-parsed.json") w5 =
    (Ok u3, w6) ->
    TemporaryDirectory_cleanup tmp_dir w6 = (Ok u4, w7) ->
    run_pipeline_from_s3_and_return_result
      eob_id uploaded_path processed_path w =
    ({| eventPayload :=
          {| eobId := eob_id;
             processedDataPath := processed_path;
             processingStatus := lit "FAILED";
             message := [];
             warningCodes := Some [] |};
        eobParsed := Some {| Records := VList []; TotalTokens := 4000;
                             WarningCodes := []; Error := [] |} |}, w7).
Proof.
  intros eob_id uploaded_path processed_path tmp_dir url
         w w1 w2 w3 w4 w5 w6 w7 u1 u2 u3 u4
         Hb Hbs Hu Hus Hps Ht Hd Hp Hx Hj Hup Hc.
  unfold run_pipeline_from_s3_and_return_result, process_pdf_from_s3.
  rewrite (parse_s3_path_built _ _ Hb Hbs Hu Hus).
  rewrite (output_key_parses _ _ Hb Hbs Hps).
  assert (process_pdf uploaded_path (basename uploaded_path) w2 =
          (Ok {| Records := VList []; TotalTokens := 4000;
                 WarningCodes := []; Error := [] |}, w4, [])) as Hpdf
    by (unfold process_pdf; now rewrite Hp, Hx).
  rewrite Ht. unfold leave_with. now rewrite Hd, Hpdf, Hj, Hup, Hc.
Qed.


(** An empty upload path never reaches S3: with a bucket name without [/]
    the input path has no key, and the response is FAILED, naming the path,
    in the world the call started from. *)
Theorem run_pipeline_empty_upload_path :
  forall (eob_id processed_path : pystr) (w : World),
    forallb (fun c => negb (c =? 47)%N) S3_BUCKET = true ->
    run_pipeline_from_s3_and_return_result eob_id [] processed_path w =
    ({| eventPayload :=
          {| eobId := eob_id;
             processedDataPath := processed_path;
             processingStatus := lit "FAILED";
             message :=
               lit "Error processing PDF from S3: Invalid S3 input path: s3://"
                   ++ S3_BUCKET ++ lit "/";
             warningCodes := None |};
        eobParsed := None |}, w).
Proof.
  intros eob_id processed_path w Hbs.
  assert (parse_s3_path (lit "s3://" ++ S3_BUCKET ++ lit "/" ++ []) = None)
    as Hn.
  { change (lit "s3://" ++ S3_BUCKET ++ lit "/" ++ [])
      with (115 :: 51 :: 58 :: 47 :: 47 :: S3_BUCKET ++ [47])%N.
    unfold parse_s3_path.
    destruct (take_while_stop (fun c => negb (c =? 47)%N) S3_BUCKET [] 47
                              Hbs eq_refl) as [-> ->].
    simpl. now rewrite orb_true_r. }
  unfold run_pipeline_from_s3_and_return_result, process_pdf_from_s3.
  now rewrite Hn.
Qed.

Lemma process_pdf_counts (pdf_key filename : pystr) (w w' : World)
    (out : result PipelineResult) (calls : list page_event) :
  process_pdf pdf_key filename w = (out, w', calls) ->
  Forall (fun ev => exists wa wb,
              count_tokens (ev_text ev) wa = (Ok (ev_tokens ev), wb)) calls.
Proof.
  intros H. destruct calls as [|ev calls]; [constructor|].
  destruct (process_pdf_loop _ _ _ _ _ _ H) as
    (url & w1 & payloads & w2 & exit & _ & _ & Hloop & _); [discriminate|].
  exact (page_loop_counts _ _ _ _ _ _ _ Hloop).
Qed.

End Pipeline.

(** ** The claims on sample runs *)

(** A run of [process_pdf] on test doubles: the pages the extractor gives
    and the answers of the model, call by call. *)
Local Abbreviation sample_run pages script :=
  (process_pdf sample_loads nat fixed_presign (fixed_pages pages) strict_tokens
               (scripted_llm script) sample_key sample_name 0).

Local Abbreviation sample_url :=
  (lit "https://bucket.s3.amazonaws.com/" ++ sample_key).

(** The two-page scenario of the specification: both pages carry claim C1,
    and the result has one record with both procedure lines and no error. *)
Example two_pages_one_claim :
  fst (fst (sample_run (Some [page_a; page_b])
                       [Ok (Some page1_json); Ok (Some page2_json)])) =
  Ok {| Records := VList [claim_record (lit "C1")
                            [VStr (lit "p1"); VStr (lit "p2")]];
        TotalTokens := 4030; WarningCodes := []; Error := [] |}.
Proof. vm_compute. reflexivity. Qed.

Lemma empty_document_reported_as_success_witness :
  sample_run (Some []) [] =
  (Ok {| Records := VList []; TotalTokens := 4000;
         WarningCodes := []; Error := [] |}, 0, []).
Proof.
  apply (empty_document_reported_as_success
           sample_loads nat fixed_presign (fixed_pages (Some [])) strict_tokens
           (scripted_llm []) sample_key sample_name sample_url 0 0 0);
    reflexivity.
Defined.

(** C2, as stated, fails for an empty output: when the model returns the
    empty string for page 2, the string is kept as a fragment and becomes the
    context, so the call for page 3 gets the empty string and not the output
    of page 1. *)
Lemma empty_output_replaces_context :
  exists ev1 ev2 ev3 w',
    sample_run (Some [page_a; page_b; page_c])
               [Ok (Some page1_json); Ok (Some []); Ok (Some page2_json)] =
    (Ok {| Records := VList [claim_record (lit "C1")
                               [VStr (lit "p1"); VStr (lit "p2")]];
           TotalTokens := 4045; WarningCodes := []; Error := [] |},
     w', [ev1; ev2; ev3]) /\
    ev_output ev1 = Ok (Some page1_json) /\
    ev_output ev2 = Ok (Some []) /\
    ev_context ev3 = [] /\
    ev_context ev3 <> page1_json /\
    fst (fst (page_loop nat strict_tokens
                (scripted_llm [Ok (Some page1_json); Ok (Some []);
                               Ok (Some page2_json)])
                [page_a; page_b; page_c] 1 initial_state 0)) =
    Finished {| token_count := 45;
                jsons := [page1_json; []; page2_json];
                context_json := page2_json |}.
Proof.
  do 4 eexists. split; [vm_compute; reflexivity|].
  repeat split; try reflexivity. vm_compute. discriminate.
Qed.

Lemma none_output_keeps_context_witness :
  page_loop nat strict_tokens (scripted_llm [Ok None; Ok (Some page2_json)])
            [page_b; page_c] 2
            {| token_count := 10; jsons := [page1_json];
               context_json := page1_json |} 0 =
  (let '(exit, w3, calls) :=
     page_loop nat strict_tokens (scripted_llm [Ok None; Ok (Some page2_json)])
               [page_c] 3
               {| token_count := 10 + 20; jsons := [page1_json];
                  context_json := page1_json |} 1 in
   (exit, w3,
    {| ev_page_number := 2; ev_text := page_b; ev_tokens := 20;
       ev_context := page1_json; ev_output := Ok None |} :: calls)) /\
  ev_context {| ev_page_number := 1; ev_text := page_a; ev_tokens := 10;
                ev_context := []; ev_output := Ok (Some page1_json) |} = [] /\
  ev_context {| ev_page_number := 2; ev_text := page_b; ev_tokens := 20;
                ev_context := page1_json; ev_output := Ok None |} =
  page1_json /\
  ev_context {| ev_page_number := 3; ev_text := page_c; ev_tokens := 15;
                ev_context := page1_json;
                ev_output := Ok (Some page2_json) |} = page1_json.
Proof.
  split.
  - apply (proj1 (none_output_keeps_context
                    sample_loads nat fixed_presign
                    (fixed_pages (Some [page_a; page_b; page_c]))
                    strict_tokens
                    (scripted_llm [Ok None; Ok (Some page2_json)]))
                 page_b [page_c] 2
                 {| token_count := 10; jsons := [page1_json];
                    context_json := page1_json |} 0 0 1 20%Z);
      reflexivity.
  - apply (proj2 (proj2 (none_output_keeps_context
                           sample_loads nat fixed_presign
                           (fixed_pages (Some [page_a; page_b; page_c]))
                           strict_tokens
                           (scripted_llm [Ok (Some page1_json); Ok None;
                                          Ok (Some page2_json)])))
                 sample_key sample_name 0 3
                 (Ok {| Records := VList [claim_record (lit "C1")
                                            [VStr (lit "p1"); VStr (lit "p2")]];
                        TotalTokens := 4045; WarningCodes := [];
                        Error := [] |}));
      [vm_compute; reflexivity | reflexivity | reflexivity].
Defined.

Lemma llm_fault_fails_fast_witness :
  (exists records,
      fst (fst (sample_run (Some [page_a; page_b; page_c])
                           [Ok (Some page1_json); Raise service_down;
                            Ok (Some page2_json)])) = Ok records /\
      Error records = llm_failure 2 service_down /\
      Error records <> [] /\
      Records records = VList [] /\
      TotalTokens records = 0%Z) /\
  List.length (snd (sample_run (Some [page_a; page_b; page_c])
                               [Ok (Some page1_json); Raise service_down;
                                Ok (Some page2_json)])) = 2 /\
  (exists context wb,
      scripted_llm [Ok (Some page1_json); Raise service_down;
                    Ok (Some page2_json)] context page_b wb =
      (Raise service_down,
       snd (fst (sample_run (Some [page_a; page_b; page_c])
                            [Ok (Some page1_json); Raise service_down;
                             Ok (Some page2_json)])))) /\
  snd (fst (sample_run (Some [page_a; page_b; page_c])
                       [Ok (Some page1_json); Raise service_down;
                        Ok (Some page2_json)])) = 2.
Proof.
  pose proof (llm_fault_fails_fast
                sample_loads nat fixed_presign
                (fixed_pages (Some [page_a; page_b; page_c])) strict_tokens
                (scripted_llm [Ok (Some page1_json); Raise service_down;
                               Ok (Some page2_json)])
                sample_key sample_name 0 2
                (Ok {| Records := VList []; TotalTokens := 0;
                       WarningCodes := [];
                       Error := llm_failure 2 service_down |})
                [{| ev_page_number := 1; ev_text := page_a; ev_tokens := 10;
                    ev_context := []; ev_output := Ok (Some page1_json) |};
                 {| ev_page_number := 2; ev_text := page_b; ev_tokens := 20;
                    ev_context := page1_json;
                    ev_output := Raise service_down |}]
                {| ev_page_number := 2; ev_text := page_b; ev_tokens := 20;
                   ev_context := page1_json;
                   ev_output := Raise service_down |}
                service_down) as H.
  destruct H as (Hres & _ & Hlen & Hworld);
    [vm_compute; reflexivity | simpl; auto | reflexivity |].
  destruct Hworld as (url & w1 & w2 & payloads & later & earlier & st & wa
                          & wb & _ & _ & _ & _ & _ & _ & Hf).
  split; [exact Hres|]. split; [reflexivity|].
  split; [exists (context_json st), wb; exact Hf | reflexivity].
Defined.

Lemma combine_records_appends_procs_witness :
  merge_record [(lit "123", claim_record (lit "123") [VStr (lit "A")])]
               (claim_record (lit "123") [VStr (lit "B")]) =
  Ok [(lit "123",
       claim_record (lit "123") [VStr (lit "A"); VStr (lit "B")])] /\
  combine_records sample_loads [fragment_123_a; fragment_123_b] =
  Ok (payload_of [claim_record (lit "123") [VStr (lit "A"); VStr (lit "B")]]).
Proof.
  split.
  - apply (proj1 (combine_records_appends_procs sample_loads)
                 [(lit "123", claim_record (lit "123") [VStr (lit "A")])]
                 (lit "123")
                 [(lit "Claim",
                   VDict [(lit "ClaimNum",
                           VDict [(lit "value", VStr (lit "123"))])]);
                  (lit "Procs", VList [VStr (lit "A")])]
                 [(lit "Claim",
                   VDict [(lit "ClaimNum",
                           VDict [(lit "value", VStr (lit "123"))])]);
                  (lit "Procs", VList [VStr (lit "B")])]
                 [VStr (lit "A")] [VStr (lit "B")]);
      try reflexivity; vm_compute; discriminate.
  - apply (proj2 (combine_records_appends_procs sample_loads)
                 fragment_123_a fragment_123_b
                 (VStr (lit "A")) (VStr (lit "B")));
      try reflexivity; vm_compute; discriminate.
Defined.

Lemma combine_records_distinct_in_first_seen_order_witness :
  exists records,
    payload_of [claim_record (lit "C1") [VStr (lit "p1"); VStr (lit "p2")];
                claim_record (lit "C2") []] =
    VDict [(lit "Records", VList records)] /\
    map claim_id_of records =
    map Ok (first_seen (input_claim_ids sample_loads
                          [page1_json; page3_json; page2_json])) /\
    NoDup (first_seen (input_claim_ids sample_loads
                         [page1_json; page3_json; page2_json])) /\
    (forall claim_id,
        In claim_id (first_seen (input_claim_ids sample_loads
                                   [page1_json; page3_json; page2_json])) <->
        In claim_id (input_claim_ids sample_loads
                       [page1_json; page3_json; page2_json])) /\
    List.length records =
    List.length (first_seen (input_claim_ids sample_loads
                               [page1_json; page3_json; page2_json])).
Proof.
  apply (combine_records_distinct_in_first_seen_order
           sample_loads [page1_json; page3_json; page2_json]).
  vm_compute. reflexivity.
Defined.

Lemma combine_records_drops_unidentifiable_witness :
  combine_records sample_loads ([page1_json] ++ page3_json :: [page2_json]) =
  combine_records sample_loads
                  ([page1_json] ++ page3_clean_json :: [page2_json]) /\
  ~ In (claim_record (lit " ") [VStr (lit "p3")])
       [claim_record (lit "C1") [VStr (lit "p1"); VStr (lit "p2")];
        claim_record (lit "C2") []].
Proof.
  assert (unidentifiable (claim_record (lit " ") [VStr (lit "p3")])) as Hu
    by (apply (blank_claim_value
                 _ [(lit "ClaimNum", VDict [(lit "value", VStr (lit " "))])]
                 [(lit "value", VStr (lit " "))] (lit " "));
        reflexivity).
  destruct (combine_records_drops_unidentifiable sample_loads _ Hu)
    as (_ & Hsame & Habsent).
  split.
  - apply (Hsame [page1_json] [page2_json] page3_json page3_clean_json
                 (payload_of [claim_record (lit " ") [VStr (lit "p3")];
                              claim_record (lit "C2") []])
                 (payload_of [claim_record (lit "C2") []])
                 [] [claim_record (lit "C2") []]);
      try reflexivity; vm_compute; discriminate.
  - apply (Habsent [page1_json; page3_json; page2_json]).
    vm_compute. reflexivity.
Defined.

(** C6, as stated, fails for a record whose identifier is absent because
    its claim is not an object, or because the record itself is null: reading
    the identifier raises [AttributeError], the merge is aborted, and the
    records of the other fragments are lost with it. *)
Lemma record_without_identifier_aborts_merge :
  ~ unidentifiable stray_claim_record /\
  ~ unidentifiable VNone /\
  combine_records shape_loads [page1_json; stray_claim_json; page2_json] =
  Raise (Exn AttributeError (lit "'str' object has no attribute 'get'")) /\
  combine_records shape_loads [page1_json; null_record_json; page2_json] =
  Raise (Exn AttributeError
           (lit "'NoneType' object has no attribute 'get'")) /\
  combine_records shape_loads [page1_json; page2_json] =
  Ok (payload_of [claim_record (lit "C1")
                               [VStr (lit "p1"); VStr (lit "p2")]]) /\
  fst (fst (process_pdf shape_loads nat fixed_presign
                        (fixed_pages (Some [page_a; page_b])) strict_tokens
                        (scripted_llm [Ok (Some page1_json);
                                       Ok (Some stray_claim_json)])
                        sample_key sample_name 0)) =
  Ok {| Records := VList []; TotalTokens := 0; WarningCodes := [];
        Error := lit "Failed to combine records: 'str' object has no attribute 'get'" |}.
Proof.
  split; [|split].
  - intros H. inversion H as [d Hm | d c Hc Hm | d c m Hc Hm Hv
                              | d c m t Hc Hm Hv Ht]; subst;
      discriminate.
  - intros H. inversion H.
  - repeat split; vm_compute; reflexivity.
Qed.

Lemma combine_records_skips_malformed_witness :
  combine_records sample_loads
                  ([page1_json] ++ lit "not json" :: [page2_json]) =
  combine_records sample_loads ([page1_json] ++ [page2_json]).
Proof.
  apply (combine_records_skips_malformed
           sample_loads [page1_json] [page2_json] (lit "not json")
           (Exn JSONDecodeError
                (lit "Expecting value: line 1 column 1 (char 0)")));
    reflexivity.
Defined.

Lemma total_tokens_on_success_witness :
  exists records,
    fst (fst (sample_run (Some [page_a; page_b; page_c])
                         [Ok (Some page1_json); Ok None;
                          Ok (Some page2_json)])) = Ok records /\
    TotalTokens records = (10 + 20 + 15 + 4000)%Z /\
    TotalTokens records = 4045%Z /\
    Error records = [].
Proof.
  destruct (total_tokens_on_success
              sample_loads nat fixed_presign
              (fixed_pages (Some [page_a; page_b; page_c])) strict_tokens
              (scripted_llm [Ok (Some page1_json); Ok None;
                             Ok (Some page2_json)])
              sample_key sample_name sample_url 0 0 0 3
              [page_a; page_b; page_c]
              (fst (fst (sample_run (Some [page_a; page_b; page_c])
                                    [Ok (Some page1_json); Ok None;
                                     Ok (Some page2_json)])))
              (snd (sample_run (Some [page_a; page_b; page_c])
                               [Ok (Some page1_json); Ok None;
                                Ok (Some page2_json)]))
              (payload_of [claim_record (lit "C1")
                             [VStr (lit "p1"); VStr (lit "p2")]]))
    as ((records & Hout & Htok & Herr & _) & _);
    try (vm_compute; reflexivity).
  - vm_compute. repeat constructor; eexists; reflexivity.
  - exists records. repeat split; assumption.
Defined.

Lemma count_tokens_fault_escapes_witness :
  sample_run (Some [page_special; page_a]) [Ok (Some page1_json)] =
  (Raise (Exn ValueError
            (lit "Encountered text corresponding to disallowed special token '<|endoftext|>'.")),
   0, []).
Proof.
  apply (count_tokens_fault_escapes
           sample_loads nat fixed_presign
           (fixed_pages (Some [page_special; page_a])) strict_tokens
           (scripted_llm [Ok (Some page1_json)])
           sample_key sample_name sample_url page_special [page_a] 0 0 0 0);
    reflexivity.
Defined.

Lemma warning_codes_always_empty_witness :
  WarningCodes {| Records := VList [claim_record (lit "C1") [VStr (lit "p1")];
                                    claim_record (lit "C2") []];
                  TotalTokens := 4045; WarningCodes := []; Error := [] |} = [].
Proof.
  apply (warning_codes_always_empty
           sample_loads nat fixed_presign
           (fixed_pages (Some [page_a; page_b; page_c])) strict_tokens
           (scripted_llm [Ok (Some page1_json); Ok (Some (lit "not json"));
                          Ok (Some page3_json)])
           sample_key sample_name 0 3 _
           (snd (sample_run (Some [page_a; page_b; page_c])
                            [Ok (Some page1_json); Ok (Some (lit "not json"));
                             Ok (Some page3_json)]))).
  vm_compute. reflexivity.
Defined.

(** C7, as stated, fails for a fragment that is not JSON and on which the
    parser raises another exception than [JSONDecodeError]: on 3000 opening
    brackets [json.loads] raises [RecursionError], which the merger does not
    catch, so the merge is aborted and the records of the other fragments
    are lost. *)
Lemma unparsable_fragment_aborts_merge :
  shape_loads deep_fragment =
  Raise (Exn RecursionError
           (lit "maximum recursion depth exceeded while decoding a JSON array from a unicode string")) /\
  combine_records shape_loads [page1_json; deep_fragment; page2_json] =
  Raise (Exn RecursionError
           (lit "maximum recursion depth exceeded while decoding a JSON array from a unicode string")) /\
  combine_records shape_loads [page1_json; page2_json] =
  Ok (payload_of [claim_record (lit "C1")
                               [VStr (lit "p1"); VStr (lit "p2")]]) /\
  combine_records shape_loads [page1_json; deep_fragment; page2_json] <>
  combine_records shape_loads [page1_json; page2_json].
Proof.
  repeat split; try (vm_compute; reflexivity).
  vm_compute. discriminate.
Qed.

(** ** The service wrappers *)

(** *** Stripping, joining and printing numbers *)

Lemma lstrip_app_keep (x y : pystr) (c : N) :
  isspace c = false -> lstrip (x ++ c :: y) = lstrip x ++ c :: y.
Proof.
  intros H. induction x as [|a x IH]; simpl.
  - now rewrite H.
  - destruct (isspace a); [exact IH | reflexivity].
Qed.

Lemma rstrip_app_keep (a t : pystr) (c : N) :
  isspace c = false -> rstrip ((a ++ [c]) ++ t) = (a ++ [c]) ++ rstrip t.
Proof.
  intros H. unfold rstrip. rewrite !rev_app_distr. simpl.
  rewrite (lstrip_app_keep (rev t) (rev a) c H).
  rewrite rev_app_distr. simpl. now rewrite rev_involutive.
Qed.

(** Stripping keeps a prefix that starts and ends with a character that is
    not white space. *)
Lemma strip_keeps_prefix (c0 c : N) (a t : pystr) :
  isspace c0 = false -> isspace c = false ->
  strip ((c0 :: a) ++ [c] ++ t) = (c0 :: a) ++ [c] ++ rstrip t.
Proof.
  intros H0 H. unfold strip.
  assert (lstrip ((c0 :: a) ++ [c] ++ t) = (c0 :: a) ++ [c] ++ t) as ->
    by (simpl; now rewrite H0).
  rewrite (app_assoc (c0 :: a) [c] t).
  rewrite (rstrip_app_keep (c0 :: a) t c H). now rewrite <- app_assoc.
Qed.

Lemma join_cons (sep p : pystr) (rest : list pystr) :
  join sep (p :: rest) =
  p ++ match rest with [] => [] | _ :: _ => sep ++ join sep rest end.
Proof. destruct rest; simpl; [now rewrite app_nil_r | reflexivity]. Qed.

Lemma lit_String (a : ascii) (s : string) :
  lit (String a s) = N_of_ascii a :: lit s.
Proof. reflexivity. Qed.

Lemma uint_no_space (u : Decimal.uint) :
  forallb (fun c => negb (isspace c)) (lit (NilEmpty.string_of_uint u)) = true.
Proof. induction u; simpl; rewrite ?lit_String; simpl; auto. Qed.

Lemma uint_not_empty (u : Decimal.uint) :
  u <> Decimal.Nil -> lit (NilEmpty.string_of_uint u) <> [].
Proof. destruct u; simpl; rewrite ?lit_String; congruence. Qed.

(** The decimal text of an integer is not empty and has no white space. *)
Lemma str_of_Z_ends (z : Z) :
  exists a c, str_of_Z z = a ++ [c] /\ isspace c = false.
Proof.
  assert (str_of_Z z <> [] /\
          forallb (fun c => negb (isspace c)) (str_of_Z z) = true) as [Hn Hs].
  { unfold str_of_Z. destruct z as [|p|p]; simpl.
    - split; [discriminate | reflexivity].
    - split; [apply uint_not_empty, Unsigned.to_uint_nonnil
             | apply uint_no_space].
    - rewrite lit_String. split; [discriminate|]. simpl. apply uint_no_space. }
  destruct (exists_last Hn) as (a & c & E). exists a, c. split; [exact E|].
  rewrite E, forallb_app in Hs. apply andb_true_iff in Hs as [_ Hc].
  simpl in Hc. rewrite andb_true_r in Hc. now apply negb_true_iff.
Qed.

(** *** Sorted page numbers *)

Lemma insert_sorted_In (x y : Z) (l : list Z) :
  In y (insert_sorted x l) <-> y = x \/ In y l.
Proof.
  induction l as [|z l IH]; simpl.
  - split; intros [H | H]; auto.
  - destruct (x <? z)%Z eqn:L; simpl.
    + split; intros [H | H]; auto.
    + destruct (x =? z)%Z eqn:E; simpl.
      * apply Z.eqb_eq in E; subst z. split; [auto|].
        intros [H | H]; auto.
      * rewrite IH. split; intros [H | [H | H]]; auto.
Qed.

Lemma sorted_set_In (keys : list Z) (y : Z) :
  In y (sorted_set keys) <-> In y keys.
Proof.
  induction keys as [|x keys IH]; simpl; [reflexivity|].
  rewrite insert_sorted_In, IH. split; intros [H | H]; auto.
Qed.

Lemma insert_sorted_HdRel (x y : Z) (l : list Z) :
  (y < x)%Z -> HdRel Z.lt y l -> HdRel Z.lt y (insert_sorted x l).
Proof.
  intros Hyx H. destruct l as [|z l]; simpl; [now constructor|].
  inversion H; subst.
  destruct (x <? z)%Z; [now constructor|].
  destruct (x =? z)%Z; now constructor.
Qed.

Lemma insert_sorted_Sorted (x : Z) (l : list Z) :
  Sorted Z.lt l -> Sorted Z.lt (insert_sorted x l).
Proof.
  induction l as [|z l IH]; simpl; intros H.
  - repeat constructor.
  - inversion H as [|? ? Hs Hh]; subst.
    destruct (x <? z)%Z eqn:L.
    + apply Z.ltb_lt in L. repeat constructor; assumption.
    + destruct (x =? z)%Z eqn:E; [exact H|].
      apply Z.ltb_ge in L. apply Z.eqb_neq in E.
      constructor; [now apply IH|].
      apply insert_sorted_HdRel; [lia | exact Hh].
Qed.

Lemma sorted_set_Sorted (keys : list Z) : Sorted Z.lt (sorted_set keys).
Proof.
  induction keys as [|x keys IH]; simpl; [constructor|].
  now apply insert_sorted_Sorted.
Qed.

(** *** Dictionaries over page numbers *)

Lemma key_eqb_eq (a b : option Z) : key_eqb a b = true <-> a = b.
Proof.
  destruct a as [x|], b as [y|]; simpl; try (split; congruence).
  rewrite Z.eqb_eq. split; congruence.
Qed.

Lemma assoc_set_keys {A} (key k : option Z) (v : A)
    (d : list (option Z * A)) :
  In k (map fst (assoc_set key_eqb key v d)) <-> k = key \/ In k (map fst d).
Proof.
  induction d as [|[k' x] d IH]; simpl.
  - intuition congruence.
  - destruct (key_eqb key k') eqn:E; simpl.
    + apply key_eqb_eq in E. subst k'. intuition congruence.
    + rewrite IH. intuition congruence.
Qed.

(** The keys of [page_text] are the numbers of the pages read. *)
Lemma read_pages_keys (pages : list helper.DocumentPage) :
  forall idx page_text k,
    In k (map fst (helper.read_pages pages idx page_text)) <->
    In k (map fst page_text) \/ In k (page_numbers_read pages idx).
Proof.
  induction pages as [|page rest IH]; intros idx page_text k; simpl.
  - intuition.
  - rewrite IH, assoc_set_keys. intuition congruence.
Qed.

(** The keys of [tables_by_page] are the pages of the tables read. *)
Lemma read_tables_keys (tables : list helper.DocumentTable) :
  forall idx tables_by_page k,
    In k (map fst (helper.read_tables tables idx tables_by_page)) <->
    In k (map fst tables_by_page) \/ In k (map helper.table_page tables).
Proof.
  induction tables as [|table rest IH]; intros idx tables_by_page k; simpl.
  - intuition.
  - rewrite IH, assoc_set_keys. intuition congruence.
Qed.

Lemma keys_of_read (pages : list helper.DocumentPage)
    (tables : list helper.DocumentTable) (k : option Z) :
  In k (helper.keys_of (helper.read_pages pages 1 [])
                       (helper.read_tables tables 1 [])) <->
  In k (numbers_read pages tables).
Proof.
  unfold helper.keys_of, numbers_read.
  rewrite !in_app_iff, read_pages_keys, read_tables_keys. simpl.
  intuition.
Qed.

Lemma page_numbers_read_given (pages : list helper.DocumentPage) :
  forall idx page key,
    In page pages ->
    helper.page_number page = Some key ->
    In key (page_numbers_read pages idx).
Proof.
  induction pages as [|p rest IH]; intros idx page key Hin Hk; simpl;
    [destruct Hin|].
  destruct Hin as [-> | Hin].
  - left. unfold helper.page_number_or. now rewrite Hk.
  - right. now apply (IH _ page).
Qed.

(** *** Sorting page numbers that may be [None] *)

Lemma has_None_In (keys : list (option Z)) :
  has_None keys = true <-> In None keys.
Proof.
  unfold has_None. rewrite existsb_exists. split.
  - intros ([n|] & Hin & H); [discriminate | exact Hin].
  - intros H. now exists None.
Qed.

Lemma ints_of_In (keys : list (option Z)) (n : Z) :
  In n (ints_of keys) <-> In (Some n) keys.
Proof.
  unfold ints_of. rewrite in_flat_map. split.
  - intros ([m|] & Hin & H); simpl in H;
      [destruct H as [-> | []]; exact Hin | destruct H].
  - intros H. exists (Some n). split; [exact H | now left].
Qed.

Lemma sorted_ints_In (keys : list (option Z)) (n : Z) :
  In n (sorted_set (ints_of keys)) <-> In (Some n) keys.
Proof. now rewrite sorted_set_In, ints_of_In. Qed.

(** What the sort returns has the members of the set, in order. *)
Lemma sorted_keys_Ok (none_on_the_left : bool) (keys numbers : list (option Z)) :
  sorted_keys none_on_the_left keys = Ok numbers ->
  in_page_order numbers /\ forall k, In k numbers <-> In k keys.
Proof.
  unfold sorted_keys. intros H.
  pose proof (sorted_ints_In keys) as Hi.
  destruct (has_None keys) eqn:E.
  - destruct (sorted_set (ints_of keys)) as [|x l]; [|discriminate].
    injection H as <-. split; [now left|].
    apply has_None_In in E.
    intros [n|]; simpl.
    + split; [intros [H | []]; discriminate|].
      intros H. now apply Hi in H.
    + intuition.
  - injection H as <-. split.
    + right. exists (sorted_set (ints_of keys)).
      split; [reflexivity | apply sorted_set_Sorted].
    + intros [n|]; rewrite in_map_iff.
      * split.
        -- intros (m & [= ->] & H). now apply Hi.
        -- intros H. exists n. split; [reflexivity | now apply Hi].
      * split.
        -- intros (m & Hm & _). discriminate.
        -- intros H. apply has_None_In in H. congruence.
Qed.

(** The sort raises exactly on a set that has [None] and an integer. *)
Lemma sorted_keys_Raise (none_on_the_left : bool) (keys : list (option Z))
    (e : exn) :
  sorted_keys none_on_the_left keys = Raise e <->
  In None keys /\ (exists n, In (Some n) keys) /\ e = unorderable none_on_the_left.
Proof.
  unfold sorted_keys. rewrite <- has_None_In.
  pose proof (sorted_ints_In keys) as Hi.
  destruct (has_None keys).
  - destruct (sorted_set (ints_of keys)) as [|x l].
    + split; [discriminate|]. intros (_ & (n & Hn) & _).
      now apply Hi in Hn.
    + split.
      * intros [= <-]. split; [reflexivity|]. split; [|reflexivity].
        exists x. apply Hi. now left.
      * now intros (_ & _ & ->).
  - split; [discriminate | intros (H & _); discriminate].
Qed.

Lemma page_numbers_of_Ok (none_on_the_left : bool)
    (page_text : list (option Z * pystr))
    (tables_by_page : list (option Z * list (nat * pystr)))
    (numbers : list (option Z)) :
  helper.page_numbers_of none_on_the_left page_text tables_by_page = Ok numbers ->
  numbers <> [] /\ in_page_order numbers /\
  forall k, In k (helper.keys_of page_text tables_by_page) -> In k numbers.
Proof.
  unfold helper.page_numbers_of. intros H.
  destruct (sorted_keys none_on_the_left (helper.keys_of page_text tables_by_page))
    as [l|e] eqn:E; [|discriminate].
  simpl in H. destruct (sorted_keys_Ok _ _ _ E) as (Ho & Hi).
  destruct l as [|x l]; injection H as <-.
  - split; [discriminate|]. split.
    + right. exists [1%Z]. split; [reflexivity | repeat constructor].
    + intros k Hk. apply Hi in Hk. destruct Hk.
  - split; [discriminate|]. split; [exact Ho|].
    intros k Hk. now apply Hi.
Qed.

Lemma page_numbers_of_Raise (none_on_the_left : bool)
    (page_text : list (option Z * pystr))
    (tables_by_page : list (option Z * list (nat * pystr))) (e : exn) :
  helper.page_numbers_of none_on_the_left page_text tables_by_page = Raise e <->
  In None (helper.keys_of page_text tables_by_page) /\
  (exists n, In (Some n) (helper.keys_of page_text tables_by_page)) /\
  e = unorderable none_on_the_left.
Proof.
  rewrite <- sorted_keys_Raise. unfold helper.page_numbers_of.
  destruct (sorted_keys none_on_the_left (helper.keys_of page_text tables_by_page))
    as [[|x l]|e0]; simpl; split; intros H; congruence.
Qed.

(** *** Payloads *)

Lemma str_of_key_ends (key : option Z) :
  exists a c, str_of_key key = a ++ [c] /\ isspace c = false.
Proof.
  destruct key as [n|]; [apply str_of_Z_ends|].
  exists (lit "Non"), 101%N. split; reflexivity.
Qed.

Lemma page_payload_labelled
    (page_text : list (option Z * pystr))
    (tables_by_page : list (option Z * list (nat * pystr)))
    (number : option Z) :
  exists rest,
    helper.page_payload page_text tables_by_page number =
    lit "PAGE_NUMBER: " ++ str_of_key number ++ rest.
Proof.
  destruct (str_of_key_ends number) as (a & c & E & Hc).
  assert (forall more : list pystr,
             exists rest,
               strip (join [newline; newline]
                           ((lit "PAGE_NUMBER: " ++ str_of_key number)
                              :: more)) =
               lit "PAGE_NUMBER: " ++ str_of_key number ++ rest) as H.
  { intros more. rewrite join_cons, E.
    set (tail := match more with [] => [] | _ :: _ => _ end).
    exists (rstrip tail).
    change (lit "PAGE_NUMBER: " ++ a ++ [c])
      with ((80%N :: skipn 1 (lit "PAGE_NUMBER: ") ++ a) ++ [c]).
    rewrite <- !app_assoc.
    exact (strip_keeps_prefix 80 c _ tail eq_refl Hc). }
  unfold helper.page_payload.
  destruct (is_empty _);
    destruct (helper.or_empty (assoc_get key_eqb number tables_by_page));
    apply H.
Qed.

(** No payload is empty, so none is left out. *)
Lemma build_payloads_all
    (page_text : list (option Z * pystr))
    (tables_by_page : list (option Z * list (nat * pystr)))
    (numbers : list (option Z)) :
  helper.build_payloads page_text tables_by_page numbers =
  map (helper.page_payload page_text tables_by_page) numbers.
Proof.
  unfold helper.build_payloads.
  induction numbers as [|n l IH]; simpl; [reflexivity|].
  destruct (page_payload_labelled page_text tables_by_page n) as (rest & ->).
  simpl. now rewrite IH.
Qed.

Lemma payloads_labelled
    (page_text : list (option Z * pystr))
    (tables_by_page : list (option Z * list (nat * pystr)))
    (numbers : list (option Z)) :
  Forall2 (fun key payload =>
             exists rest,
               payload = lit "PAGE_NUMBER: " ++ str_of_key key ++ rest)
          numbers
          (map (helper.page_payload page_text tables_by_page) numbers).
Proof.
  induction numbers as [|n l IH]; simpl; constructor;
    [apply page_payload_labelled | exact IH].
Qed.

(** *** The extractor: [get_text_and_tables_from_url] *)

Section Extractor.

Variable World : Type.
Variable begin_analyze_document_from_url :
  pystr -> pystr -> World -> result (option helper.AnalyzeResult) * World.
Variable None_on_the_left : list (option Z) -> bool.

Local Abbreviation ocr_processing :=
  (helper.ocr_processing World begin_analyze_document_from_url).
Local Abbreviation table_pass :=
  (helper.table_pass World begin_analyze_document_from_url).
Local Abbreviation get_text_and_tables_from_url :=
  (helper.get_text_and_tables_from_url World begin_analyze_document_from_url
                                       None_on_the_left).

Local Abbreviation page_text_of result :=
  (helper.read_pages (helper.or_empty (helper.pages result)) 1 []).
Local Abbreviation tables_by_page_of table_result :=
  (helper.read_tables (helper.tables_of table_result) 1 []).

Lemma get_text_and_tables_built (file_url : pystr) (w w1 w2 : World)
    (result : helper.AnalyzeResult)
    (table_result : option helper.AnalyzeResult) :
  ocr_processing file_url w = (Ok (Some result), w1) ->
  table_pass file_url result w1 = (table_result, w2) ->
  get_text_and_tables_from_url file_url w =
  (match helper.page_numbers_of
           (None_on_the_left (helper.keys_of (page_text_of result)
                                       (tables_by_page_of table_result)))
           (page_text_of result) (tables_by_page_of table_result) with
   | Raise e => Raise e
   | Ok page_numbers =>
       Ok (helper.build_payloads (page_text_of result)
                                 (tables_by_page_of table_result)
                                 page_numbers)
   end, w2).
Proof.
  intros H T. unfold helper.get_text_and_tables_from_url. rewrite H, T.
  now destruct (helper.page_numbers_of _ _ _).
Qed.

(** When the OCR gives a result in which no page number [None] stands
    beside an integer one, the extractor returns one payload per page
    number, in ascending order of the numbers, each starting with the label
    of its page; there is at least one, and every page of the result that
    carries a number has its payload, blank or not. *)
Theorem get_text_and_tables_labels_pages :
  forall (file_url : pystr) (w w1 w2 : World)
         (result : helper.AnalyzeResult)
         (table_result : option helper.AnalyzeResult),
    ocr_processing file_url w = (Ok (Some result), w1) ->
    table_pass file_url result w1 = (table_result, w2) ->
    (In None (numbers_read (helper.or_empty (helper.pages result))
                           (helper.tables_of table_result)) ->
     forall n, ~ In (Some n)
                    (numbers_read (helper.or_empty (helper.pages result))
                                  (helper.tables_of table_result))) ->
    exists (payloads : list pystr) (numbers : list (option Z)),
      get_text_and_tables_from_url file_url w = (Ok payloads, w2) /\
      numbers <> [] /\
      in_page_order numbers /\
      Forall2 (fun key payload =>
                 exists rest,
                   payload = lit "PAGE_NUMBER: " ++ str_of_key key ++ rest)
              numbers payloads /\
      (forall page key,
          In page (helper.or_empty (helper.pages result)) ->
          helper.page_number page = Some key ->
          In key numbers).
Proof.
  intros file_url w w1 w2 result table_result H T Hmix.
  rewrite (get_text_and_tables_built _ _ _ _ _ _ H T).
  destruct (helper.page_numbers_of _ _ _) as [numbers|e] eqn:P.
  - destruct (page_numbers_of_Ok _ _ _ _ P) as (Hne & Ho & Hin).
    exists (helper.build_payloads (page_text_of result)
                                  (tables_by_page_of table_result) numbers),
           numbers.
    split; [reflexivity|]. split; [exact Hne|]. split; [exact Ho|]. split.
    + rewrite build_payloads_all. apply payloads_labelled.
    + intros page key Hp Hk. apply Hin, keys_of_read.
      unfold numbers_read. apply in_or_app. left.
      now apply (page_numbers_read_given _ _ page).
  - apply page_numbers_of_Raise in P as (Hnone & (n & Hn) & _).
    apply keys_of_read in Hnone. apply keys_of_read in Hn.
    destruct (Hmix Hnone n Hn).
Qed.

(** A document without pages and tables still gives one payload, the bare
    label of page 1, whether the layout pass finds nothing or fails: the
    extractor returns the empty list only when the OCR gives no result. *)
Theorem get_text_and_tables_blank_document :
  forall (file_url : pystr) (w w1 w2 : World)
         (result : helper.AnalyzeResult)
         (layout : Datatypes.sum exn (option helper.AnalyzeResult)),
    ocr_processing file_url w = (Ok (Some result), w1) ->
    helper.or_empty (helper.pages result) = [] ->
    helper.or_empty (helper.tables result) = [] ->
    begin_analyze_document_from_url (lit "prebuilt-layout") file_url w1 =
    (match layout with inl e => Raise e | inr r => Ok r end, w2) ->
    match layout with
    | inr (Some r) => helper.or_empty (helper.tables r) = []
    | _ => True
    end ->
    get_text_and_tables_from_url file_url w = (Ok [lit "PAGE_NUMBER: 1"], w2).
Proof.
  intros file_url w w1 w2 result layout H Hp Ht Hl Hn.
  unfold helper.get_text_and_tables_from_url, helper.table_pass.
  rewrite H, Hp, Ht, Hl.
  destruct layout as [e|[r|]]; simpl; rewrite ?Hn, ?Ht; reflexivity.
Qed.

(** The extractor raises in two cases only: when its first OCR call raises,
    with the same exception, and when the page numbers it read have [None]
    beside an integer, with the [TypeError] of the sort. A fault of the
    layout pass never fails it. *)
Theorem get_text_and_tables_faults :
  forall (file_url : pystr) (w w' : World) (e : exn),
    get_text_and_tables_from_url file_url w = (Raise e, w') <->
    ocr_processing file_url w = (Raise e, w') \/
    exists (result : helper.AnalyzeResult) (w1 : World)
           (table_result : option helper.AnalyzeResult),
      ocr_processing file_url w = (Ok (Some result), w1) /\
      table_pass file_url result w1 = (table_result, w') /\
      In None (numbers_read (helper.or_empty (helper.pages result))
                            (helper.tables_of table_result)) /\
      (exists n, In (Some n)
                    (numbers_read (helper.or_empty (helper.pages result))
                                  (helper.tables_of table_result))) /\
      e = unorderable
            (None_on_the_left (helper.keys_of (page_text_of result)
                                        (tables_by_page_of table_result))).
Proof.
  intros file_url w w' e. split.
  - intros H.
    destruct (ocr_processing file_url w) as [[[result|]|e0] w1] eqn:E.
    + destruct (table_pass file_url result w1) as [table_result w2] eqn:T.
      rewrite (get_text_and_tables_built _ _ _ _ _ _ E T) in H.
      destruct (helper.page_numbers_of _ _ _) as [numbers|e0] eqn:P;
        [discriminate|].
      injection H as -> ->.
      apply page_numbers_of_Raise in P as (Hnone & (n & Hn) & ->).
      right. exists result, w1, table_result.
      split; [reflexivity|]. split; [exact T|].
      split; [now apply keys_of_read|].
      split; [exists n; now apply keys_of_read | reflexivity].
    + unfold helper.get_text_and_tables_from_url in H. rewrite E in H.
      discriminate.
    + unfold helper.get_text_and_tables_from_url in H. rewrite E in H.
      left. now injection H as -> ->.
  - intros [H | (result & w1 & table_result & H & T & Hnone & (n & Hn) & ->)].
    + unfold helper.get_text_and_tables_from_url. now rewrite H.
    + rewrite (get_text_and_tables_built _ _ _ _ _ _ H T).
      apply keys_of_read in Hnone. apply keys_of_read in Hn.
      set (none_on_the_left := None_on_the_left _).
      assert (helper.page_numbers_of none_on_the_left (page_text_of result)
                                     (tables_by_page_of table_result) =
              Raise (unorderable none_on_the_left)) as ->; [|reflexivity].
      apply page_numbers_of_Raise. split; [exact Hnone|].
      split; [now exists n | reflexivity].
Qed.

(** *** The orchestrator over this extractor *)

Variable json_loads : pystr -> result value.
Variable presign_s3url : pystr -> World -> result pystr * World.
Variable count_tokens : pystr -> World -> result Z * World.
Variable llm_processing :
  pystr -> pystr -> World -> result (option pystr) * World.

Local Abbreviation extractor :=
  (fun url w => let '(r, w') := get_text_and_tables_from_url url w in
                (not_None r, w')).

(** With the extractor of helper.py behind it, [process_pdf] never reports
    that the payload is [None]; and a result without error for which the
    model was never called can only come from an OCR that gave no result. *)
Theorem process_pdf_None_guard_is_dead :
  forall (pdf_key filename : pystr) (w w' : World)
         (records : PipelineResult) (calls : list page_event),
    process_pdf json_loads World presign_s3url extractor count_tokens
                llm_processing pdf_key filename w = (Ok records, w', calls) ->
    Error records <>
    lit "Generated payload out of get_text_and_tables_from_url is None" /\
    (Error records = [] -> calls = [] ->
     exists url w1 w2,
       presign_s3url pdf_key w = (Ok url, w1) /\
       ocr_processing url w1 = (Ok None, w2)).
Proof.
  intros pdf_key filename w w' records calls H. unfold process_pdf in H.
  destruct (presign_s3url pdf_key w) as [[url|e] w1];
    [|injection H as <- _ _; split; discriminate].
  destruct (ocr_processing url w1) as [[[result|]|e] w2] eqn:E.
  - destruct (table_pass url result w2) as [table_result w3] eqn:T.
    rewrite (get_text_and_tables_built _ _ _ _ _ _ E T) in H.
    destruct (helper.page_numbers_of _ _ _) as [numbers|e] eqn:P;
      simpl in H; [|injection H as <- _ _; split; discriminate].
    rewrite build_payloads_all in H.
    destruct (page_numbers_of_Ok _ _ _ _ P) as (Hne & _).
    destruct numbers as [|n l]; [contradiction|].
    simpl in H.
    destruct (count_tokens _ w3) as [[k|e] w4]; [|discriminate].
    destruct (llm_processing [] _ w4) as [[output|e] w5].
    + destruct (page_loop World count_tokens llm_processing _ 2 _ w5)
        as [[exit w6] calls0] eqn:L.
      destruct exit as [st|msg|e]; [| |discriminate].
      * destruct (combine_records json_loads (jsons st)) as [c|e];
          [destruct (py_get c (lit "Records") (VList []));
           [|discriminate]|];
          injection H as <- _ <-; split; discriminate.
      * injection H as <- _ <-.
        destruct (page_loop_failed _ _ _ _ _ _ _ _ _ _ L) as (i & e & ->).
        split; [|discriminate]. unfold llm_failure. discriminate.
    + injection H as <- _ <-. split; discriminate.
  - unfold helper.get_text_and_tables_from_url in H. rewrite E in H.
    simpl in H. injection H as <- _ _. split; [discriminate|].
    intros _ _. now exists url, w1, w2.
  - unfold helper.get_text_and_tables_from_url in H. rewrite E in H.
    simpl in H. injection H as <- _ _. split; discriminate.
Qed.

End Extractor.

(** *** Tables: [_format_table] *)

Lemma pair_eqb_eq (a b : Z * Z) : helper.pair_eqb a b = true <-> a = b.
Proof.
  destruct a as [a1 a2], b as [b1 b2]. unfold helper.pair_eqb. simpl.
  rewrite andb_true_iff, !Z.eqb_eq. split; [intros [-> ->] | intros [= -> ->]];
    auto.
Qed.

Lemma assoc_get_set_pair {A} (k k' : Z * Z) (v : A) (m : list ((Z * Z) * A)) :
  assoc_get helper.pair_eqb k (assoc_set helper.pair_eqb k' v m) =
  if helper.pair_eqb k k' then Some v else assoc_get helper.pair_eqb k m.
Proof.
  induction m as [|[k0 x] m IH]; simpl; [reflexivity|].
  destruct (helper.pair_eqb k' k0) eqn:E0; simpl.
  - apply pair_eqb_eq in E0; subst k0.
    now destruct (helper.pair_eqb k k').
  - rewrite IH. destruct (helper.pair_eqb k k0) eqn:E1; [|reflexivity].
    apply pair_eqb_eq in E1; subst k0.
    destruct (helper.pair_eqb k k') eqn:E2; [|reflexivity].
    apply pair_eqb_eq in E2; subst k'.
    assert (helper.pair_eqb k k = true) as E by now apply pair_eqb_eq.
    congruence.
Qed.

Local Abbreviation put_cell :=
  (fun m cell =>
     assoc_set helper.pair_eqb
               (helper.row_index cell, helper.column_index cell)
               (helper.cell_text cell) m).

Lemma cell_fold_lookup (k : Z * Z) (cells : list helper.DocumentTableCell) :
  forall m m',
    assoc_get helper.pair_eqb k m = assoc_get helper.pair_eqb k m' ->
    assoc_get helper.pair_eqb k (fold_left put_cell cells m) =
    assoc_get helper.pair_eqb k (fold_left put_cell cells m').
Proof.
  induction cells as [|c cells IH]; intros m m' H; simpl; [exact H|].
  apply IH. rewrite !assoc_get_set_pair. now rewrite H.
Qed.

Lemma cell_map_without (k : Z * Z)
    (before after : list helper.DocumentTableCell)
    (cell : helper.DocumentTableCell) :
  helper.pair_eqb k (helper.row_index cell, helper.column_index cell) = false ->
  assoc_get helper.pair_eqb k (helper.cell_map (before ++ cell :: after)) =
  assoc_get helper.pair_eqb k (helper.cell_map (before ++ after)).
Proof.
  intros H. unfold helper.cell_map. rewrite !fold_left_app. simpl.
  apply cell_fold_lookup. rewrite assoc_get_set_pair. now rewrite H.
Qed.

Lemma range_bounds (n x : Z) : In x (range n) -> (0 <= x < n)%Z.
Proof.
  unfold range. rewrite in_map_iff. intros (i & <- & Hi).
  apply in_seq in Hi. lia.
Qed.

(** A cell whose indices fall outside the declared grid of a table leaves
    no trace in the text of the table. *)
Theorem format_table_ignores_cells_outside_grid :
  forall (before after : list helper.DocumentTableCell)
         (cell : helper.DocumentTableCell)
         (regions : option (list helper.BoundingRegion))
         (rows columns : Z) (index : nat),
    (helper.row_index cell < 0 \/ rows <= helper.row_index cell \/
     helper.column_index cell < 0 \/ columns <= helper.column_index cell)%Z ->
    helper._format_table
      {| helper.bounding_regions := regions;
         helper.cells := before ++ cell :: after;
         helper.row_count := rows;
         helper.column_count := columns |} index =
    helper._format_table
      {| helper.bounding_regions := regions;
         helper.cells := before ++ after;
         helper.row_count := rows;
         helper.column_count := columns |} index.
Proof.
  intros before after cell regions rows columns index Hout.
  assert (map (helper.table_row (helper.cell_map (before ++ cell :: after))
                                columns) (range rows) =
          map (helper.table_row (helper.cell_map (before ++ after)) columns)
              (range rows)) as Hrows.
  { apply map_ext_in. intros r Hr. apply range_bounds in Hr.
    unfold helper.table_row. do 2 f_equal. apply map_ext_in. intros c Hc.
    apply range_bounds in Hc.
    rewrite cell_map_without; [reflexivity|].
    unfold helper.pair_eqb. cbn [fst snd]. apply andb_false_iff.
    destruct (Z.eqb_spec r (helper.row_index cell)) as [Er|Er];
      [|now left].
    destruct (Z.eqb_spec c (helper.column_index cell)) as [Ec|Ec];
      [|now right].
    lia. }
  unfold helper._format_table, helper.table_header.
  cbn [helper.cells helper.row_count helper.column_count].
  now rewrite Hrows.
Qed.

(** *** The tokenizer: [count_tokens] *)

Section Tokenizer.

Variable World : Type.
Variable Encoding : Type.
Variable encoding_for_model : pystr -> World -> result Encoding * World.
Variable get_encoding : pystr -> World -> result Encoding * World.
Variable encode : Encoding -> pystr -> World -> result (list Z) * World.

Local Abbreviation count_tokens :=
  (fun text =>
     helper.count_tokens World Encoding encoding_for_model get_encoding encode
                         text helper.default_model).

Lemma count_tokens_not_negative (text : pystr) (w w' : World) (n : Z) :
  count_tokens text w = (Ok n, w') -> (0 <= n)%Z.
Proof.
  unfold helper.count_tokens.
  destruct (encoding_for_model helper.default_model w) as [[enc|e] w1].
  - destruct (encode enc text w1) as [[tokens|e] w2]; [|discriminate].
    intros [= <- _]. lia.
  - destruct (match exn_class_of e with
              | KeyError => get_encoding (lit "cl100k_base") w1
              | _ => (Raise e, w1)
              end) as [[enc|e'] w2]; [|discriminate].
    destruct (encode enc text w2) as [[tokens|e'] w3]; [|discriminate].
    intros [= <- _]. lia.
Qed.

Variable json_loads : pystr -> result value.
Variable presign_s3url : pystr -> World -> result pystr * World.
Variable get_text_and_tables_from_url :
  pystr -> World -> result (option (list pystr)) * World.
Variable llm_processing :
  pystr -> pystr -> World -> result (option pystr) * World.

Lemma tokens_counted_not_negative (calls : list page_event) :
  Forall (fun ev => 0 <= ev_tokens ev)%Z calls ->
  (0 <= tokens_counted calls)%Z.
Proof.
  unfold tokens_counted. induction 1 as [|ev calls He _ IH]; simpl; lia.
Qed.

(** With the tokenizer of helper.py behind it, the total [process_pdf]
    reports is never negative, and is at least the overhead of 4000 on every
    result without error. *)
Theorem process_pdf_total_tokens_bounds :
  forall (pdf_key filename : pystr) (w w' : World)
         (records : PipelineResult) (calls : list page_event),
    process_pdf json_loads World presign_s3url get_text_and_tables_from_url
                count_tokens llm_processing pdf_key filename w =
    (Ok records, w', calls) ->
    (0 <= TotalTokens records)%Z /\
    (Error records = [] -> 4000 <= TotalTokens records)%Z.
Proof.
  intros pdf_key filename w w' records calls H.
  assert (0 <= tokens_counted calls)%Z as Hc.
  { apply tokens_counted_not_negative.
    pose proof (process_pdf_counts _ _ _ _ _ _ _ _ _ _ _ _ H) as Hf.
    eapply Forall_impl; [|exact Hf].
    intros ev (wa & wb & Hev). exact (count_tokens_not_negative _ _ _ _ Hev). }
  destruct (process_pdf_kinds _ _ _ _ _ _ _ _ _ _ _ _ H)
    as [(He & Ht & _) | (He & _ & Ht)]; rewrite Ht.
  - split; [lia | intros _; lia].
  - split; [lia | intros E; contradiction].
Qed.

End Tokenizer.

(** *** The model: [llm_processing] *)

Section Model.

Variable World : Type.
Variable system_prompt : pystr.
Variable chat_completions_create :
  list (pystr * pystr) -> World -> result helper.ChatCompletion * World.
Variable json_loads : pystr -> result value.
Variable json_dumps : value -> result pystr.

Local Abbreviation llm_processing :=
  (helper.llm_processing World system_prompt chat_completions_create
                         json_loads json_dumps).

(** [llm_processing] returns [None], which makes the orchestrator skip the
    page, only when the first choice of the reply has neither a tool call
    nor a content; a reply with a tool call gives a string or raises. *)
Theorem llm_processing_None_only_without_tool_call :
  forall (json_output current_page_text : pystr) (w w' : World),
    llm_processing json_output current_page_text w = (Ok None, w') ->
    exists response choice others,
      chat_completions_create
        [(lit "system", system_prompt);
         (lit "user", helper.user_prompt json_output current_page_text)] w =
      (Ok response, w') /\
      helper.choices response = choice :: others /\
      (helper.message_tool_calls choice = None \/
       helper.message_tool_calls choice = Some []) /\
      helper.message_content choice = None.
Proof.
  intros json_output text w w'. unfold helper.llm_processing.
  destruct (chat_completions_create _ w) as [[response|e] w1]; [|discriminate].
  destruct (helper.choices response) as [|choice others] eqn:C;
    [discriminate|].
  destruct (helper.message_tool_calls choice) as [[|tc tcs]|] eqn:T.
  - intros [= Hc <-]. exists response, choice, others. auto.
  - destruct (json_loads (helper.function_arguments tc)) as [args|e];
      simpl; [|discriminate].
    destruct (json_dumps args); simpl; discriminate.
  - intros [= Hc <-]. exists response, choice, others. auto.
Qed.

Variable count_tokens : pystr -> World -> result Z * World.

(** Tool-call arguments that are not JSON are fatal: where the merger skips
    a fragment it cannot parse, the page loop stops at the page, with the
    error message of that page and no call after it. *)
Theorem page_loop_stops_on_unparsable_arguments :
  forall (text : pystr) (rest : list pystr) (page_number : nat)
         (st : loop_state) (w w1 w2 : World) (n : Z)
         (response : helper.ChatCompletion) (choice : helper.ChatChoice)
         (others : list helper.ChatChoice) (tool_call : helper.ToolCall)
         (more : list helper.ToolCall) (e : exn),
    count_tokens text w = (Ok n, w1) ->
    chat_completions_create
      [(lit "system", system_prompt);
       (lit "user", helper.user_prompt (context_json st) text)] w1 =
    (Ok response, w2) ->
    helper.choices response = choice :: others ->
    helper.message_tool_calls choice = Some (tool_call :: more) ->
    json_loads (helper.function_arguments tool_call) = Raise e ->
    page_loop World count_tokens llm_processing (text :: rest) page_number
              st w =
    (Failed (llm_failure page_number e), w2,
     [{| ev_page_number := page_number; ev_text := text; ev_tokens := n;
         ev_context := context_json st; ev_output := Raise e |}]).
Proof.
  intros text rest k st w w1 w2 n response choice others tc more e
         Hc Hr Hch Ht Hl.
  simpl. rewrite Hc. unfold helper.llm_processing.
  now rewrite Hr, Hch, Ht, Hl.
Qed.

End Model.

(** ** The further properties on sample runs *)

Local Abbreviation odd_run pages script :=
  (process_pdf odd_loads nat fixed_presign (fixed_pages pages) strict_tokens
               (scripted_llm script) sample_key sample_name 0).

Local Abbreviation s3_run extractor tokens :=
  (run_pipeline_from_s3_and_return_result
     sample_loads nat fixed_presign extractor tokens (scripted_llm [])
     sample_bucket ok_transfer ok_transfer ok_tmp ok_cleanup ok_dump).

Lemma combine_records_rejects_non_object_witness :
  combine_records odd_loads ([page1_json] ++ list_json :: [page1_json]) =
  Raise (no_attribute (VList [VInt 1]) "get").
Proof.
  apply (combine_records_rejects_non_object
           odd_loads [page1_json] [page1_json] list_json (VList [VInt 1])
           [(lit "C1", claim_record (lit "C1") [VStr (lit "p1")])]);
    try reflexivity; vm_compute; discriminate.
Defined.

Lemma combine_records_rejects_non_string_claim_number_witness :
  claim_id_of (VDict numeric_claim_record) =
  Raise (no_attribute (VInt 123) "strip") /\
  combine_records odd_loads ([page1_json] ++ numeric_claim_json :: []) =
  Raise (no_attribute (VInt 123) "strip").
Proof.
  destruct (combine_records_rejects_non_string_claim_number
              odd_loads numeric_claim_record
              [(lit "ClaimNum", VDict [(lit "value", VInt 123)])]
              [(lit "value", VInt 123)] (VInt 123))
    as (Hid & Hmerge); try reflexivity.
  - intros s. discriminate.
  - split; [exact Hid|].
    apply (Hmerge [page1_json] [] numeric_claim_json
                  (payload_of [VDict numeric_claim_record]) [] []
                  [(lit "C1", claim_record (lit "C1") [VStr (lit "p1")])]
                  [(lit "C1", claim_record (lit "C1") [VStr (lit "p1")])]);
      try reflexivity; vm_compute; discriminate.
Defined.

Lemma process_pdf_context_is_last_fragment_witness :
  ev_context {| ev_page_number := 3; ev_text := page_c; ev_tokens := 15;
                ev_context := page1_json;
                ev_output := Ok (Some page2_json) |} =
  last (fragments_of
          [{| ev_page_number := 1; ev_text := page_a; ev_tokens := 10;
              ev_context := []; ev_output := Ok (Some page1_json) |};
           {| ev_page_number := 2; ev_text := page_b; ev_tokens := 20;
              ev_context := page1_json; ev_output := Ok None |}]) [].
Proof.
  apply (process_pdf_context_is_last_fragment
           sample_loads nat fixed_presign
           (fixed_pages (Some [page_a; page_b; page_c])) strict_tokens
           (scripted_llm [Ok (Some page1_json); Ok None; Ok (Some page2_json)])
           sample_key sample_name 0 3
           (Ok {| Records := VList [claim_record (lit "C1")
                                      [VStr (lit "p1"); VStr (lit "p2")]];
                  TotalTokens := 4045; WarningCodes := []; Error := [] |})
           _ []).
  vm_compute. reflexivity.
Defined.

Lemma process_pdf_calls_follow_pages_witness :
  (exists later,
      [page_a; page_b; page_c] =
      map ev_text
          (snd (sample_run (Some [page_a; page_b; page_c])
                           [Ok (Some page1_json); Raise service_down]))
          ++ later) /\
  map ev_page_number
      (snd (sample_run (Some [page_a; page_b; page_c])
                       [Ok (Some page1_json); Raise service_down])) =
  seq 1 (List.length
           (snd (sample_run (Some [page_a; page_b; page_c])
                            [Ok (Some page1_json); Raise service_down]))) /\
  List.length
    (snd (sample_run (Some [page_a; page_b; page_c])
                     [Ok (Some page1_json); Raise service_down])) <=
  List.length [page_a; page_b; page_c].
Proof.
  apply (process_pdf_calls_follow_pages
           sample_loads nat fixed_presign
           (fixed_pages (Some [page_a; page_b; page_c])) strict_tokens
           (scripted_llm [Ok (Some page1_json); Raise service_down])
           sample_key sample_name
           (lit "https://bucket.s3.amazonaws.com/" ++ sample_key) 0 0 0 2
           [page_a; page_b; page_c]
           (fst (fst (sample_run (Some [page_a; page_b; page_c])
                                 [Ok (Some page1_json); Raise service_down]))));
    vm_compute; reflexivity.
Defined.

Lemma process_pdf_result_kinds_witness :
  (Error {| Records := VList []; TotalTokens := 0; WarningCodes := [];
            Error := llm_failure 2 service_down |} = [] /\
   TotalTokens {| Records := VList []; TotalTokens := 0; WarningCodes := [];
                  Error := llm_failure 2 service_down |} =
   (tokens_counted
      (snd (sample_run (Some [page_a; page_b; page_c])
                       [Ok (Some page1_json); Raise service_down]))
    + 4000)%Z /\
   Forall answered
          (snd (sample_run (Some [page_a; page_b; page_c])
                           [Ok (Some page1_json); Raise service_down])) /\
   exists merged,
     combine_records sample_loads
       (fragments_of
          (snd (sample_run (Some [page_a; page_b; page_c])
                           [Ok (Some page1_json); Raise service_down]))) =
     Ok merged /\
     py_get merged (lit "Records") (VList []) =
     Ok (Records {| Records := VList []; TotalTokens := 0;
                    WarningCodes := [];
                    Error := llm_failure 2 service_down |})) \/
  (Error {| Records := VList []; TotalTokens := 0; WarningCodes := [];
            Error := llm_failure 2 service_down |} <> [] /\
   Records {| Records := VList []; TotalTokens := 0; WarningCodes := [];
              Error := llm_failure 2 service_down |} = VList [] /\
   TotalTokens {| Records := VList []; TotalTokens := 0; WarningCodes := [];
                  Error := llm_failure 2 service_down |} = 0%Z).
Proof.
  apply (process_pdf_result_kinds
           sample_loads nat fixed_presign
           (fixed_pages (Some [page_a; page_b; page_c])) strict_tokens
           (scripted_llm [Ok (Some page1_json); Raise service_down])
           sample_key sample_name 0 2).
  vm_compute. reflexivity.
Defined.

Lemma process_pdf_merge_fault_discards_tokens_witness :
  fst (fst (odd_run (Some [page_a; page_b])
                    [Ok (Some page1_json); Ok (Some list_json)])) =
  Ok {| Records := VList []; TotalTokens := 0; WarningCodes := [];
        Error := lit "Failed to combine records: "
                     ++ exn_str (no_attribute (VList [VInt 1]) "get") |}.
Proof.
  apply (process_pdf_merge_fault_discards_tokens
           odd_loads nat fixed_presign (fixed_pages (Some [page_a; page_b]))
           strict_tokens
           (scripted_llm [Ok (Some page1_json); Ok (Some list_json)])
           sample_key sample_name
           (lit "https://bucket.s3.amazonaws.com/" ++ sample_key) 0 0 0 2
           [page_a; page_b] _
           (snd (odd_run (Some [page_a; page_b])
                         [Ok (Some page1_json); Ok (Some list_json)])));
    try (vm_compute; reflexivity).
  vm_compute. repeat constructor; eexists; reflexivity.
Defined.

Lemma parse_s3_path_of_bucket_and_key_witness :
  parse_s3_path (lit "s3://" ++ sample_bucket ++ lit "/" ++ sample_key) =
  Some (sample_bucket, sample_key).
Proof.
  apply parse_s3_path_of_bucket_and_key;
    try reflexivity; vm_compute; discriminate.
Defined.

Lemma parse_s3_path_accepts_witness :
  lit "eob-bucket" <> [] /\ lit "eobs/a.pdf" <> [] /\
  forallb (fun c => negb (c =? 47)%N) (lit "eob-bucket") = true /\
  forallb (fun c => negb (c =? newline)%N) (lit "eobs/a.pdf") = true /\
  exists dropped,
    lit "s3://eob-bucket/eobs/a.pdf" ++ [newline] ++ lit "x" =
    lit "s3://" ++ lit "eob-bucket" ++ lit "/" ++ lit "eobs/a.pdf"
        ++ dropped /\
    (dropped = [] \/ exists rest, dropped = newline :: rest).
Proof.
  apply (parse_s3_path_accepts
           (lit "s3://eob-bucket/eobs/a.pdf" ++ [newline] ++ lit "x")).
  reflexivity.
Defined.

Lemma process_pdf_from_s3_raises_runtime_error_witness :
  exists inner,
    Exn RuntimeError
        (lit "Error processing PDF from S3: Invalid S3 input path: eobs/a.pdf")
    = Exn RuntimeError
          (lit "Error processing PDF from S3: " ++ exn_str inner) /\
    ((inner = Exn ValueError
                  (lit "Invalid S3 input path: " ++ lit "eobs/a.pdf") /\
      parse_s3_path (lit "eobs/a.pdf") = None /\ 0 = 0) \/
     (inner = Exn ValueError
                  (lit "Invalid S3 output path: "
                       ++ lit "s3://eob-bucket/out") /\
      parse_s3_path (lit "s3://eob-bucket/out") = None /\ 0 = 0) \/
     ok_tmp 0 = (Raise inner, 0) \/
     (exists tmp_dir w0, ok_cleanup tmp_dir w0 = (Raise inner, 0)) \/
     (exists tmp_dir w0 w1,
         ((exists bucket key path,
              ok_transfer bucket key path w0 = (Raise inner, w1)) \/
          (exists pdf_key filename calls,
              process_pdf sample_loads nat fixed_presign
                          (fixed_pages (Some [])) strict_tokens
                          (scripted_llm []) pdf_key filename w0 =
              (Raise inner, w1, calls)) \/
          (exists payload path, ok_dump payload path w0 = (Raise inner, w1)) \/
          (exists path bucket key,
              ok_transfer path bucket key w0 = (Raise inner, w1))) /\
         ok_cleanup tmp_dir w1 = (Ok tt, 0))).
Proof.
  apply (process_pdf_from_s3_raises_runtime_error
           sample_loads nat fixed_presign (fixed_pages (Some []))
           strict_tokens (scripted_llm [])
           ok_transfer ok_transfer ok_tmp ok_cleanup ok_dump
           (lit "eobs/a.pdf") (lit "s3://eob-bucket/out") 0 0).
  reflexivity.
Defined.


Lemma run_pipeline_empty_document_witness :
  s3_run (fixed_pages (Some [])) strict_tokens
         (lit "eob-1") sample_key (lit "parsed/eob-1") 0 =
  ({| eventPayload :=
        {| eobId := lit "eob-1";
           processedDataPath := lit "parsed/eob-1";
           processingStatus := lit "FAILED";
           message := [];
           warningCodes := Some [] |};
      eobParsed := Some {| Records := VList []; TotalTokens := 4000;
                           WarningCodes := []; Error := [] |} |}, 0).
Proof.
  apply (run_pipeline_empty_document
           sample_loads nat fixed_presign (fixed_pages (Some []))
           strict_tokens (scripted_llm [])
           sample_bucket ok_transfer ok_transfer ok_tmp ok_cleanup ok_dump
           (lit "eob-1") sample_key (lit "parsed/eob-1") sample_tmp_dir
           (lit "https://bucket.s3.amazonaws.com/" ++ sample_key)
           0 0 0 0 0 0 0 0 tt tt tt tt);
    try reflexivity; vm_compute; discriminate.
Defined.


Lemma run_pipeline_empty_upload_path_witness :
  s3_run (fixed_pages (Some [page_a])) strict_tokens
         (lit "eob-1") [] (lit "parsed/eob-1") 0 =
  ({| eventPayload :=
        {| eobId := lit "eob-1";
           processedDataPath := lit "parsed/eob-1";
           processingStatus := lit "FAILED";
           message :=
             lit "Error processing PDF from S3: Invalid S3 input path: s3://"
                 ++ sample_bucket ++ lit "/";
           warningCodes := None |};
      eobParsed := None |}, 0).
Proof.
  apply (run_pipeline_empty_upload_path
           sample_loads nat fixed_presign (fixed_pages (Some [page_a]))
           strict_tokens (scripted_llm [])
           sample_bucket ok_transfer ok_transfer ok_tmp ok_cleanup ok_dump).
  reflexivity.
Defined.

Lemma get_text_and_tables_labels_pages_witness :
  exists (payloads : list pystr) (numbers : list (option Z)),
    helper.get_text_and_tables_from_url
      nat (receipt_only (Some sample_result)) None_is_left sample_key 0 =
    (Ok payloads, 1) /\
    numbers <> [] /\
    in_page_order numbers /\
    Forall2 (fun key payload =>
               exists rest,
                 payload = lit "PAGE_NUMBER: " ++ str_of_key key ++ rest)
            numbers payloads /\
    (forall page key,
        In page (helper.or_empty (helper.pages sample_result)) ->
        helper.page_number page = Some key ->
        In key numbers).
Proof.
  apply (get_text_and_tables_labels_pages
           nat (receipt_only (Some sample_result)) None_is_left sample_key
           0 1 1 sample_result (Some sample_result)).
  - reflexivity.
  - reflexivity.
  - vm_compute. intros [H | [H | [H | []]]]; discriminate.
Defined.

Lemma get_text_and_tables_blank_document_witness :
  helper.get_text_and_tables_from_url
    nat (receipt_only (Some blank_result)) None_is_left sample_key 0 =
  (Ok [lit "PAGE_NUMBER: 1"], 2).
Proof.
  apply (get_text_and_tables_blank_document
           nat (receipt_only (Some blank_result)) None_is_left sample_key 0 1 2
           blank_result (inl service_down));
    reflexivity || exact I.
Defined.

Lemma get_text_and_tables_faults_witness :
  helper.get_text_and_tables_from_url
    nat (receipt_only (Some mixed_result)) None_is_left sample_key 0 =
  (Raise (Exn TypeError
            (lit "'<' not supported between instances of 'NoneType' and 'int'")),
   2) /\
  helper.get_text_and_tables_from_url nat failing_ocr None_is_left sample_key 0 =
  (Raise service_down, 1).
Proof.
  split.
  - apply (proj2 (get_text_and_tables_faults
                    nat (receipt_only (Some mixed_result)) None_is_left
                    sample_key 0 2 (unorderable true))).
    right. exists mixed_result, 1, (Some mixed_result).
    split; [reflexivity|]. split; [reflexivity|].
    split; [now left|]. split; [|reflexivity].
    exists 2%Z. right. now left.
  - apply (proj2 (get_text_and_tables_faults
                    nat failing_ocr None_is_left sample_key 0 1 service_down)).
    left. reflexivity.
Defined.

Lemma process_pdf_None_guard_is_dead_witness :
  Error {| Records := VList []; TotalTokens := 4000; WarningCodes := [];
           Error := [] |} <>
  lit "Generated payload out of get_text_and_tables_from_url is None" /\
  (Error {| Records := VList []; TotalTokens := 4000; WarningCodes := [];
            Error := [] |} = [] ->
   @nil page_event = [] ->
   exists url w1 w2,
     fixed_presign sample_key 0 = (Ok url, w1) /\
     helper.ocr_processing nat (receipt_only None) url w1 = (Ok None, w2)).
Proof.
  apply (process_pdf_None_guard_is_dead
           nat (receipt_only None) None_is_left sample_loads fixed_presign
           strict_tokens (scripted_llm []) sample_key sample_name 0 1).
  reflexivity.
Defined.

Lemma format_table_ignores_cells_outside_grid_witness :
  helper._format_table sample_ocr_table 1 =
  helper._format_table
    {| helper.bounding_regions :=
         Some [{| helper.region_page_number := Some 2%Z |}];
       helper.cells := sample_cells ++ [];
       helper.row_count := 2;
       helper.column_count := 2 |} 1.
Proof.
  apply (format_table_ignores_cells_outside_grid
           sample_cells [] stray_cell
           (Some [{| helper.region_page_number := Some 2%Z |}]) 2 2 1).
  simpl. lia.
Defined.

Lemma process_pdf_total_tokens_bounds_witness :
  (0 <= TotalTokens
          {| Records := VList [claim_record (lit "C1") [VStr (lit "p1")]];
             TotalTokens := 4030; WarningCodes := []; Error := [] |})%Z /\
  (Error {| Records := VList [claim_record (lit "C1") [VStr (lit "p1")]];
            TotalTokens := 4030; WarningCodes := []; Error := [] |} = [] ->
   4000 <= TotalTokens
             {| Records := VList [claim_record (lit "C1") [VStr (lit "p1")]];
                TotalTokens := 4030; WarningCodes := []; Error := [] |})%Z.
Proof.
  apply (process_pdf_total_tokens_bounds
           nat unit unknown_model any_encoding code_points
           sample_loads fixed_presign (fixed_pages (Some [page_a; page_b]))
           (scripted_llm [Ok (Some page1_json)])
           sample_key sample_name 0 2 _
           (snd (process_pdf
                   sample_loads nat fixed_presign
                   (fixed_pages (Some [page_a; page_b]))
                   (fun text =>
                      helper.count_tokens nat unit unknown_model any_encoding
                                          code_points text
                                          helper.default_model)
                   (scripted_llm [Ok (Some page1_json)])
                   sample_key sample_name 0))).
  vm_compute. reflexivity.
Defined.

Lemma llm_processing_None_only_without_tool_call_witness :
  exists response choice others,
    fixed_reply silent_reply
      [(lit "system", lit "Extract the EOB fields.");
       (lit "user", helper.user_prompt page1_json page_b)] 0 =
    (Ok response, 1) /\
    helper.choices response = choice :: others /\
    (helper.message_tool_calls choice = None \/
     helper.message_tool_calls choice = Some []) /\
    helper.message_content choice = None.
Proof.
  apply (llm_processing_None_only_without_tool_call
           nat (lit "Extract the EOB fields.") (fixed_reply silent_reply)
           sample_loads no_dumps page1_json page_b 0 1).
  reflexivity.
Defined.

Lemma page_loop_stops_on_unparsable_arguments_witness :
  page_loop nat strict_tokens
            (helper.llm_processing nat (lit "Extract the EOB fields.")
                                   (fixed_reply broken_reply)
                                   sample_loads no_dumps)
            [page_b; page_c] 2
            {| token_count := 10; jsons := [page1_json];
               context_json := page1_json |} 0 =
  (Failed (llm_failure 2
             (Exn JSONDecodeError
                  (lit "Expecting value: line 1 column 1 (char 0)"))), 1,
   [{| ev_page_number := 2; ev_text := page_b; ev_tokens := 20;
       ev_context := page1_json;
       ev_output :=
         Raise (Exn JSONDecodeError
                    (lit "Expecting value: line 1 column 1 (char 0)")) |}]).
Proof.
  apply (page_loop_stops_on_unparsable_arguments
           nat (lit "Extract the EOB fields.") (fixed_reply broken_reply)
           sample_loads no_dumps strict_tokens page_b [page_c] 2
           {| token_count := 10; jsons := [page1_json];
              context_json := page1_json |} 0 0 1 20%Z
           broken_reply
           {| helper.message_tool_calls :=
                Some [{| helper.function_arguments := lit "{'Records': [" |}];
              helper.message_content := None |}
           []
           {| helper.function_arguments := lit "{'Records': [" |} []);
    reflexivity.
Defined.
